(** * Isochrone meeting-point API: a shallow embedding of [main.py]

    The development follows the layout of the Python module:
    request validation ([MeetingPointRequest]), address deduplication,
    the geometry helpers ([_intersection], [_largest_component],
    [_polygonal_region]), the objective ([_objective_value]) and the
    request handler ([meeting_point]).

    Conventions.
    - Python [str] is [string]; [lower] and [strip] act on the ASCII
      letters and the ASCII white space characters.
    - Python [int] is [Z]; a Python [float] is the rational [Q] that a
      finite binary64 number denotes, and the arithmetic of the module
      on floats rounds to the nearest float (section Python floats);
      coordinates and areas are carried as the library returns them.
    - A raised exception is the [Err] branch of [Outcome].
    - The geometry library (shapely) is an interface: its operations are
      the fields of the class [Shapely]; the facts about it a theorem
      relies on are stated as hypotheses of that theorem.
    - The three Mapbox helpers [_geocode_address], [_fetch_isochrone] and
      [_travel_time_seconds] are the fields of the record [Mapbox], the
      way the test suite replaces them by fakes; every call to one of
      them is logged. *)

From Stdlib Require Import ZArith QArith Qround Qabs Qpower String Ascii List Bool Lia Lqa.
From stdpp Require Import base decidable list gmap strings.
Import ListNotations.

#[local] Open Scope Z_scope.
#[local] Open Scope string_scope.
#[local] Open Scope list_scope.

(** ** Exceptions *)

Inductive Exception : Type :=
| HTTPException (status_code : Z) (detail : string)
| ValueError (msg : string)
| RequestValidationError (fields : list string).

Inductive Outcome (A : Type) : Type :=
| Ok (a : A)
| Err (e : Exception).
Arguments Ok {A} a.
Arguments Err {A} e.

Definition obind {A B : Type} (m : Outcome A) (f : A -> Outcome B) : Outcome B :=
  match m with
  | Ok a => f a
  | Err e => Err e
  end.

Definition is_ok {A : Type} (m : Outcome A) : bool :=
  match m with Ok _ => true | Err _ => false end.

(** ** Configuration constants *)

Definition MAX_PARTICIPANTS : Z := 10.
Definition DEFAULT_MAX_MINUTES : Z := 15.
Definition MAX_MAX_MINUTES : Z := 60.
Definition SUPPORTED_OBJECTIVES : list string := ["min_sum"; "min_max"].
Definition SUPPORTED_PROFILES : list string := ["walking"].

(** ** Strings: [str.lower], [str.strip], [str.startswith] *)

Module Str.

Definition is_upper (c : ascii) : bool :=
  let n := N_of_ascii c in ((65 <=? n) && (n <=? 90))%N.

Definition lower_char (c : ascii) : ascii :=
  if is_upper c then ascii_of_N (N_of_ascii c + 32) else c.

Fixpoint lower (s : string) : string :=
  match s with
  | EmptyString => EmptyString
  | String c s' => String (lower_char c) (lower s')
  end.

(** The ASCII characters for which [str.isspace] holds:
    TAB, LF, VT, FF, CR, FS, GS, RS, US and SPACE. *)
Definition is_space (c : ascii) : bool :=
  let n := N_of_ascii c in
  (((9 <=? n) && (n <=? 13)) || ((28 <=? n) && (n <=? 32)))%N.

Fixpoint lstrip (s : string) : string :=
  match s with
  | EmptyString => EmptyString
  | String c s' => if is_space c then lstrip s' else s
  end.

(** [rstrip s] drops the trailing white space: a character is kept when
    something other than white space follows or it is itself not
    white space. *)
Fixpoint rstrip (s : string) : string :=
  match s with
  | EmptyString => EmptyString
  | String c s' =>
      match rstrip s' with
      | EmptyString => if is_space c then EmptyString else String c EmptyString
      | r => String c r
      end
  end.

Definition strip (s : string) : string := rstrip (lstrip s).

Definition truthy (s : string) : bool :=
  match s with EmptyString => false | _ => true end.

Fixpoint startswith (s p : string) : bool :=
  match p, s with
  | EmptyString, _ => true
  | String a p', String b s' => if Ascii.eqb a b then startswith s' p' else false
  | String _ _, EmptyString => false
  end.

(** [s.split("/", 1)[1]] for a string that contains a slash: what
    follows the first slash. *)
Fixpoint after_first_slash (s : string) : string :=
  match s with
  | EmptyString => EmptyString
  | String c s' => if Ascii.eqb c "/" then s' else after_first_slash s'
  end.

(** All white space removed, anywhere in the string. *)
Fixpoint remove_spaces (s : string) : string :=
  match s with
  | EmptyString => EmptyString
  | String c s' => if is_space c then remove_spaces s' else String c (remove_spaces s')
  end.

End Str.

(** ** The request model *)

(** The JSON body as it arrives, before validation. *)
Record RawRequest : Type := {
  raw_addresses : list string;
  raw_profile : option string;
  raw_max_minutes : option Z;
  raw_objective : option string;
  raw_grid_resolution_m : option Q;
  raw_city_hint : option string
}.

Record MeetingPointRequest : Type := {
  addresses : list string;
  profile : string;
  max_minutes : Z;
  objective : string;
  grid_resolution_m : option Q;
  city_hint : option string
}.

Definition member (s : string) (l : list string) : bool :=
  existsb (String.eqb s) l.

(** [addresses: List[str] = Field(..., min_length=1)] followed by the
    [validate_addresses] field validator. *)
Definition validate_addresses (value : list string) : Outcome (list string) :=
  let cleaned := List.map Str.strip (List.filter (fun addr => Str.truthy (Str.strip addr)) value) in
  match cleaned with
  | [] => Err (ValueError "addresses cannot be empty")
  | _ =>
      if (MAX_PARTICIPANTS <? Z.of_nat (length cleaned))%Z
      then Err (ValueError "maximum 10 addresses are supported")
      else Ok cleaned
  end.

Definition field_addresses (value : list string) : Outcome (list string) :=
  if (Z.of_nat (length value) <? 1)%Z
  then Err (ValueError "List should have at least 1 item")
  else validate_addresses value.

Definition normalize_profile (value : string) : Outcome string :=
  let profile := Str.lower value in
  let profile := if Str.startswith profile "mapbox/" then Str.after_first_slash profile else profile in
  if member profile SUPPORTED_PROFILES
  then Ok profile
  else Err (ValueError "profile must be one of: walking").

Definition normalize_objective (value : string) : Outcome string :=
  let objective := Str.lower value in
  if member objective SUPPORTED_OBJECTIVES
  then Ok objective
  else Err (ValueError "objective must be one of: min_max, min_sum").

(** [max_minutes: int = Field(DEFAULT_MAX_MINUTES, ge=5, le=MAX_MAX_MINUTES)] *)
Definition field_max_minutes (value : option Z) : Outcome Z :=
  match value with
  | None => Ok DEFAULT_MAX_MINUTES
  | Some m =>
      if (m <? 5)%Z then Err (ValueError "Input should be greater than or equal to 5")
      else if (MAX_MAX_MINUTES <? m)%Z then Err (ValueError "Input should be less than or equal to 60")
      else Ok m
  end.

(** [grid_resolution_m: Optional[float] = Field(None, gt=0)] *)
Definition field_grid_resolution_m (value : option Q) : Outcome (option Q) :=
  match value with
  | None => Ok None
  | Some r => if Qle_bool r 0 then Err (ValueError "Input should be greater than 0") else Ok (Some r)
  end.

Definition with_default (d : string) (f : string -> Outcome string) (value : option string) : Outcome string :=
  match value with
  | None => Ok d
  | Some v => f v
  end.

Definition failed {A : Type} (name : string) (m : Outcome A) : list string :=
  match m with Ok _ => [] | Err _ => [name] end.

(** Building the model: every field is validated, and the request is
    rejected with the list of the fields that failed. *)
Definition validate (raw : RawRequest) : Outcome MeetingPointRequest :=
  let a := field_addresses (raw_addresses raw) in
  let p := with_default "walking" normalize_profile (raw_profile raw) in
  let m := field_max_minutes (raw_max_minutes raw) in
  let o := with_default "min_sum" normalize_objective (raw_objective raw) in
  let g := field_grid_resolution_m (raw_grid_resolution_m raw) in
  match a, p, m, o, g with
  | Ok a', Ok p', Ok m', Ok o', Ok g' =>
      Ok {| addresses := a'; profile := p'; max_minutes := m'; objective := o';
            grid_resolution_m := g'; city_hint := raw_city_hint raw |}
  | _, _, _, _, _ =>
      Err (RequestValidationError
             (failed "addresses" a ++ failed "profile" p ++ failed "max_minutes" m
              ++ failed "objective" o ++ failed "grid_resolution_m" g))
  end.

(** ** Address deduplication *)

(** The loop of [_deduplicate_addresses], with its two variables [seen]
    and [deduped]. *)
Fixpoint dedup_loop (addresses : list string) (seen : gset string) (deduped : list string)
  : list string :=
  match addresses with
  | [] => deduped
  | addr :: rest =>
      let key := Str.lower addr in
      if decide (key ∈ seen) then dedup_loop rest seen deduped
      else dedup_loop rest ({[ key ]} ∪ seen) (deduped ++ [addr])
  end.

Definition _deduplicate_addresses (addresses : list string) : list string :=
  dedup_loop addresses ∅ [].

(** The deduplication in the words of the design: an address is kept
    exactly when no address before it ([before], in input order) has the
    same lower-cased form; the kept addresses stay in input order. *)
Fixpoint first_occurrences (before addresses : list string) : list string :=
  match addresses with
  | [] => []
  | addr :: rest =>
      if member (Str.lower addr) (List.map Str.lower before)
      then first_occurrences (before ++ [addr]) rest
      else addr :: first_occurrences (before ++ [addr]) rest
  end.

(** Two addresses that differ only by case or white space: equal once
    the letters are lower-cased and the white space is removed. *)
Definition differ_only_by_case_or_whitespace (a b : string) : Prop :=
  Str.lower (Str.remove_spaces a) = Str.lower (Str.remove_spaces b).

(** The participants of a request body: the validated addresses,
    deduplicated. *)
Definition participants_of (value : list string) : Outcome (list string) :=
  obind (field_addresses value) (fun cleaned => Ok (_deduplicate_addresses cleaned)).

(** ** Geometry *)

(** A shapely geometry, by class.  [polygon] is the data of one polygon
    (shell and holes; [POLYGON EMPTY] included) and [other] the data of a
    geometry of another class (Point, LineString, LinearRing, MultiPoint,
    MultiLineString). *)
#[warnings="-register-all"]
Inductive Geometry (polygon other : Type) : Type :=
| Polygon (p : polygon)
| MultiPolygon (geoms : list polygon)
| GeometryCollection (geoms : list (Geometry polygon other))
| Other (o : other).
Arguments Polygon {polygon other} p.
Arguments MultiPolygon {polygon other} geoms.
Arguments GeometryCollection {polygon other} geoms.
Arguments Other {polygon other} o.

(** The part of the shapely API the module calls. *)
Class Shapely (polygon other : Type) : Type := {
  (** [Polygon()] *)
  polygon_empty : polygon;
  (** [.is_empty] of a polygon and of a non-areal geometry *)
  polygon_is_empty : polygon -> bool;
  other_is_empty : other -> bool;
  (** [.area] of a polygon *)
  area : polygon -> Q;
  (** [a.intersection(b)] and [a.union(b)] *)
  intersection : Geometry polygon other -> Geometry polygon other -> Geometry polygon other;
  union : Geometry polygon other -> Geometry polygon other -> Geometry polygon other;
  (** [.centroid], as the pair [(x, y)] *)
  centroid : Geometry polygon other -> Q * Q
}.

Definition Qlt_bool (x y : Q) : bool := negb (Qle_bool y x).

Definition Qsum (values : list Q) : Q := fold_left Qplus values 0%Q.

(** The builtin [max(iterable, key=...)]: the first element whose key is
    not exceeded by a later one; on an empty sequence it raises
    [ValueError]. *)
Fixpoint max_loop {A : Type} (key : A -> Q) (best : A) (l : list A) : A :=
  match l with
  | [] => best
  | x :: rest => if Qlt_bool (key best) (key x) then max_loop key x rest else max_loop key best rest
  end.

Definition py_max {A : Type} (key : A -> Q) (l : list A) : Outcome A :=
  match l with
  | [] => Err (ValueError "max() arg is an empty sequence")
  | x :: rest => Ok (max_loop key x rest)
  end.

Section Geometry.

Context {polygon other : Type} `{Shapely polygon other}.

#[local] Abbreviation geometry := (Geometry polygon other).

(** [.is_empty]: a multi-part geometry is empty when all its parts are. *)
Fixpoint is_empty (g : geometry) : bool :=
  match g with
  | Polygon p => polygon_is_empty p
  | MultiPolygon ps => forallb polygon_is_empty ps
  | GeometryCollection gs => forallb is_empty gs
  | Other o => other_is_empty o
  end.


(** [isinstance(geom, (Polygon, MultiPolygon))] *)
Definition is_polygonal (g : geometry) : bool :=
  match g with
  | Polygon _ | MultiPolygon _ => true
  | _ => false
  end.

Definition _intersection (polygons : list geometry) : Outcome geometry :=
  match polygons with
  | [] => Err (HTTPException 500 "No polygons to intersect")
  | first :: rest => Ok (fold_left (fun acc poly => intersection acc poly) rest first)
  end.

(** The accumulated intersection in the words of the design: it starts
    from the first region and meets each following region in turn. *)
Inductive Accumulated : list geometry -> geometry -> Prop :=
| accumulated_first (g : geometry) : Accumulated [g] g
| accumulated_next (l : list geometry) (acc g : geometry) :
    Accumulated l acc -> Accumulated (l ++ [g]) (intersection acc g).

Definition _largest_component (g : geometry) : Outcome geometry :=
  match g with
  | MultiPolygon ps => obind (py_max area ps) (fun p => Ok (Polygon p))
  | _ => Ok g
  end.

Definition _polygonal_region (g : geometry) : Outcome geometry :=
  if is_empty g then Ok g
  else
    match g with
    | Polygon _ | MultiPolygon _ => _largest_component g
    | GeometryCollection gs =>
        match List.filter is_polygonal gs with
        | [] => Ok (Polygon polygon_empty)
        | first :: rest =>
            let merged := fold_left (fun merged poly => union merged poly) rest first in
            _largest_component merged
        end
    | Other _ => Ok (Polygon polygon_empty)
    end.

(** Two geometries of the same class with the same parts: the parts of
    a multi-part geometry may be listed in any order. *)
Inductive same_parts : geometry -> geometry -> Prop :=
| same_polygon (p : polygon) : same_parts (Polygon p) (Polygon p)
| same_multipolygon (ps qs : list polygon) :
    Permutation ps qs -> same_parts (MultiPolygon ps) (MultiPolygon qs)
| same_collection (gs hs : list geometry) :
    Permutation gs hs -> same_parts (GeometryCollection gs) (GeometryCollection hs)
| same_other (o : other) : same_parts (Other o) (Other o).




End Geometry.

(** ** Python floats: [/], [round], [sum], [max]

    A Python float is a binary64 number.  A finite one is represented by
    the rational it denotes, and [fl x] is the float nearest to the
    rational [x], a tie going to the even significand: it is what an
    arithmetic operation on floats returns for its exact result [x].
    Significands have 53 bits and the least exponent is that of the
    subnormal numbers; infinities and NaN are not represented, so a
    result beyond the largest float (about 1.8e308) is out of the
    model. *)

(** Rounding to the nearest integer, ties to the even one. *)
Definition round_half_even (x : Q) : Z :=
  let f := Qfloor x in
  match Qcompare (x - inject_Z f) (1 # 2) with
  | Lt => f
  | Gt => f + 1
  | Eq => if Z.even f then f else f + 1
  end.

(** The exponent of the leading bit of a rational other than zero:
    [2 ^ Qlog2 x <= |x| < 2 ^ (Qlog2 x + 1)]. *)
Definition Qlog2 (x : Q) : Z :=
  let a := Qabs x in
  if Qle_bool 1 a then Z.log2 (Qfloor a) else - Z.log2_up (Qceiling (/ a)).

(** The nearest float: 53 significant bits from the leading bit on, and
    no bit below [2 ^ -1074]. *)
Definition fl (x : Q) : Q :=
  let x := Qred x in
  if Qeq_bool x 0 then 0%Q
  else
    let e := Z.max (Qlog2 x - 52) (-1074) in
    Qred (inject_Z (round_half_even (x / 2 ^ e)) * 2 ^ e).

(** [x / y], [x + y] and [x - y] on floats; the module divides by 60
    only. *)
Definition float_div (x y : Q) : Q := fl (x / y).
Definition float_add (x y : Q) : Q := fl (x + y).
Definition float_sub (x y : Q) : Q := fl (x - y).

(** [round(x, ndigits)] on a float: the exact value of [x] is rounded to
    the closest multiple of [10 ** -ndigits], a tie going to the even
    multiple, and the result is the float nearest to that decimal. *)
Definition py_round (x : Q) (ndigits : nat) : Q :=
  let scale := inject_Z (10 ^ Z.of_nat ndigits) in
  fl (inject_Z (round_half_even (x * scale)) / scale).

(** The interpreter.  The builtin [sum] adds floats from left to right
    up to CPython 3.11 and by a compensated summation from CPython 3.12
    on; nothing else the module uses depends on the version. *)
Inductive Summation : Type :=
| LeftToRight
| Compensated.

Class Python : Type := summation : Summation.

(** The loop of the compensated summation: the running total and the
    compensation, which collects the rounding error of each addition. *)
Fixpoint compensated (total c : Q) (values : list Q) : Q * Q :=
  match values with
  | [] => (total, c)
  | x :: rest =>
      let t := float_add total x in
      let lost :=
        if Qle_bool (Qabs x) (Qabs total)
        then float_add (float_sub total t) x
        else float_add (float_sub x t) total in
      compensated t (float_add c lost) rest
  end.

(** [sum(values)] on floats, from the start value [0]: the first item
    is added to the integer [0], the others to a float. *)
Definition py_sum `{Python} (values : list Q) : Q :=
  match values with
  | [] => 0%Q
  | first :: rest =>
      let start := float_add 0 first in
      match summation with
      | LeftToRight => fold_left float_add rest start
      | Compensated =>
          let '(total, c) := compensated start 0 rest in
          if Qeq_bool c 0 then total else float_add total c
      end
  end.

Definition _objective_value `{Python} (values : list Q) (objective : string) : Outcome Q :=
  if String.eqb objective "min_sum" then Ok (py_sum values)
  else py_max (fun v => v) values.

(** ** The Mapbox services and the call log *)

(** A coordinate is the pair [(lng, lat)]. *)
Definition Coordinate : Type := (Q * Q)%type.

(** One call to a Mapbox helper: the helper and its arguments (the HTTP
    client and the token left out). *)
Inductive Call : Type :=
| GeocodeCall (address : string) (city_hint : option string)
| IsochroneCall (coordinate : Coordinate) (minutes : Z) (profile : string)
| DirectionsCall (origin destination : Coordinate) (profile : string).

(** The environment of a request: the [MAPBOX_TOKEN] variable and the
    answers of the three helpers, each either a value or the
    [HTTPException] the helper raises. *)
Record Mapbox (polygon other : Type) : Type := {
  MAPBOX_TOKEN : option string;
  _geocode_address : string -> option string -> string -> Outcome Coordinate;
  _fetch_isochrone : Coordinate -> Z -> string -> string -> Outcome (Geometry polygon other);
  _travel_time_seconds : Coordinate -> Coordinate -> string -> string -> Outcome Q
}.
Arguments MAPBOX_TOKEN {polygon other} m.
Arguments _geocode_address {polygon other} m _ _ _.
Arguments _fetch_isochrone {polygon other} m _ _ _ _.
Arguments _travel_time_seconds {polygon other} m _ _ _ _.

(** ** The response *)

Module Response.

Record Point : Type := { lat : Q; lng : Q }.

Record Participant : Type := {
  address : string;
  p_lat : Q;
  p_lng : Q;
  eta_minutes : Q
}.

(** The dictionary returned for a resolved request; [reason] is the
    key that is only set when the verdict is false. *)
Record Body (polygon other : Type) : Type := {
  meeting_point : Point;
  participants : list Participant;
  objective : string;
  objective_value : Q;
  max_minutes : Z;
  reachable : bool;
  intersection_polygons_geojson : Geometry polygon other;
  reason : option string
}.
Arguments meeting_point {polygon other} b.
Arguments participants {polygon other} b.
Arguments objective {polygon other} b.
Arguments objective_value {polygon other} b.
Arguments max_minutes {polygon other} b.
Arguments reachable {polygon other} b.
Arguments intersection_polygons_geojson {polygon other} b.
Arguments reason {polygon other} b.

Inductive t (polygon other : Type) : Type :=
(** the [JSONResponse] with status 200 and the keys [reachable],
    [reason] and [max_minutes] *)
| Infeasible (reachable : bool) (reason : string) (max_minutes : Z)
| Resolved (body : Body polygon other).
Arguments Infeasible {polygon other} reachable reason max_minutes.
Arguments Resolved {polygon other} body.

End Response.

(** ** The handler monad: a call log and an outcome *)

Module Handler.

(** A computation of the handler: the calls it made, in order, and its
    value or the exception that ended it. *)
Definition Run (A : Type) : Type := (list Call * Outcome A)%type.

Definition ret {A : Type} (a : A) : Run A := ([], Ok a).

Definition raise {A : Type} (e : Exception) : Run A := ([], Err e).

Definition bind {A B : Type} (m : Run A) (f : A -> Run B) : Run B :=
  match m with
  | (log, Ok a) => let '(log', r) := f a in (log ++ log', r)
  | (log, Err e) => (log, Err e)
  end.

Definition lift {A : Type} (m : Outcome A) : Run A := ([], m).

(** One awaited call of a helper. *)
Definition await {A : Type} (c : Call) (answer : Outcome A) : Run A := ([c], answer).

(** The list of the values when every outcome is one, the first
    exception otherwise. *)
Fixpoint sequence {A : Type} (l : list (Outcome A)) : Outcome (list A) :=
  match l with
  | [] => Ok []
  | Ok a :: rest => obind (sequence rest) (fun r => Ok (a :: r))
  | Err e :: _ => Err e
  end.

(** [await asyncio.gather] over a list of tasks: every task is
    started, so every call of the batch is made; the values come back
    in the order of the tasks.  When several tasks fail, the exception
    kept here is that of the first failing task of the list. *)
Definition gather {A : Type} (tasks : list (Run A)) : Run (list A) :=
  (concat (List.map fst tasks), sequence (List.map snd tasks)).

End Handler.
Import Handler.

Declare Scope run_scope.
Delimit Scope run_scope with run.
Notation "'do' x <- m ; k" := (bind m (fun x => k))
  (at level 10, x name, m at level 100, k at level 200) : run_scope.

(** ** The handler [meeting_point] *)

Section MeetingPoint.

Context {polygon other : Type} `{Shapely polygon other} `{Python}.
Variable mapbox : Mapbox polygon other.

#[local] Abbreviation geometry := (Geometry polygon other).
#[local] Open Scope run_scope.

Definition _mapbox_token : Outcome string :=
  match MAPBOX_TOKEN mapbox with
  | Some token =>
      if Str.truthy token then Ok token
      else Err (HTTPException 500 "MAPBOX_TOKEN environment variable is required")
  | None => Err (HTTPException 500 "MAPBOX_TOKEN environment variable is required")
  end.

Definition geocode_tasks (addresses : list string) (city_hint : option string) (token : string)
  : list (Run Coordinate) :=
  List.map (fun address =>
              await (GeocodeCall address city_hint)
                    (_geocode_address mapbox address city_hint token))
           addresses.

Definition iso_tasks (coords : list Coordinate) (minutes : Z) (profile token : string)
  : list (Run geometry) :=
  List.map (fun coord =>
              await (IsochroneCall coord minutes profile)
                    (_fetch_isochrone mapbox coord minutes profile token))
           coords.

Definition travel_tasks (coords : list Coordinate) (destination : Coordinate)
           (profile token : string) : list (Run Q) :=
  List.map (fun coord =>
              await (DirectionsCall coord destination profile)
                    (_travel_time_seconds mapbox coord destination profile token))
           coords.

(** The inner function [compute_with_minutes]. *)
Definition compute_with_minutes (coords : list Coordinate) (profile token : string)
           (minutes : Z) : Run geometry :=
  do shapes <- gather (iso_tasks coords minutes profile token);
  lift (_intersection shapes).

(** [zip(addresses, coords, durations_minutes)] into the participant
    dictionaries. *)
Fixpoint zip_participants (addresses : list string) (coords : list Coordinate)
         (durations_minutes : list Q) : list Response.Participant :=
  match addresses, coords, durations_minutes with
  | address :: addresses', coord :: coords', eta :: etas' =>
      {| Response.address := address;
         Response.p_lat := snd coord;
         Response.p_lng := fst coord;
         Response.eta_minutes := eta |}
        :: zip_participants addresses' coords' etas'
  | _, _, _ => []
  end.

Definition no_common_reachable_region (effective_max_minutes : Z) : Response.t polygon other :=
  Response.Infeasible false "no_common_reachable_region" effective_max_minutes.

(** The handler from the candidate region on: centroid, travel times,
    objective and verdict. *)
Definition evaluate (payload : MeetingPointRequest) (token : string)
           (addresses : list string) (coords : list Coordinate)
           (effective_max_minutes : Z) (region : geometry) : Run (Response.t polygon other) :=
  let centroid := centroid region in
  let meeting_point := {| Response.lat := snd centroid; Response.lng := fst centroid |} in
  do durations_seconds <-
     gather (travel_tasks coords (fst centroid, snd centroid) (profile payload) token);
  let durations_minutes := List.map (fun d => py_round (float_div d 60) 1) durations_seconds in
  let participants := zip_participants addresses coords durations_minutes in
  do value <- lift (_objective_value durations_minutes (objective payload));
  let objective_value := py_round value 2 in
  let reachable :=
    forallb (fun d => Qle_bool d (inject_Z effective_max_minutes + (1 # 2))) durations_minutes in
  ret (Response.Resolved
         {| Response.meeting_point := meeting_point;
            Response.participants := participants;
            Response.objective := objective payload;
            Response.objective_value := objective_value;
            Response.max_minutes := effective_max_minutes;
            Response.reachable := reachable;
            Response.intersection_polygons_geojson := region;
            Response.reason :=
              if reachable then None else Some "travel_time_exceeds_budget" |}).

(** The handler from the geocoded coordinates on: the intersection at
    the requested budget, the bump, the two emptiness tests. *)
Definition resolve (payload : MeetingPointRequest) (token : string)
           (addresses : list string) (coords : list Coordinate) : Run (Response.t polygon other) :=
  let effective_max_minutes := max_minutes payload in
  do intersection_geom <-
     compute_with_minutes coords (profile payload) token effective_max_minutes;
  do bumped_state <-
     (if is_empty intersection_geom && (max_minutes payload <? MAX_MAX_MINUTES)%Z
      then
        let bumped := Z.min MAX_MAX_MINUTES (max_minutes payload + 5) in
        do intersection_geom' <- compute_with_minutes coords (profile payload) token bumped;
        ret (intersection_geom', bumped)
      else ret (intersection_geom, effective_max_minutes));
  let intersection_geom := fst bumped_state in
  let effective_max_minutes := snd bumped_state in
  if is_empty intersection_geom
  then ret (no_common_reachable_region effective_max_minutes)
  else
    do region <- lift (_polygonal_region intersection_geom);
    if is_empty region
    then ret (no_common_reachable_region effective_max_minutes)
    else evaluate payload token addresses coords effective_max_minutes region.

Definition meeting_point (payload : MeetingPointRequest) : Run (Response.t polygon other) :=
  do token <- lift _mapbox_token;
  let addresses := _deduplicate_addresses (addresses payload) in
  match addresses with
  | [] => raise (HTTPException 400 "No addresses supplied after deduplication")
  | _ =>
      do coords <- gather (geocode_tasks addresses (city_hint payload) token);
      resolve payload token addresses coords
  end.

(** The route [POST /api/meeting-point]: the body is validated into
    the model first; a body that fails validation never reaches the
    handler. *)
Definition post_meeting_point (raw : RawRequest) : Run (Response.t polygon other) :=
  match validate raw with
  | Ok payload => meeting_point payload
  | Err e => raise e
  end.

End MeetingPoint.

(** ** Vocabulary for the properties of the handler *)

Section Vocabulary.

Context {polygon other : Type} `{Shapely polygon other} `{Python}.
Variable mapbox : Mapbox polygon other.

(** The calls of one batch. *)
Definition geocode_calls (addresses : list string) (city_hint : option string) : list Call :=
  List.map (fun address => GeocodeCall address city_hint) addresses.

Definition isochrone_calls (coords : list Coordinate) (minutes : Z) (profile : string)
  : list Call :=
  List.map (fun coord => IsochroneCall coord minutes profile) coords.

Definition directions_calls (coords : list Coordinate) (destination : Coordinate)
           (profile : string) : list Call :=
  List.map (fun coord => DirectionsCall coord destination profile) coords.

Definition is_isochrone_call (c : Call) : bool :=
  match c with IsochroneCall _ _ _ => true | _ => false end.

Definition is_geocode_call (c : Call) : bool :=
  match c with GeocodeCall _ _ => true | _ => false end.

(** The answers of one batch, when all of them are values. *)
Definition geocoded (addresses : list string) (city_hint : option string) (token : string)
  : Outcome (list Coordinate) :=
  sequence (List.map (fun address => _geocode_address mapbox address city_hint token) addresses).

Definition isochrones (coords : list Coordinate) (minutes : Z) (profile token : string)
  : Outcome (list (Geometry polygon other)) :=
  sequence (List.map (fun coord => _fetch_isochrone mapbox coord minutes profile token) coords).

Definition travel_times (coords : list Coordinate) (destination : Coordinate)
           (profile token : string) : Outcome (list Q) :=
  sequence (List.map (fun coord => _travel_time_seconds mapbox coord destination profile token)
                     coords).

(** The intersection of the regions fetched at a budget: the geometry
    on which the handler takes its decisions. *)
Definition intersection_at (payload : MeetingPointRequest) (token : string)
           (coords : list Coordinate) (minutes : Z) : Outcome (Geometry polygon other) :=
  obind (isochrones coords minutes (profile payload) token) _intersection.

(** The same region normalized to its largest polygon. *)
Definition feasible_region_at (payload : MeetingPointRequest) (token : string)
           (coords : list Coordinate) (minutes : Z) : Outcome (Geometry polygon other) :=
  obind (intersection_at payload token coords minutes) _polygonal_region.

(** The tail of the handler, after the bump: the two emptiness tests
    and the evaluation. *)
Definition conclude (payload : MeetingPointRequest) (token : string)
           (addresses : list string) (coords : list Coordinate)
           (intersection_geom : Geometry polygon other) (effective : Z)
  : Run (Response.t polygon other) :=
  if is_empty intersection_geom
  then ret (no_common_reachable_region effective)
  else
    bind (lift (_polygonal_region intersection_geom))
         (fun region =>
            if is_empty region
            then ret (no_common_reachable_region effective)
            else evaluate mapbox payload token addresses coords effective region).

(** What a resolved answer is made of. *)
Definition made_of (payload : MeetingPointRequest) (addresses : list string)
           (coords : list Coordinate) (effective : Z) (region : Geometry polygon other)
           (secs : list Q) (value : Q) (body : Response.Body polygon other) : Prop :=
  let etas := List.map (fun d => py_round (float_div d 60) 1) secs in
  Response.meeting_point body
  = {| Response.lat := snd (centroid region); Response.lng := fst (centroid region) |}
  /\ Response.participants body = zip_participants addresses coords etas
  /\ Response.objective body = objective payload
  /\ Response.objective_value body = py_round value 2
  /\ Response.max_minutes body = effective
  /\ Response.reachable body
     = forallb (fun d => Qle_bool d (inject_Z effective + (1 # 2))) etas
  /\ Response.intersection_polygons_geojson body = region
  /\ Response.reason body
     = (if Response.reachable body then None else Some "travel_time_exceeds_budget").

(** The budget after one step of escalation. *)
Definition bumped_minutes (payload : MeetingPointRequest) : Z :=
  Z.min MAX_MAX_MINUTES (max_minutes payload + 5).

(** A request that got past the token and the geocoding: [coords] are
    the coordinates of its deduplicated addresses. *)
Definition started (payload : MeetingPointRequest) (token : string)
           (coords : list Coordinate) : Prop :=
  _mapbox_token mapbox = Ok token
  /\ _deduplicate_addresses (addresses payload) <> []
  /\ geocoded (_deduplicate_addresses (addresses payload)) (city_hint payload) token
     = Ok coords.

(** The statement that the escalation is decided on the normalized
    region: when that region is empty at a requested budget below the
    ceiling, a report of "no_common_reachable_region" comes after the
    regions were fetched again at the escalated budget. *)
Definition escalates_on_normalized_region (payload : MeetingPointRequest) : Prop :=
  forall (token : string) (coords : list Coordinate) (region : Geometry polygon other)
         (effective : Z),
    started payload token coords ->
    (max_minutes payload < MAX_MAX_MINUTES)%Z ->
    feasible_region_at payload token coords (max_minutes payload) = Ok region ->
    is_empty region = true ->
    snd (meeting_point mapbox payload)
    = Ok (Response.Infeasible false "no_common_reachable_region" effective) ->
    incl (isochrone_calls coords (bumped_minutes payload) (profile payload))
         (fst (meeting_point mapbox payload)).

End Vocabulary.

(** The statement that addresses differing only by case or white space
    become one participant: two participants that both differ from the
    same input address only by case or white space are the same. *)
Definition collapses_case_and_whitespace (value : list string) : Prop :=
  forall (deduped : list string) (a d d' : string),
    participants_of value = Ok deduped ->
    In a value ->
    In d deduped ->
    In d' deduped ->
    differ_only_by_case_or_whitespace a d ->
    differ_only_by_case_or_whitespace a d' ->
    d = d'.

(** ** A geometry of boxes

    An instance of the interface in which every geometry is an
    axis-aligned rectangle with integer corners, the rectangle that
    encloses its parts.  The intersection of two rectangles is exact: a
    rectangle, a segment or a point when they only touch, nothing when
    they are apart.  It serves to run the handler on concrete inputs. *)

Module Boxes.

(** The rectangle [[x0, x1] x [y0, y1]]; it has no point when a lower
    bound exceeds the upper one. *)
Record Box : Type := box { x0 : Z; y0 : Z; x1 : Z; y1 : Z }.

Definition proper (b : Box) : bool := (x0 b <=? x1 b)%Z && (y0 b <=? y1 b)%Z.

Definition areal (b : Box) : bool := (x0 b <? x1 b)%Z && (y0 b <? y1 b)%Z.

(** The envelope of a geometry: [None] when it has no point. *)
Definition norm (b : Box) : option Box := if proper b then Some b else None.

(** The common part of two rectangles. *)
Definition inf (a b : Box) : Box :=
  box (Z.max (x0 a) (x0 b)) (Z.max (y0 a) (y0 b))
      (Z.min (x1 a) (x1 b)) (Z.min (y1 a) (y1 b)).

Definition meet (a b : option Box) : option Box :=
  match a, b with
  | Some a, Some b => norm (inf a b)
  | _, _ => None
  end.

(** An envelope is [None] or a rectangle that has a point. *)
Definition normal (e : option Box) : Prop :=
  match e with Some b => proper b = true | None => True end.

Definition hull (a b : option Box) : option Box :=
  match a, b with
  | Some a, Some b =>
      Some (box (Z.min (x0 a) (x0 b)) (Z.min (y0 a) (y0 b))
                (Z.max (x1 a) (x1 b)) (Z.max (y1 a) (y1 b)))
  | Some a, None => Some a
  | None, e => e
  end.

Definition hulls (l : list (option Box)) : option Box := fold_right hull None l.

Fixpoint envelope (g : Geometry Box Box) : option Box :=
  match g with
  | Polygon p => norm p
  | MultiPolygon ps => hulls (List.map norm ps)
  | GeometryCollection gs => hulls (List.map envelope gs)
  | Other o => norm o
  end.

Definition empty_box : Box := box 0 0 (-1) (-1).

(** A rectangle with an interior is a polygon, a segment or a point is
    not; the empty result is [POLYGON EMPTY]. *)
Definition of_envelope (e : option Box) : Geometry Box Box :=
  match e with
  | Some b => if areal b then Polygon b else Other b
  | None => Polygon empty_box
  end.

Definition box_area (b : Box) : Q :=
  if proper b then inject_Z ((x1 b - x0 b) * (y1 b - y0 b)) else 0%Q.

Definition box_centroid (g : Geometry Box Box) : Q * Q :=
  match envelope g with
  | Some b => (((x0 b + x1 b) # 2)%Q, ((y0 b + y1 b) # 2)%Q)
  | None => (0%Q, 0%Q)
  end.

#[global] Instance shapely : Shapely Box Box := {|
  polygon_empty := empty_box;
  polygon_is_empty := fun b => negb (proper b);
  other_is_empty := fun b => negb (proper b);
  area := box_area;
  intersection := fun a b => of_envelope (meet (envelope a) (envelope b));
  union := fun a b =>
    match hull (envelope a) (envelope b) with
    | Some b => Polygon b
    | None => Polygon empty_box
    end;
  centroid := box_centroid
|}.

(** The integer points of a geometry. *)
Definition contains (g : Geometry Box Box) (pt : Z * Z) : Prop :=
  match envelope g with
  | Some b => (x0 b <= fst pt <= x1 b)%Z /\ (y0 b <= snd pt <= y1 b)%Z
  | None => False
  end.

(** A geometry covers the unit cell with lower left corner [cell] when
    it contains two opposite corners of the cell, hence, being a
    rectangle, all of it. *)
Definition covers_cell (g : Geometry Box Box) (cell : Z * Z) : Prop :=
  contains g cell /\ contains g (fst cell + 1, snd cell + 1)%Z.

(** Regions with a common area: some unit cell lies in all of them. *)
Definition has_common_area (l : list (Geometry Box Box)) : Prop :=
  exists cell : Z * Z, forall g, In g l -> covers_cell g cell.

(** The statement that the region returned by the reducer is empty
    exactly when the regions have no common area. *)
Definition empty_iff_no_common_area (l : list (Geometry Box Box)) : Prop :=
  forall r, _intersection l = Ok r -> (is_empty r = true <-> ~ has_common_area l).

(** [shapely.geometry.box(minx, miny, maxx, maxy)] *)
Definition mkbox (minx miny maxx maxy : Z) : Geometry Box Box :=
  Polygon (box minx miny maxx maxy).

End Boxes.

(** ** A geometry of tiles

    A second instance of the interface, with multi-part geometries: a
    polygon is a unit tile of the integer grid, named by its lower left
    corner, or [POLYGON EMPTY]; a geometry stands for the set of the
    tiles it lists.  The intersection lists the common tiles in the order
    in which its first operand lists them, the union the tiles of its
    first operand and then the new ones of the second: the result of
    either has the same parts for every order of the operands, listed in
    an order that depends on it. *)

Module Tiles.

Definition Tile : Type := option (Z * Z).

(** A geometry without area: a point of the grid. *)
Definition Point : Type := (Z * Z)%type.

Fixpoint tiles (g : Geometry Tile Point) : list (Z * Z) :=
  match g with
  | Polygon p => option_list p
  | MultiPolygon ps => flat_map option_list ps
  | GeometryCollection gs => flat_map tiles gs
  | Other _ => []
  end.

(** No tile is [POLYGON EMPTY], one tile is a polygon, several tiles are
    a multi-polygon. *)
Definition of_tiles (ts : list (Z * Z)) : Geometry Tile Point :=
  match ts with
  | [] => Polygon None
  | [t] => Polygon (Some t)
  | _ => MultiPolygon (List.map Some ts)
  end.

Definition tile_area (p : Tile) : Q :=
  match p with
  | Some _ => 1%Q
  | None => 0%Q
  end.

(** The centroid of tiles of equal area: the mean of their centres. *)
Definition tile_centroid (g : Geometry Tile Point) : Q * Q :=
  match tiles g with
  | [] => (0%Q, 0%Q)
  | ts =>
      let n := inject_Z (Z.of_nat (length ts)) in
      (Qred (Qsum (List.map (fun t => inject_Z (fst t)) ts) / n + (1 # 2)),
       Qred (Qsum (List.map (fun t => inject_Z (snd t)) ts) / n + (1 # 2)))
  end.

Definition common (a b : Geometry Tile Point) : list (Z * Z) :=
  filter (fun t => t ∈ tiles b) (remove_dups (tiles a)).

Definition joined (a b : Geometry Tile Point) : list (Z * Z) :=
  remove_dups (tiles a ++ tiles b).

#[global] Instance shapely : Shapely Tile Point := {|
  polygon_empty := None;
  polygon_is_empty := fun p => match p with Some _ => false | None => true end;
  other_is_empty := fun _ => false;
  area := tile_area;
  intersection := fun a b => of_tiles (common a b);
  union := fun a b => of_tiles (joined a b);
  centroid := tile_centroid
|}.

(** The multi-polygon of the tiles with the given lower left corners. *)
Definition region (corners : list (Z * Z)) : Geometry Tile Point :=
  MultiPolygon (List.map Some corners).

End Tiles.

(** ** Scenarios

    The fakes of the test suite: a token, one coordinate per address,
    isochrones given by a function of the coordinate and the budget, and
    the same travel time for everyone. *)

Module Scenarios.

Import Boxes.

(** The interpreter of the scenarios: a current CPython. *)
#[global] Instance python : Python := Compensated.

Definition fake_geocode (address : string) : Coordinate :=
  if String.eqb address "A st" then (0, 0)%Q else (1, 0)%Q.

Definition fake (isochrone : Coordinate -> Z -> Geometry Box Box) (seconds : Q)
  : Mapbox Box Box :=
  {| MAPBOX_TOKEN := Some "test-token";
     _geocode_address := fun address _ _ => Ok (fake_geocode address);
     _fetch_isochrone := fun coord minutes _ _ => Ok (isochrone coord minutes);
     _travel_time_seconds := fun _ _ _ _ => Ok seconds |}.

(** Everyone reaches the unit square, at every budget. *)
Definition shared (coord : Coordinate) (minutes : Z) : Geometry Box Box :=
  mkbox 0 0 1 1.

(** Two squares that share the edge [x = 1] at 15 minutes; at any
    other budget both participants reach both squares. *)
Definition touching (coord : Coordinate) (minutes : Z) : Geometry Box Box :=
  if (minutes =? 15)%Z
  then if Qeq_bool (fst coord) 0 then mkbox 0 0 1 1 else mkbox 1 0 2 1
  else mkbox 0 0 2 1.

(** Two squares that stay apart at every budget. *)
Definition apart (coord : Coordinate) (minutes : Z) : Geometry Box Box :=
  if Qeq_bool (fst coord) 0 then mkbox 0 0 1 1 else mkbox 2 0 3 1.

(** Two squares that stay apart below 20 minutes; from 20 minutes on
    the two regions overlap in the square between them. *)
Definition widening (coord : Coordinate) (minutes : Z) : Geometry Box Box :=
  if (minutes <? 20)%Z then apart coord minutes
  else if Qeq_bool (fst coord) 0 then mkbox 0 0 2 1 else mkbox 1 0 3 1.

Definition raw_request (value : list string) (minutes : Z) (objective : string)
  : RawRequest :=
  {| raw_addresses := value;
     raw_profile := Some "walking";
     raw_max_minutes := Some minutes;
     raw_objective := Some objective;
     raw_grid_resolution_m := None;
     raw_city_hint := Some "Nowhere" |}.

Definition request (minutes : Z) (objective : string) : MeetingPointRequest :=
  {| addresses := ["A st"; "B st"];
     profile := "walking";
     max_minutes := minutes;
     objective := objective;
     grid_resolution_m := None;
     city_hint := Some "Nowhere" |}.

Definition coords : list Coordinate := [(0, 0)%Q; (1, 0)%Q].

End Scenarios.

(** * The rest of the module

    What follows covers the code around the handler: what every answer
    reports, the three Mapbox helpers as they are written (requests,
    status codes, the JSON of the replies, the geocoding cache) and the
    route that serves the token to the browser. *)

(** ** More vocabulary for the handler *)

(** The key [max_minutes] of an answer. *)
Definition reported_budget {polygon other : Type} (r : Response.t polygon other) : Z :=
  match r with
  | Response.Infeasible _ _ m => m
  | Response.Resolved body => Response.max_minutes body
  end.

(** The coordinate [(lng, lat)] of a participant of an answer. *)
Definition participant_coordinate (p : Response.Participant) : Coordinate :=
  (Response.p_lng p, Response.p_lat p).

Definition is_directions_call (c : Call) : bool :=
  match c with DirectionsCall _ _ _ => true | _ => false end.

Section MoreVocabulary.

Context {polygon other : Type} `{Shapely polygon other}.
Variable mapbox : Mapbox polygon other.

(** Where an exception of the handler comes from: a helper that raised
    it in a call of the log, given by the helper, its arguments and the
    call. *)
Definition raised_by_helper (payload : MeetingPointRequest) (log : list Call)
           (e : Exception) : Prop :=
  (exists address token,
      In (GeocodeCall address (city_hint payload)) log
      /\ _geocode_address mapbox address (city_hint payload) token = Err e)
  \/ (exists coord minutes token,
         In (IsochroneCall coord minutes (profile payload)) log
         /\ (minutes = max_minutes payload \/ minutes = bumped_minutes payload)
         /\ _fetch_isochrone mapbox coord minutes (profile payload) token = Err e)
  \/ (exists origin destination token,
         In (DirectionsCall origin destination (profile payload)) log
         /\ _travel_time_seconds mapbox origin destination (profile payload) token = Err e).

End MoreVocabulary.

(** ** JSON values and what Python does with them *)

#[warnings="-register-all"]
Inductive JSON : Type :=
| JNull
| JBool (b : bool)
| JNumber (q : Q)
| JString (s : string)
| JArray (items : list JSON)
| JObject (members : list (string * JSON)).

(** The exceptions of the helpers: the ones of the module and the
    builtin ones that a reply of unexpected shape provokes. *)
Inductive PyException : Type :=
| Raised (e : Exception)
| AttributeError
| KeyError
| IndexError
| TypeError
| JSONDecodeError.

Inductive Result (A : Type) : Type :=
| Returns (a : A)
| Raises (e : PyException).
Arguments Returns {A} a.
Arguments Raises {A} e.

Definition rbind {A B : Type} (m : Result A) (f : A -> Result B) : Result B :=
  match m with
  | Returns a => f a
  | Raises e => Raises e
  end.

Declare Scope result_scope.
Delimit Scope result_scope with result.
Notation "'do' x <- m ; k" := (rbind m (fun x => k))
  (at level 10, x name, m at level 100, k at level 200) : result_scope.

Module Py.

(** Truth value of a JSON value. *)
Definition truthy (x : JSON) : bool :=
  match x with
  | JNull => false
  | JBool b => b
  | JNumber q => negb (Qeq_bool q 0)
  | JString s => Str.truthy s
  | JArray items => match items with [] => false | _ => true end
  | JObject members => match members with [] => false | _ => true end
  end.

(** The value of a key in a decoded object; of a repeated key the last
    value counts. *)
Fixpoint assoc (key : string) (members : list (string * JSON)) : option JSON :=
  match members with
  | [] => None
  | (k, v) :: rest =>
      match assoc key rest with
      | Some v' => Some v'
      | None => if String.eqb k key then Some v else None
      end
  end.

(** [x.get(key)] *)
Definition get (x : JSON) (key : string) : Result JSON :=
  match x with
  | JObject members =>
      match assoc key members with
      | Some v => Returns v
      | None => Returns JNull
      end
  | _ => Raises AttributeError
  end.

(** [x or []] *)
Definition or_empty_list (x : JSON) : JSON := if truthy x then x else JArray [].

(** [x[key]] for a string key *)
Definition item (x : JSON) (key : string) : Result JSON :=
  match x with
  | JObject members =>
      match assoc key members with
      | Some v => Returns v
      | None => Raises KeyError
      end
  | _ => Raises TypeError
  end.

Fixpoint char_at (s : string) (i : nat) : option ascii :=
  match s, i with
  | EmptyString, _ => None
  | String c _, O => Some c
  | String _ s', S i' => char_at s' i'
  end.

(** [x[i]] for an index [i] that is not negative *)
Definition index (x : JSON) (i : nat) : Result JSON :=
  match x with
  | JArray items =>
      match nth_error items i with
      | Some v => Returns v
      | None => Raises IndexError
      end
  | JString s =>
      match char_at s i with
      | Some c => Returns (JString (String c EmptyString))
      | None => Raises IndexError
      end
  | JObject _ => Raises KeyError
  | _ => Raises TypeError
  end.

(** [float(x)]; [float_of_str] is the conversion of a string, [None]
    when Python raises [ValueError]. *)
Definition float (float_of_str : string -> option Q) (x : JSON) : Result Q :=
  match x with
  | JNumber q => Returns q
  | JBool b => Returns (if b then 1 else 0)%Q
  | JString s =>
      match float_of_str s with
      | Some q => Returns q
      | None => Raises (Raised (ValueError "could not convert string to float"))
      end
  | _ => Raises TypeError
  end.

End Py.

(** ** HTTP *)

Inductive Param : Type :=
| PString (s : string)
| PInt (z : Z)
| PBool (b : bool).

(** A call [client.get(url, params=params)]. *)
Record Request : Type := { url : string; params : list (string * Param) }.

(** What the call gives: an [httpx.RequestError] with its text, or a
    response with its status code and its body, decoded; [None] is a
    body that is not JSON. *)
Inductive Reply : Type :=
| RequestError (exc : string)
| Response (status_code : Z) (body : option JSON).

(** [resp.json()] *)
Definition json (body : option JSON) : Result JSON :=
  match body with
  | Some data => Returns data
  | None => Raises JSONDecodeError
  end.

Definition http_error {A : Type} (status_code : Z) (detail : string) : Result A :=
  Raises (Raised (HTTPException status_code detail)).

(** ** The Mapbox helpers as they are written

    [client_get] is the HTTP client, [quote] is [urllib.parse.quote],
    [str_float] the text of a float in an f-string, [float_of_str] the
    conversion of a string by [float] and [shape] is
    [shapely.geometry.shape].  A helper returns its result together with
    the requests it made; [_geocode_address] also takes and returns the
    module's dictionary [_geocode_cache]. *)

Module Helpers.

Section Helpers.

Context {polygon other : Type} `{Shapely polygon other}.
Variable client_get : Request -> Reply.
Variable quote : string -> string.
Variable str_float : Q -> string.
Variable float_of_str : string -> option Q.
Variable shape : JSON -> Result (Geometry polygon other).

#[local] Open Scope result_scope.

(** The text of a pair of floats in an f-string. *)
Definition str_tuple (c : Coordinate) : string :=
  "(" +:+ str_float (fst c) +:+ ", " +:+ str_float (snd c) +:+ ")".

(** [f"{address}|{city_hint}" if city_hint else address] *)
Definition cache_key (address : string) (city_hint : option string) : string :=
  match city_hint with
  | Some hint => if Str.truthy hint then address +:+ "|" +:+ hint else address
  | None => address
  end.

(** [f"{address}, {city_hint}" if city_hint else address] *)
Definition query (address : string) (city_hint : option string) : string :=
  match city_hint with
  | Some hint => if Str.truthy hint then address +:+ ", " +:+ hint else address
  | None => address
  end.

Definition geocode_request (address : string) (city_hint : option string) (token : string)
  : Request :=
  {| url := "https://api.mapbox.com/geocoding/v5/mapbox.places/"
              +:+ quote (query address city_hint) +:+ ".json";
     params := [("access_token", PString token); ("limit", PInt 1);
                ("autocomplete", PBool false)] |}.

(** From [data = resp.json()] to the pair [(lng, lat)]. *)
Definition geocode_coordinates (address : string) (body : option JSON) : Result Coordinate :=
  do data <- json body;
  do found <- Py.get data "features";
  let features := Py.or_empty_list found in
  if negb (Py.truthy features)
  then http_error 400 ("Address not found: '" +:+ address +:+ "'")
  else
    do first <- Py.index features 0;
    do geometry <- Py.item first "geometry";
    do coords <- Py.item geometry "coordinates";
    do c0 <- Py.index coords 0;
    do lng <- Py.float float_of_str c0;
    do c1 <- Py.index coords 1;
    do lat <- Py.float float_of_str c1;
    Returns (lng, lat).

Definition _geocode_address (_geocode_cache : gmap string Coordinate)
           (address : string) (city_hint : option string) (token : string)
  : Result Coordinate * gmap string Coordinate * list Request :=
  let key := cache_key address city_hint in
  match _geocode_cache !! key with
  | Some cached => (Returns cached, _geocode_cache, [])
  | None =>
      let request := geocode_request address city_hint token in
      match client_get request with
      | RequestError exc =>
          (http_error 502 ("Geocoding failed for '" +:+ address +:+ "': " +:+ exc),
           _geocode_cache, [request])
      | Response status_code body =>
          if (status_code =? 401)%Z
          then (http_error 401 "Invalid Mapbox token", _geocode_cache, [request])
          else if (status_code =? 429)%Z
          then (http_error 429 "Mapbox rate limit exceeded", _geocode_cache, [request])
          else if (500 <=? status_code)%Z
          then (http_error 502 "Mapbox geocoding service error", _geocode_cache, [request])
          else if (400 <=? status_code)%Z
          then (http_error 400 ("Geocoding error for '" +:+ address +:+ "'"),
                _geocode_cache, [request])
          else
            match geocode_coordinates address body with
            | Returns c => (Returns c, <[key := c]> _geocode_cache, [request])
            | Raises e => (Raises e, _geocode_cache, [request])
            end
      end
  end.

Definition isochrone_request (coordinate : Coordinate) (minutes : Z) (profile token : string)
  : Request :=
  {| url := "https://api.mapbox.com/isochrone/v1/mapbox/" +:+ profile +:+ "/"
              +:+ str_float (fst coordinate) +:+ "," +:+ str_float (snd coordinate);
     params := [("contours_minutes", PInt minutes); ("polygons", PString "true");
                ("access_token", PString token)] |}.

(** From [data = resp.json()] to the polygon. *)
Definition isochrone_polygon (body : option JSON) : Result (Geometry polygon other) :=
  do data <- json body;
  do found <- Py.get data "features";
  let features := Py.or_empty_list found in
  if negb (Py.truthy features)
  then http_error 502 "Isochrone response contained no geometry"
  else
    do first <- Py.index features 0;
    do geom <- Py.get first "geometry";
    do polygon <- shape geom;
    if is_empty polygon
    then http_error 502 "Isochrone geometry was empty"
    else Returns polygon.

Definition _fetch_isochrone (coordinate : Coordinate) (minutes : Z) (profile token : string)
  : Result (Geometry polygon other) * list Request :=
  let request := isochrone_request coordinate minutes profile token in
  match client_get request with
  | RequestError exc =>
      (http_error 502 ("Isochrone request failed for coordinate "
                         +:+ str_tuple coordinate +:+ ": " +:+ exc), [request])
  | Response status_code body =>
      if (status_code =? 401)%Z
      then (http_error 401 "Invalid Mapbox token", [request])
      else if (status_code =? 429)%Z
      then (http_error 429 "Mapbox rate limit exceeded", [request])
      else if (500 <=? status_code)%Z
      then (http_error 502 "Mapbox isochrone service error", [request])
      else if (400 <=? status_code)%Z
      then (http_error 400 "Isochrone request rejected by Mapbox", [request])
      else (isochrone_polygon body, [request])
  end.

Definition directions_request (origin destination : Coordinate) (profile token : string)
  : Request :=
  {| url := "https://api.mapbox.com/directions/v5/mapbox/" +:+ profile +:+ "/"
              +:+ str_float (fst origin) +:+ "," +:+ str_float (snd origin) +:+ ";"
              +:+ str_float (fst destination) +:+ "," +:+ str_float (snd destination);
     params := [("access_token", PString token); ("overview", PString "false");
                ("alternatives", PString "false"); ("annotations", PString "duration");
                ("geometries", PString "geojson")] |}.

(** From [data = resp.json()] to the duration. *)
Definition directions_duration (body : option JSON) : Result Q :=
  do data <- json body;
  do found <- Py.get data "routes";
  let routes := Py.or_empty_list found in
  if negb (Py.truthy routes)
  then http_error 502 "Directions response missing duration"
  else
    do first <- Py.index routes 0;
    do duration <- Py.get first "duration";
    match duration with
    | JNull => http_error 502 "Directions response missing duration"
    | _ =>
        do first' <- Py.index routes 0;
        do duration' <- Py.item first' "duration";
        Py.float float_of_str duration'
    end.

Definition _travel_time_seconds (origin destination : Coordinate) (profile token : string)
  : Result Q * list Request :=
  let request := directions_request origin destination profile token in
  match client_get request with
  | RequestError exc =>
      (http_error 502 ("Directions request failed from " +:+ str_tuple origin
                         +:+ " to " +:+ str_tuple destination +:+ ": " +:+ exc), [request])
  | Response status_code body =>
      if (status_code =? 401)%Z
      then (http_error 401 "Invalid Mapbox token", [request])
      else if (status_code =? 429)%Z
      then (http_error 429 "Mapbox rate limit exceeded", [request])
      else if (500 <=? status_code)%Z
      then (http_error 502 "Mapbox directions service error", [request])
      else if (400 <=? status_code)%Z
      then (http_error 400 "Directions request rejected by Mapbox", [request])
      else (directions_duration body, [request])
  end.

End Helpers.

End Helpers.

(** The status code of the [HTTPException] a helper raised, if it raised
    one. *)
Definition raised_status {A : Type} (r : Result A) : option Z :=
  match r with
  | Raises (Raised (HTTPException status_code _)) => Some status_code
  | _ => None
  end.

(** ** The route [/config.js] *)

Definition newline : string := String (ascii_of_nat 10) EmptyString.
Definition double_quote : string := String (ascii_of_nat 34) EmptyString.

(** [os.getenv(a) or os.getenv(b)] *)
Definition getenv_or (a b : option string) : option string :=
  match a with
  | Some value => if Str.truthy value then a else b
  | None => b
  end.

(** The body sent to the browser, from the two environment variables. *)
Definition config_js (MAPBOX_PUBLIC_TOKEN MAPBOX_TOKEN : option string) : string :=
  match getenv_or MAPBOX_PUBLIC_TOKEN MAPBOX_TOKEN with
  | Some token =>
      if Str.truthy token
      then "window.MAPBOX_TOKEN = " +:+ double_quote +:+ token +:+ double_quote
             +:+ ";" +:+ newline
      else "window.MAPBOX_TOKEN = " +:+ "null;" +:+ newline
  | None => "window.MAPBOX_TOKEN = " +:+ "null;" +:+ newline
  end.

(** ** More scenarios *)

Module MoreScenarios.

Import Boxes Scenarios.

(** The isochrone service answers the first participant and refuses the
    second one. *)
Definition rate_limited : Mapbox Box Box :=
  {| MAPBOX_TOKEN := Some "test-token";
     _geocode_address := fun address _ _ => Ok (fake_geocode address);
     _fetch_isochrone := fun coord _ _ _ =>
       if Qeq_bool (fst coord) 0 then Ok (mkbox 0 0 1 1)
       else Err (HTTPException 429 "Mapbox rate limit exceeded");
     _travel_time_seconds := fun _ _ _ _ => Ok 600%Q |}.

Definition single_request : MeetingPointRequest :=
  {| addresses := ["A st"; "a ST"];
     profile := "walking";
     max_minutes := 15;
     objective := "min_sum";
     grid_resolution_m := None;
     city_hint := None |}.

(** A service that gives the same reply to every request. *)
Definition replies (status_code : Z) (body : option JSON) : Request -> Reply :=
  fun _ => Response status_code body.

Definition str_float (x : Q) : string := "0".
Definition float_of_str (s : string) : option Q := None.
Definition quote (s : string) : string := s.
Definition shape (geom : JSON) : Result (Geometry Box Box) :=
  match geom with
  | JNull => Raises AttributeError
  | _ => Returns (mkbox 0 0 1 1)
  end.

Definition member1 (key : string) (value : JSON) : JSON := JObject [(key, value)].

(** A geocoding reply with one feature at [(2, 3)]. *)
Definition geocoding_body : JSON :=
  member1 "features"
          (JArray [member1 "geometry"
                           (member1 "coordinates" (JArray [JNumber 2; JNumber 3]))]).

(** A directions reply whose first route takes no time. *)
Definition directions_body : JSON :=
  member1 "routes" (JArray [member1 "duration" (JNumber 0);
                            member1 "duration" (JNumber 60)]).

(** An isochrone reply with one feature. *)
Definition isochrone_body : JSON :=
  member1 "features" (JArray [member1 "geometry" (member1 "type" (JString "Polygon"))]).

End MoreScenarios.

(** * Properties *)

(** ** Sanity checks of the definitions *)

Example strip_example : Str.strip "  A st	 " = "A st".
Proof. reflexivity. Qed.

Example dedup_example :
  _deduplicate_addresses ["A st"; "b St"; "a ST"; "B st"] = ["A st"; "b St"].
Proof. vm_compute. reflexivity. Qed.

(** [600 / 60] is [10.0]; [63 / 60] is the float just above [1.05] and
    rounds to [1.1], [333 / 60] the float just below [5.55] and rounds to
    [5.5]. *)
Example round_example : py_round (float_div 600 60) 1 = 10%Q.
Proof. vm_compute. reflexivity. Qed.

Example round_up_example : py_round (float_div 63 60) 1 = fl (11 # 10).
Proof. vm_compute. reflexivity. Qed.

Example round_down_example : py_round (float_div 333 60) 1 = fl (55 # 10).
Proof. vm_compute. reflexivity. Qed.

(** Ten times [0.1]: [0.9999999999999999] from left to right, [1.0] with
    the compensation. *)
Example sum_example :
  @py_sum LeftToRight (repeat (fl (1 # 10)) 10) = (9007199254740991 # 9007199254740992)%Q
  /\ @py_sum Compensated (repeat (fl (1 # 10)) 10) = 1%Q.
Proof. split; vm_compute; reflexivity. Qed.

Example boxes_overlap :
  intersection (Boxes.mkbox 0 0 2 2) (Boxes.mkbox 1 1 3 3) = Boxes.mkbox 1 1 2 2.
Proof. reflexivity. Qed.

Example boxes_touch :
  intersection (Boxes.mkbox 0 0 1 1) (Boxes.mkbox 1 0 2 1) = Other (Boxes.box 1 0 1 1).
Proof. reflexivity. Qed.

Example boxes_apart :
  intersection (Boxes.mkbox 0 0 1 1) (Boxes.mkbox 2 0 3 1) = Polygon Boxes.empty_box.
Proof. reflexivity. Qed.

(** ** The maximum *)

Lemma Qlt_bool_false (x y : Q) : Qlt_bool x y = false <-> (y <= x)%Q.
Proof.
  unfold Qlt_bool. rewrite negb_false_iff. apply Qle_bool_iff.
Qed.

Lemma Qlt_bool_true (x y : Q) : Qlt_bool x y = true <-> (x < y)%Q.
Proof.
  unfold Qlt_bool. rewrite negb_true_iff. split.
  - intros Hf. apply Qnot_le_lt. intros Hle. apply Qle_bool_iff in Hle. congruence.
  - intros Hlt. apply not_true_is_false. intros Hle. apply Qle_bool_iff in Hle.
    now apply (Qlt_not_le x y).
Qed.

(** The maximum is an element whose key no element exceeds. *)
Lemma max_loop_spec {A : Type} (key : A -> Q) (l : list A) :
  forall best : A,
    In (max_loop key best l) (best :: l)
    /\ forall x, In x (best :: l) -> (key x <= key (max_loop key best l))%Q.
Proof.
  induction l as [|y l IH]; intros best; simpl.
  - split; [now left|]. intros x [<-|[]]. apply Qle_refl.
  - destruct (Qlt_bool (key best) (key y)) eqn:C.
    + destruct (IH y) as [Hin Hmax]. split; [now right|].
      intros x [<-|Hx]; [|now apply Hmax].
      apply Qlt_bool_true in C. apply Qle_trans with (key y).
      * now apply Qlt_le_weak.
      * apply Hmax. now left.
    + destruct (IH best) as [Hin Hmax]. split.
      * destruct Hin as [E|Hin]; [now left | right; now right].
      * intros x [<-|[<-|Hx]].
        -- apply Hmax. now left.
        -- apply Qlt_bool_false in C. apply Qle_trans with (key best); [assumption|].
           apply Hmax. now left.
        -- apply Hmax. now right.
Qed.

Lemma py_max_spec {A : Type} (key : A -> Q) (l : list A) (r : A) :
  py_max key l = Ok r -> In r l /\ forall x, In x l -> (key x <= key r)%Q.
Proof.
  destruct l as [|a l]; simpl; [discriminate|].
  intros [= <-]. apply max_loop_spec.
Qed.

(** ** The intersection reducer *)

Section Reducer.

Context {polygon other : Type} `{Shapely polygon other} `{Python}.

#[local] Abbreviation geometry := (Geometry polygon other).

Lemma fold_accumulated (rest : list geometry) (first : geometry) :
  Accumulated (first :: rest) (fold_left (fun acc poly => intersection acc poly) rest first).
Proof.
  induction rest as [|g rest IH] using rev_ind.
  - constructor.
  - rewrite fold_left_app. simpl.
    change (first :: rest ++ [g]) with ((first :: rest) ++ [g]).
    now constructor.
Qed.

(** C7. Called with no region, [_intersection] raises (HTTP status
    500, "No polygons to intersect"); called with at least one region
    it raises nothing and returns the accumulated intersection. *)
Theorem intersection_empty_raises_nonempty_accumulates :
  _intersection ([] : list geometry) = Err (HTTPException 500 "No polygons to intersect")
  /\ forall (first : geometry) (rest : list geometry),
      exists r, _intersection (first :: rest) = Ok r
                /\ r = fold_left (fun acc poly => intersection acc poly) rest first
                /\ Accumulated (first :: rest) r.
Proof.
  split; [reflexivity|].
  intros first rest. eexists. split; [reflexivity|].
  split; [reflexivity|]. apply fold_accumulated.
Qed.

End Reducer.

(** *** Reordering *)

Section FoldOrder.

Context {A : Type} (R : A -> A -> Prop) (op : A -> A -> A).

Hypothesis R_refl : forall a, R a a.
Hypothesis R_trans : forall a b c, R a b -> R b c -> R a c.
Hypothesis op_comm : forall a b, R (op a b) (op b a).
Hypothesis op_assoc : forall a b c, R (op (op a b) c) (op a (op b c)).
Hypothesis op_assoc' : forall a b c, R (op a (op b c)) (op (op a b) c).
Hypothesis op_proper : forall a a' b b', R a a' -> R b b' -> R (op a b) (op a' b').






End FoldOrder.




Section SameParts.

Context {polygon other : Type} `{Shapely polygon other} `{Python}.

#[local] Abbreviation geometry := (Geometry polygon other).







Lemma is_polygonal_same_parts (g g' : geometry) :
  same_parts g g' -> is_polygonal g = is_polygonal g'.
Proof. now destruct 1. Qed.



End SameParts.

(** ** Polygon normalization *)

Section Normalization.

Context {polygon other : Type} `{Shapely polygon other} `{Python}.

#[local] Abbreviation geometry := (Geometry polygon other).

(** A single polygon is returned as it is, empty or not. *)
Lemma polygonal_region_polygon (p : polygon) :
  _polygonal_region (Polygon p : geometry) = Ok (Polygon p).
Proof.
  unfold _polygonal_region. now destruct (is_empty _).
Qed.

(** What [_largest_component] returns for a polygon or a multi-polygon
    is a single polygon. *)
Lemma largest_component_polygonal (g r : geometry) :
  is_polygonal g = true -> _largest_component g = Ok r -> exists p, r = Polygon p.
Proof.
  destruct g as [p|ps|gs|o]; simpl; try discriminate; intros _.
  - intros [= <-]. now exists p.
  - destruct (py_max area ps) as [p|e]; simpl; [|discriminate].
    intros [= <-]. now exists p.
Qed.

Lemma fold_union_polygonal
      (closed : forall a b : geometry,
          is_polygonal a = true -> is_polygonal b = true -> is_polygonal (union a b) = true)
      (rest : list geometry) :
  forall first : geometry,
    is_polygonal first = true ->
    Forall (fun g => is_polygonal g = true) rest ->
    is_polygonal (fold_left (fun merged poly => union merged poly) rest first) = true.
Proof.
  induction rest as [|g rest IH]; simpl; intros first Hf Hr; [exact Hf|].
  inversion Hr; subst. apply IH; [now apply closed | assumption].
Qed.

(** Under the one fact about the library that the union of two
    polygonal geometries is polygonal, every geometry the
    normalization returns is empty or a single polygon. *)
Lemma polygonal_region_shape
      (closed : forall a b : geometry,
          is_polygonal a = true -> is_polygonal b = true -> is_polygonal (union a b) = true)
      (g r : geometry) :
  _polygonal_region g = Ok r -> is_empty r = true \/ exists p, r = Polygon p.
Proof.
  unfold _polygonal_region. destruct (is_empty g) eqn:E.
  - intros [= <-]. now left.
  - destruct g as [p|ps|gs|o].
    + intros Hr. right. now apply (largest_component_polygonal (Polygon p) r).
    + intros Hr. right. now apply (largest_component_polygonal (MultiPolygon ps) r).
    + destruct (List.filter is_polygonal gs) as [|first rest] eqn:F.
      * intros [= <-]. right. now eexists.
      * intros Hr. right.
        assert (Forall (fun g => is_polygonal g = true) (first :: rest)) as Hall.
        { rewrite <- F. apply List.Forall_forall. intros x Hx.
          now apply filter_In in Hx. }
        inversion Hall; subst.
        eapply largest_component_polygonal; [|exact Hr].
        now apply fold_union_polygonal.
    + intros [= <-]. right. now eexists.
Qed.

(** C4. Normalizing twice is normalizing once: run on its own result,
    [_polygonal_region] returns that result unchanged (and an error of
    the first run is the error of both); a geometry that is already a
    single polygon is returned as it is. *)
Theorem polygonal_region_idempotent :
  (forall a b : geometry,
      is_polygonal a = true -> is_polygonal b = true -> is_polygonal (union a b) = true) ->
  (forall g : geometry,
      obind (_polygonal_region g) _polygonal_region = _polygonal_region g)
  /\ (forall g r : geometry, _polygonal_region g = Ok r -> _polygonal_region r = Ok r)
  /\ (forall p : polygon, _polygonal_region (Polygon p : geometry) = Ok (Polygon p)).
Proof.
  intros closed.
  assert (forall g r : geometry, _polygonal_region g = Ok r -> _polygonal_region r = Ok r)
    as fixed.
  { intros g r Hr.
    destruct (polygonal_region_shape closed g r Hr) as [E|[p ->]].
    - unfold _polygonal_region. now rewrite E.
    - apply polygonal_region_polygon. }
  split; [|split].
  - intros g. destruct (_polygonal_region g) as [r|e] eqn:Hr; simpl; [|reflexivity].
    now apply (fixed g).
  - exact fixed.
  - apply polygonal_region_polygon.
Qed.

End Normalization.

(** ** The feasible region as a set of points *)

Section PointSets.

Context {polygon other : Type} `{Shapely polygon other} `{Python}.

#[local] Abbreviation geometry := (Geometry polygon other).

(** The points of the plane and the points a geometry covers. *)
Variable point : Type.
Variable covers : geometry -> point -> Prop.

Hypothesis covers_intersection :
  forall (a b : geometry) (x : point),
    covers (intersection a b) x <-> covers a x /\ covers b x.

Lemma covers_fold (rest : list geometry) :
  forall (first : geometry) (x : point),
    covers (fold_left (fun acc poly => intersection acc poly) rest first) x
    <-> covers first x /\ Forall (fun g => covers g x) rest.
Proof.
  induction rest as [|g rest IH]; intros first x; simpl.
  - split; [intros Hx; split; [exact Hx | constructor] | now intros [Hx _]].
  - rewrite IH, covers_intersection. split.
    + intros [[Hf Hg] Hr]. split; [exact Hf | now constructor].
    + intros [Hf Hr]. inversion Hr; subst. now repeat split.
Qed.

Lemma covers_reducer (l : list geometry) (r : geometry) (x : point) :
  _intersection l = Ok r -> (covers r x <-> Forall (fun g => covers g x) l).
Proof.
  destruct l as [|first rest]; simpl; [discriminate|].
  intros [= <-]. rewrite covers_fold. split.
  - intros [Hf Hr]. now constructor.
  - intros Hl. inversion Hl; subst. now split.
Qed.

End PointSets.

(** C6, as the reducer has it.  The region the reducer returns for a
    non-empty list of regions is contained in each of them, and it is
    empty exactly when no point is common to all of them (regions that
    share boundary points only have a non-empty common part without
    area).  The library enters through two facts: the intersection
    covers the points both operands cover, and a geometry is empty when
    it covers no point. *)
Theorem feasible_region_subset_and_empty_iff_disjoint
        {polygon other : Type} `{Shapely polygon other}
        (point : Type) (covers : Geometry polygon other -> point -> Prop) :
  (forall (a b : Geometry polygon other) (x : point),
      covers (intersection a b) x <-> covers a x /\ covers b x) ->
  (forall g : Geometry polygon other,
      is_empty g = true <-> forall x : point, ~ covers g x) ->
  forall l : list (Geometry polygon other),
    l <> [] ->
    exists r,
      _intersection l = Ok r
      /\ (forall g, In g l -> forall x, covers r x -> covers g x)
      /\ (is_empty r = true <-> ~ exists x, forall g, In g l -> covers g x).
Proof.
  intros Hinter Hempty l Hne.
  destruct l as [|first rest]; [congruence|].
  eexists. split; [reflexivity|].
  set (r := fold_left _ rest first).
  assert (forall x, covers r x <-> Forall (fun g => covers g x) (first :: rest)) as Hr.
  { intros x. now apply covers_reducer. }
  split.
  - intros g Hg x Hx. apply Hr in Hx. rewrite List.Forall_forall in Hx. now apply Hx.
  - rewrite Hempty. split.
    + intros Hno [x Hx]. apply (Hno x), Hr, List.Forall_forall. exact Hx.
    + intros Hno x Hx. apply Hno. exists x. apply List.Forall_forall, Hr, Hx.
Qed.

(** ** Request validation *)

Lemma field_max_minutes_range (m : Z) :
  is_ok (field_max_minutes (Some m)) = true <-> (5 <= m <= 60)%Z.
Proof.
  unfold field_max_minutes, MAX_MAX_MINUTES.
  destruct (Z.ltb_spec m 5); [simpl; split; [discriminate | lia]|].
  destruct (Z.ltb_spec 60 m); simpl; split; try discriminate; try lia; reflexivity.
Qed.

Lemma validate_rejects_max_minutes (raw : RawRequest) (m : Z) :
  raw_max_minutes raw = Some m ->
  (m < 5)%Z ->
  exists fields, In "max_minutes" fields /\ validate raw = Err (RequestValidationError fields).
Proof.
  intros Hm Hlt. unfold validate. rewrite Hm.
  assert (field_max_minutes (Some m)
          = Err (ValueError "Input should be greater than or equal to 5")) as ->.
  { unfold field_max_minutes. destruct (Z.ltb_spec m 5); [reflexivity | lia]. }
  set (a := field_addresses _). set (p := with_default "walking" _ _).
  set (o := with_default "min_sum" _ _). set (g := field_grid_resolution_m _).
  exists (failed "addresses" a ++ failed "profile" p
          ++ ["max_minutes"] ++ failed "objective" o ++ failed "grid_resolution_m" g).
  split.
  - rewrite !in_app_iff. right; right; left. now left.
  - destruct a, p, o, g; reflexivity.
Qed.

(** C10. The accepted values of [max_minutes] are those from 5 to 60;
    a body whose [max_minutes] is below 5 fails validation on that
    field, and the route answers with the validation error without a
    single call to a Mapbox helper. *)
Theorem max_minutes_below_five_rejected
        {polygon other : Type} `{Shapely polygon other} `{Python}
        (mapbox : Mapbox polygon other)
        (raw : RawRequest) (m : Z) :
  raw_max_minutes raw = Some m ->
  (is_ok (field_max_minutes (Some m)) = true <-> (5 <= m <= 60)%Z)
  /\ ((m < 5)%Z ->
      exists fields,
        In "max_minutes" fields
        /\ validate raw = Err (RequestValidationError fields)
        /\ post_meeting_point mapbox raw = ([], Err (RequestValidationError fields))).
Proof.
  intros Hm. split; [apply field_max_minutes_range|].
  intros Hlt. destruct (validate_rejects_max_minutes raw m Hm Hlt) as (fields & Hin & Hv).
  exists fields. repeat split; try assumption.
  unfold post_meeting_point. now rewrite Hv.
Qed.

(** ** Address deduplication *)

Lemma member_In (s : string) (l : list string) : member s l = true <-> In s l.
Proof.
  unfold member. rewrite existsb_exists. split.
  - intros (x & Hx & E). apply String.eqb_eq in E. now subst.
  - intros Hs. exists s. split; [assumption | apply String.eqb_refl].
Qed.

(** The loop computes the first occurrences: [seen] holds the keys of
    the addresses already read. *)
Lemma dedup_loop_first_occurrences (l : list string) :
  forall (before : list string) (seen : gset string) (deduped : list string),
    (forall k, k ∈ seen <-> In k (List.map Str.lower before)) ->
    dedup_loop l seen deduped = deduped ++ first_occurrences before l.
Proof.
  induction l as [|addr rest IH]; intros before seen deduped Hseen; simpl.
  - now rewrite app_nil_r.
  - destruct (decide (Str.lower addr ∈ seen)) as [Hin|Hout].
    + assert (member (Str.lower addr) (List.map Str.lower before) = true) as ->
          by now apply member_In, Hseen.
      apply IH. intros k. rewrite List.map_app, in_app_iff, <- Hseen. simpl.
      split; [tauto|]. intros [Hk|[<-|[]]]; assumption.
    + assert (member (Str.lower addr) (List.map Str.lower before) = false) as ->.
      { apply not_true_is_false. intros Hm. now apply Hout, Hseen, member_In. }
      rewrite (IH (before ++ [addr]) _ (deduped ++ [addr])).
      * now rewrite <- app_assoc.
      * intros k. rewrite List.map_app, in_app_iff, <- Hseen. simpl.
        rewrite elem_of_union, elem_of_singleton. split.
        -- intros [->|Hk]; [right; now left | now left].
        -- intros [Hk|[<-|[]]]; [now right | now left].
Qed.

Lemma deduplicate_first_occurrences (l : list string) :
  _deduplicate_addresses l = first_occurrences [] l.
Proof.
  unfold _deduplicate_addresses.
  rewrite (dedup_loop_first_occurrences l [] ∅ []); [reflexivity|].
  intros k. simpl. split; [|tauto]. intros Hk. now apply not_elem_of_empty in Hk.
Qed.

(** The kept addresses have pairwise different keys, none of them a key
    of [before]. *)
Lemma first_occurrences_keys (l : list string) :
  forall before : list string,
    NoDup (List.map Str.lower (first_occurrences before l))
    /\ forall d, In d (first_occurrences before l) ->
                 ~ In (Str.lower d) (List.map Str.lower before).
Proof.
  induction l as [|addr rest IH]; intros before; simpl.
  - split; [constructor | tauto].
  - destruct (IH (before ++ [addr])) as [Hnd Hfresh].
    assert (forall d, In d (first_occurrences (before ++ [addr]) rest) ->
                      ~ In (Str.lower d) (List.map Str.lower before)
                      /\ Str.lower d <> Str.lower addr) as Hfresh'.
    { intros d Hd. specialize (Hfresh d Hd).
      rewrite List.map_app, in_app_iff in Hfresh. simpl in Hfresh.
      split; [tauto|]. intros E. apply Hfresh. right. left. now symmetry. }
    destruct (member (Str.lower addr) (List.map Str.lower before)) eqn:M.
    + split; [assumption|]. intros d Hd. now apply Hfresh'.
    + split.
      * simpl. apply NoDup_cons. split; [|assumption].
        rewrite list_elem_of_In, in_map_iff. intros (d & E & Hd).
        now apply (Hfresh' d Hd).
      * intros d [<-|Hd].
        -- intros Hin. apply member_In in Hin. congruence.
        -- now apply Hfresh'.
Qed.

(** Every address read has its key among those of [before] or among the
    kept addresses. *)
Lemma first_occurrences_cover (l : list string) :
  forall (before : list string) (a : string),
    In a l ->
    In (Str.lower a) (List.map Str.lower before)
    \/ exists d, In d (first_occurrences before l) /\ Str.lower d = Str.lower a.
Proof.
  induction l as [|addr rest IH]; intros before a; simpl; [tauto|].
  intros [->|Ha].
  - destruct (member (Str.lower a) (List.map Str.lower before)) eqn:M.
    + left. now apply member_In.
    + right. exists a. split; [now left | reflexivity].
  - destruct (IH (before ++ [addr]) a Ha) as [Hb|(d & Hd & E)].
    + rewrite List.map_app, in_app_iff in Hb. simpl in Hb.
      destruct Hb as [Hb|[E|[]]]; [now left|].
      destruct (member (Str.lower addr) (List.map Str.lower before)) eqn:M.
      * left. rewrite <- E. now apply member_In.
      * right. exists addr. split; [now left | assumption].
    + right. exists d. split; [|assumption].
      destruct (member _ _); [assumption | now right].
Qed.

(** The kept addresses are taken from the input, in input order. *)
Lemma first_occurrences_sublist (l : list string) :
  forall before : list string, sublist (first_occurrences before l) l.
Proof.
  induction l as [|addr rest IH]; intros before; simpl; [constructor|].
  destruct (member _ _); [apply sublist_cons | apply sublist_skip]; apply IH.
Qed.

Lemma first_occurrences_head (addr : string) (rest : list string) :
  exists tail, first_occurrences [] (addr :: rest) = addr :: tail.
Proof. simpl. now eexists. Qed.

Lemma validate_addresses_cleaned (value cleaned : list string) :
  field_addresses value = Ok cleaned ->
  cleaned = List.map Str.strip (List.filter (fun addr => Str.truthy (Str.strip addr)) value)
  /\ (1 <= length cleaned <= 10)%nat.
Proof.
  unfold field_addresses, validate_addresses, MAX_PARTICIPANTS.
  destruct (Z.ltb_spec (Z.of_nat (length value)) 1); [discriminate|].
  set (c := List.map Str.strip _).
  destruct c as [|a c'] eqn:E; [discriminate|].
  destruct (Z.ltb_spec 10 (Z.of_nat (length (a :: c')))); [discriminate|].
  intros [= <-]. split; [reflexivity|]. simpl in *. lia.
Qed.

(** ** The handler *)

Lemma concat_map_singleton {A B : Type} (f : A -> B) (l : list A) :
  concat (List.map (fun a => [f a]) l) = List.map f l.
Proof. induction l as [|a l IH]; simpl; [reflexivity | now rewrite IH]. Qed.

Lemma sequence_length {A : Type} (l : list (Outcome A)) (r : list A) :
  sequence l = Ok r -> length r = length l.
Proof.
  revert r. induction l as [|[a|e] l IH]; simpl; intros r.
  - now intros [= <-].
  - destruct (sequence l) as [r'|e]; simpl; [|discriminate].
    intros [= <-]. simpl. now rewrite (IH r').
  - discriminate.
Qed.

Lemma bind_ok {A B : Type} (log : list Call) (a : A) (f : A -> Run B) :
  bind (log, Ok a) f = (log ++ fst (f a), snd (f a)).
Proof. unfold bind. now destruct (f a). Qed.

Lemma bind_err {A B : Type} (log : list Call) (e : Exception) (f : A -> Run B) :
  bind (log, Err e) f = (log, Err e).
Proof. reflexivity. Qed.

Section HandlerFacts.

Context {polygon other : Type} `{Shapely polygon other} `{Python}.
Variable mapbox : Mapbox polygon other.

#[local] Abbreviation geometry := (Geometry polygon other).

Lemma gather_geocode (addresses : list string) (city_hint : option string) (token : string) :
  gather (geocode_tasks mapbox addresses city_hint token)
  = (geocode_calls addresses city_hint, geocoded mapbox addresses city_hint token).
Proof.
  unfold gather, geocode_tasks, geocode_calls, geocoded, await.
  rewrite !List.map_map. simpl. now rewrite concat_map_singleton.
Qed.

Lemma gather_iso (coords : list Coordinate) (minutes : Z) (profile token : string) :
  gather (iso_tasks mapbox coords minutes profile token)
  = (isochrone_calls coords minutes profile, isochrones mapbox coords minutes profile token).
Proof.
  unfold gather, iso_tasks, isochrone_calls, isochrones, await.
  rewrite !List.map_map. simpl. now rewrite concat_map_singleton.
Qed.

Lemma gather_travel (coords : list Coordinate) (destination : Coordinate)
      (profile token : string) :
  gather (travel_tasks mapbox coords destination profile token)
  = (directions_calls coords destination profile,
     travel_times mapbox coords destination profile token).
Proof.
  unfold gather, travel_tasks, directions_calls, travel_times, await.
  rewrite !List.map_map. simpl. now rewrite concat_map_singleton.
Qed.

Lemma compute_with_minutes_run (payload : MeetingPointRequest) (token : string)
      (coords : list Coordinate) (minutes : Z) :
  compute_with_minutes mapbox coords (profile payload) token minutes
  = (isochrone_calls coords minutes (profile payload),
     intersection_at mapbox payload token coords minutes).
Proof.
  unfold compute_with_minutes, intersection_at. rewrite gather_iso.
  unfold bind, lift. destruct (isochrones _ _ _ _ _) as [shapes|e]; simpl.
  - now rewrite app_nil_r.
  - reflexivity.
Qed.

(** The calls of the evaluation are directions calls, whatever its
    outcome. *)
Lemma evaluate_log (payload : MeetingPointRequest) (token : string)
      (addresses : list string) (coords : list Coordinate) (effective : Z)
      (region : geometry) :
  fst (evaluate mapbox payload token addresses coords effective region)
  = directions_calls coords (centroid region) (profile payload).
Proof.
  unfold evaluate. rewrite <- surjective_pairing, gather_travel.
  unfold bind, lift, ret.
  destruct (travel_times _ _ _ _ _) as [secs|e]; simpl; [|reflexivity].
  destruct (_objective_value _ _); simpl; now rewrite ?app_nil_r.
Qed.

Lemma directions_not_isochrone (coords : list Coordinate) (destination : Coordinate)
      (profile : string) :
  Forall (fun c => is_isochrone_call c = false /\ is_geocode_call c = false)
         (directions_calls coords destination profile).
Proof.
  unfold directions_calls. apply List.Forall_forall. intros c Hc.
  apply in_map_iff in Hc as (x & <- & _). now split.
Qed.

Lemma conclude_log (payload : MeetingPointRequest) (token : string)
      (addresses : list string) (coords : list Coordinate) (g : geometry) (effective : Z) :
  Forall (fun c => is_isochrone_call c = false /\ is_geocode_call c = false)
         (fst (conclude mapbox payload token addresses coords g effective)).
Proof.
  unfold conclude. destruct (is_empty g); [constructor|].
  unfold bind, lift. destruct (_polygonal_region g) as [region|e]; [|constructor].
  destruct (is_empty region); [constructor|].
  destruct (evaluate _ _ _ _ _ _ _) as [log r] eqn:E. simpl.
  assert (log = fst (evaluate mapbox payload token addresses coords effective region))
    as -> by now rewrite E.
  rewrite evaluate_log. apply directions_not_isochrone.
Qed.

(** The handler from the coordinates on, by the outcome of the first
    intersection. *)
Lemma resolve_run (payload : MeetingPointRequest) (token : string)
      (addresses : list string) (coords : list Coordinate) :
  resolve mapbox payload token addresses coords
  = match intersection_at mapbox payload token coords (max_minutes payload) with
    | Err e => (isochrone_calls coords (max_minutes payload) (profile payload), Err e)
    | Ok g =>
        if is_empty g && (max_minutes payload <? MAX_MAX_MINUTES)%Z
        then
          match intersection_at mapbox payload token coords (bumped_minutes payload) with
          | Err e =>
              (isochrone_calls coords (max_minutes payload) (profile payload)
               ++ isochrone_calls coords (bumped_minutes payload) (profile payload), Err e)
          | Ok g' =>
              let c := conclude mapbox payload token addresses coords g' (bumped_minutes payload) in
              (isochrone_calls coords (max_minutes payload) (profile payload)
               ++ isochrone_calls coords (bumped_minutes payload) (profile payload)
               ++ fst c, snd c)
          end
        else
          let c := conclude mapbox payload token addresses coords g (max_minutes payload) in
          (isochrone_calls coords (max_minutes payload) (profile payload) ++ fst c, snd c)
    end.
Proof.
  change (resolve mapbox payload token addresses coords)
    with (bind (compute_with_minutes mapbox coords (profile payload) token (max_minutes payload))
            (fun g =>
               bind (if is_empty g && (max_minutes payload <? MAX_MAX_MINUTES)%Z
                     then bind (compute_with_minutes mapbox coords (profile payload) token
                                  (bumped_minutes payload))
                               (fun g' => ret (g', bumped_minutes payload))
                     else ret (g, max_minutes payload))
                    (fun st => conclude mapbox payload token addresses coords
                                        (fst st) (snd st)))).
  rewrite !compute_with_minutes_run.
  destruct (intersection_at _ _ _ _ (max_minutes payload)) as [g|e];
    [rewrite bind_ok | now rewrite bind_err].
  destruct (is_empty g && (max_minutes payload <? MAX_MAX_MINUTES)%Z).
  - destruct (intersection_at _ _ _ _ (bumped_minutes payload)) as [g'|e].
    + rewrite !bind_ok. simpl.
      destruct (conclude _ _ _ _ _ _ _) as [log r]. simpl.
      now rewrite app_nil_r.
    + now rewrite !bind_err.
  - unfold ret. now rewrite bind_ok.
Qed.

(** A started request runs the geocoding batch and then [resolve]. *)
Lemma meeting_point_started (payload : MeetingPointRequest) (token : string)
      (coords : list Coordinate) :
  started mapbox payload token coords ->
  let r := resolve mapbox payload token (_deduplicate_addresses (addresses payload)) coords in
  meeting_point mapbox payload
  = (geocode_calls (_deduplicate_addresses (addresses payload)) (city_hint payload)
     ++ fst r, snd r).
Proof.
  intros (Htoken & Hne & Hgeo) r. unfold meeting_point. rewrite Htoken.
  unfold lift at 1. unfold bind at 1.
  destruct (_deduplicate_addresses (addresses payload)) as [|a l] eqn:E; [congruence|].
  rewrite gather_geocode, Hgeo. unfold bind. fold r. simpl.
  now destruct r.
Qed.

End HandlerFacts.

(** ** Budget escalation *)

Section Escalation.

Context {polygon other : Type} `{Shapely polygon other} `{Python}.
Variable mapbox : Mapbox polygon other.

#[local] Abbreviation geometry := (Geometry polygon other).

Lemma bumped_minutes_bounds (payload : MeetingPointRequest) :
  (max_minutes payload < MAX_MAX_MINUTES)%Z ->
  (max_minutes payload < bumped_minutes payload <= MAX_MAX_MINUTES)%Z
  /\ ((max_minutes payload + 5 <= MAX_MAX_MINUTES)%Z ->
      bumped_minutes payload = (max_minutes payload + 5)%Z).
Proof. unfold bumped_minutes, MAX_MAX_MINUTES. lia. Qed.

Lemma filter_isochrone_geocode (addresses : list string) (city_hint : option string) :
  List.filter is_isochrone_call (geocode_calls addresses city_hint) = [].
Proof. induction addresses as [|a l IH]; simpl; [reflexivity | exact IH]. Qed.

Lemma filter_isochrone_fetch (coords : list Coordinate) (minutes : Z) (profile : string) :
  List.filter is_isochrone_call (isochrone_calls coords minutes profile)
  = isochrone_calls coords minutes profile.
Proof. induction coords as [|c l IH]; simpl; [reflexivity | now rewrite IH]. Qed.

Lemma filter_isochrone_none (log : list Call) :
  Forall (fun c => is_isochrone_call c = false /\ is_geocode_call c = false) log ->
  List.filter is_isochrone_call log = [].
Proof.
  induction 1 as [|c l [Hc _] _ IH]; simpl; [reflexivity | now rewrite Hc].
Qed.

Lemma conclude_empty (payload : MeetingPointRequest) (token : string)
      (addresses : list string) (coords : list Coordinate) (g : geometry) (effective : Z) :
  is_empty g = true ->
  conclude mapbox payload token addresses coords g effective
  = ([], Ok (Response.Infeasible false "no_common_reachable_region" effective)).
Proof. intros E. unfold conclude. now rewrite E. Qed.

Lemma conclude_region_empty (payload : MeetingPointRequest) (token : string)
      (addresses : list string) (coords : list Coordinate) (g region : geometry)
      (effective : Z) :
  _polygonal_region g = Ok region ->
  is_empty region = true ->
  conclude mapbox payload token addresses coords g effective
  = ([], Ok (Response.Infeasible false "no_common_reachable_region" effective)).
Proof.
  intros Hr E. unfold conclude. destruct (is_empty g); [reflexivity|].
  rewrite Hr. unfold lift. rewrite bind_ok. now rewrite E.
Qed.

(** The infeasible answers of the tail carry the budget it was given. *)
Lemma conclude_infeasible (payload : MeetingPointRequest) (token : string)
      (addresses : list string) (coords : list Coordinate) (g : geometry)
      (effective : Z) (reachable : bool) (reason : string) (reported : Z) :
  snd (conclude mapbox payload token addresses coords g effective)
  = Ok (Response.Infeasible reachable reason reported) ->
  reachable = false /\ reason = "no_common_reachable_region" /\ reported = effective.
Proof.
  unfold conclude. destruct (is_empty g); [now intros [= <- <- <-]|].
  unfold lift. destruct (_polygonal_region g) as [region|e]; [|discriminate].
  rewrite bind_ok. destruct (is_empty region); [now intros [= <- <- <-]|].
  unfold evaluate. rewrite <- surjective_pairing, gather_travel.
  destruct (travel_times _ _ _ _ _) as [secs|e]; [|discriminate].
  rewrite bind_ok. unfold lift.
  destruct (_objective_value _ _) as [value|e]; [|discriminate].
  rewrite bind_ok. discriminate.
Qed.

(** The tail of the handler on a region that passed both emptiness
    tests is the evaluation of that region. *)
Lemma conclude_evaluate (payload : MeetingPointRequest) (token : string)
      (addresses : list string) (coords : list Coordinate) (g region : geometry)
      (effective : Z) :
  is_empty g = false ->
  _polygonal_region g = Ok region ->
  is_empty region = false ->
  conclude mapbox payload token addresses coords g effective
  = evaluate mapbox payload token addresses coords effective region.
Proof.
  intros Eg Hr Er. unfold conclude. rewrite Eg, Hr. unfold lift.
  rewrite bind_ok, Er. simpl. now destruct (evaluate _ _ _ _ _ _ _).
Qed.

(** An answer of the evaluation is a resolved one, about the region
    and the budget it was given. *)
Lemma evaluate_answer (payload : MeetingPointRequest) (token : string)
      (addresses : list string) (coords : list Coordinate) (effective : Z)
      (region : geometry) (r : Response.t polygon other) :
  snd (evaluate mapbox payload token addresses coords effective region) = Ok r ->
  exists body,
    r = Response.Resolved body
    /\ Response.intersection_polygons_geojson body = region
    /\ Response.max_minutes body = effective
    /\ Response.meeting_point body
       = {| Response.lat := snd (centroid region); Response.lng := fst (centroid region) |}.
Proof.
  unfold evaluate. rewrite <- surjective_pairing, gather_travel.
  destruct (travel_times _ _ _ _ _) as [secs|e]; [|discriminate].
  rewrite bind_ok. unfold lift.
  destruct (_objective_value _ _) as [value|e]; [|discriminate].
  rewrite bind_ok. simpl. intros [= <-]. eexists. split; [reflexivity|].
  simpl. now repeat split.
Qed.

(** C2. When the intersection at the requested budget is empty: at the
    ceiling the handler reports infeasibility at once with that
    budget; below it the budget goes up by one step of 5 capped at
    60, every region is fetched again at the new budget, no further
    isochrone call follows, and the answer is decided on the
    intersection of the regions fetched at the new budget: a retry
    that is empty again (as an intersection or once normalized) is
    reported as infeasible with the escalated budget, a retry that
    fails makes the handler fail, and a retry whose normalized region
    is not empty goes on to the travel times to the centroid of that
    region, any answer being the resolved one about that region at the
    escalated budget. *)
Theorem escalation_single_step
        (payload : MeetingPointRequest) (token : string) (coords : list Coordinate)
        (g : geometry) :
  started mapbox payload token coords ->
  intersection_at mapbox payload token coords (max_minutes payload) = Ok g ->
  is_empty g = true ->
  let m := max_minutes payload in
  let bumped := bumped_minutes payload in
  let geo := geocode_calls (_deduplicate_addresses (addresses payload)) (city_hint payload) in
  let fetch := fun minutes => isochrone_calls coords minutes (profile payload) in
  ((MAX_MAX_MINUTES <= m)%Z ->
   meeting_point mapbox payload
   = (geo ++ fetch m, Ok (Response.Infeasible false "no_common_reachable_region" m)))
  /\ ((m < MAX_MAX_MINUTES)%Z ->
      (m < bumped <= 60)%Z
      /\ ((m + 5 <= 60)%Z -> bumped = (m + 5)%Z)
      /\ (m = 15%Z -> bumped = 20%Z)
      /\ (exists rest,
             fst (meeting_point mapbox payload) = geo ++ fetch m ++ fetch bumped ++ rest
             /\ Forall (fun c => is_isochrone_call c = false) rest)
      /\ (forall g',
             intersection_at mapbox payload token coords bumped = Ok g' ->
             is_empty g' = true ->
             meeting_point mapbox payload
             = (geo ++ fetch m ++ fetch bumped,
                Ok (Response.Infeasible false "no_common_reachable_region" bumped)))
      /\ (forall g' region,
             intersection_at mapbox payload token coords bumped = Ok g' ->
             _polygonal_region g' = Ok region ->
             is_empty region = true ->
             meeting_point mapbox payload
             = (geo ++ fetch m ++ fetch bumped,
                Ok (Response.Infeasible false "no_common_reachable_region" bumped)))
      /\ (forall e,
             intersection_at mapbox payload token coords bumped = Err e ->
             meeting_point mapbox payload = (geo ++ fetch m ++ fetch bumped, Err e))
      /\ (forall g' e,
             intersection_at mapbox payload token coords bumped = Ok g' ->
             is_empty g' = false ->
             _polygonal_region g' = Err e ->
             meeting_point mapbox payload = (geo ++ fetch m ++ fetch bumped, Err e))
      /\ (forall g' region,
             intersection_at mapbox payload token coords bumped = Ok g' ->
             is_empty g' = false ->
             _polygonal_region g' = Ok region ->
             is_empty region = false ->
             meeting_point mapbox payload
             = (geo ++ fetch m ++ fetch bumped
                    ++ directions_calls coords (centroid region) (profile payload),
                snd (evaluate mapbox payload token
                              (_deduplicate_addresses (addresses payload)) coords
                              bumped region))
             /\ forall r,
                 snd (meeting_point mapbox payload) = Ok r ->
                 exists body,
                   r = Response.Resolved body
                   /\ Response.intersection_polygons_geojson body = region
                   /\ Response.max_minutes body = bumped
                   /\ Response.meeting_point body
                      = {| Response.lat := snd (centroid region);
                           Response.lng := fst (centroid region) |})).
Proof.
  intros Hs Hg Hempty m bumped geo fetch.
  rewrite (meeting_point_started mapbox payload token coords Hs).
  rewrite resolve_run, Hg, Hempty. fold m bumped. simpl andb.
  split.
  - intros Hceil. destruct (Z.ltb_spec m MAX_MAX_MINUTES) as [Hlt|_]; [lia|].
    cbv zeta. rewrite conclude_empty by assumption. simpl.
    now rewrite app_nil_r.
  - intros Hlt. destruct (Z.ltb_spec m MAX_MAX_MINUTES) as [_|Hge]; [|lia].
    destruct (bumped_minutes_bounds payload Hlt) as [Hb Hcap].
    fold m bumped in Hb, Hcap. unfold MAX_MAX_MINUTES in Hb, Hcap.
    split; [exact Hb|]. split; [exact Hcap|]. split; [lia|].
    split; [|split; [|split; [|split; [|split]]]].
    + destruct (intersection_at mapbox payload token coords bumped) as [g'|e]; simpl.
      * eexists. split; [reflexivity|].
        eapply List.Forall_impl; [|apply (conclude_log mapbox)]. now intros c [Hc _].
      * exists []. split; [now rewrite app_nil_r | constructor].
    + intros g' Hg' Hempty'. rewrite Hg'. cbv zeta.
      rewrite conclude_empty by assumption. simpl. now rewrite app_nil_r.
    + intros g' region Hg' Hr Hempty'. rewrite Hg'. cbv zeta.
      rewrite (conclude_region_empty _ _ _ _ _ region) by assumption.
      simpl. now rewrite app_nil_r.
    + intros e He. now rewrite He.
    + intros g' e Hg' Hfull He. rewrite Hg'. cbv zeta.
      unfold conclude. rewrite Hfull, He. unfold lift. rewrite bind_err.
      simpl. now rewrite app_nil_r.
    + intros g' region Hg' Hfull Hr Hfull'. rewrite Hg'. cbv zeta.
      rewrite (conclude_evaluate _ _ _ _ _ region) by assumption.
      rewrite evaluate_log. cbn [fst snd]. split; [reflexivity|].
      intros r Hans. now apply evaluate_answer in Hans.
Qed.

(** C1, as the handler has it.  Below the ceiling the escalation is
    decided on the intersection itself, before normalization: an
    empty intersection makes the handler fetch every region again at
    the escalated budget, and any report of infeasibility then
    carries that budget; an intersection that is not empty is never
    followed by a second fetch, and when its normalized region is
    empty "no_common_reachable_region" is reported at the requested
    budget. *)
Theorem escalation_decided_on_raw_intersection
        (payload : MeetingPointRequest) (token : string) (coords : list Coordinate)
        (g : geometry) :
  started mapbox payload token coords ->
  (max_minutes payload < MAX_MAX_MINUTES)%Z ->
  intersection_at mapbox payload token coords (max_minutes payload) = Ok g ->
  let m := max_minutes payload in
  let bumped := bumped_minutes payload in
  let geo := geocode_calls (_deduplicate_addresses (addresses payload)) (city_hint payload) in
  let fetch := fun minutes => isochrone_calls coords minutes (profile payload) in
  (is_empty g = true ->
   (exists rest, fst (meeting_point mapbox payload) = geo ++ fetch m ++ fetch bumped ++ rest)
   /\ forall reachable reason reported,
       snd (meeting_point mapbox payload)
       = Ok (Response.Infeasible reachable reason reported) ->
       reason = "no_common_reachable_region" /\ reported = bumped)
  /\ (is_empty g = false ->
      List.filter is_isochrone_call (fst (meeting_point mapbox payload)) = fetch m
      /\ forall region,
          _polygonal_region g = Ok region ->
          is_empty region = true ->
          meeting_point mapbox payload
          = (geo ++ fetch m,
             Ok (Response.Infeasible false "no_common_reachable_region" m))).
Proof.
  intros Hs Hlt Hg m bumped geo fetch.
  rewrite (meeting_point_started mapbox payload token coords Hs).
  rewrite resolve_run, Hg. fold m bumped. split.
  - intros Hempty. rewrite Hempty. simpl andb.
    destruct (Z.ltb_spec m MAX_MAX_MINUTES) as [_|Hge]; [|unfold m in Hge; lia].
    destruct (intersection_at mapbox payload token coords bumped) as [g'|e]; simpl.
    + split; [now eexists|]. intros reachable reason reported Hc.
      now apply conclude_infeasible in Hc.
    + split; [exists []; now rewrite app_nil_r | discriminate].
  - intros Hfull. rewrite Hfull. simpl andb. cbv zeta. simpl fst. simpl snd. split.
    + rewrite !List.filter_app, filter_isochrone_geocode, filter_isochrone_fetch.
      rewrite (filter_isochrone_none _ (conclude_log mapbox payload token _ coords g m)).
      now rewrite app_nil_r.
    + intros region Hr Hempty.
      rewrite (conclude_region_empty _ _ _ _ _ region) by assumption.
      simpl. now rewrite app_nil_r.
Qed.

End Escalation.

(** ** Floats: rounding to the nearest float *)

Lemma round_half_even_close (y : Q) :
  (Qabs (inject_Z (round_half_even y) - y) <= 1 # 2)%Q.
Proof.
  unfold round_half_even.
  pose proof (Qfloor_le y) as Hlo. pose proof (Qlt_floor y) as Hhi.
  rewrite inject_Z_plus in Hhi. change (inject_Z 1) with 1%Q in Hhi.
  apply Qabs_Qle_condition.
  destruct (Qcompare (y - inject_Z (Qfloor y)) (1 # 2)) eqn:C.
  - apply Qeq_alt in C.
    destruct (Z.even (Qfloor y)); rewrite ?inject_Z_plus;
      change (inject_Z 1) with 1%Q; split; lra.
  - apply Qlt_alt in C. split; lra.
  - apply Qgt_alt in C. rewrite inject_Z_plus. change (inject_Z 1) with 1%Q. split; lra.
Qed.

(** A rational at less than one half of an integer rounds to it. *)
Lemma round_half_even_near (y : Q) (n : Z) :
  (Qabs (y - inject_Z n) < 1 # 2)%Q -> round_half_even y = n.
Proof.
  intros Hn. pose proof (round_half_even_close y) as Hc.
  apply Qabs_Qlt_condition in Hn. apply Qabs_Qle_condition in Hc.
  set (m := round_half_even y) in *.
  assert (inject_Z m - inject_Z n < 1)%Q as Hup by lra.
  assert (inject_Z n - inject_Z m < 1)%Q as Hdown by lra.
  unfold Qminus in Hup, Hdown.
  rewrite <- inject_Z_opp, <- inject_Z_plus in Hup, Hdown.
  change 1%Q with (inject_Z 1) in Hup, Hdown.
  rewrite <- Zlt_Qlt in Hup, Hdown. lia.
Qed.

Lemma Qabs_bounds (a : Q) : (- Qabs a <= a <= Qabs a)%Q.
Proof. apply Qabs_Qle_condition, Qle_refl. Qed.

Lemma two_power_pos (e : Z) : (0 < 2 ^ e)%Q.
Proof. now apply Qpower_0_lt. Qed.

Lemma two_power_succ (e : Z) : (2 ^ (e + 1) == 2 * 2 ^ e)%Q.
Proof. rewrite Qpower_plus by discriminate. change (2 ^ 1)%Q with 2%Q. ring. Qed.

(** The leading bit is not above the number. *)
Lemma Qlog2_le (x : Q) : ~ (x == 0)%Q -> (2 ^ Qlog2 x <= Qabs x)%Q.
Proof.
  intros Hx. unfold Qlog2.
  assert (0 < Qabs x)%Q as Hpos.
  { pose proof (Qabs_nonneg x) as Hn. apply Qle_lteq in Hn as [Hn|Hn]; [exact Hn|].
    exfalso. apply Hx. symmetry in Hn.
    pose proof (Qabs_bounds x) as Hb. rewrite Hn in Hb. lra. }
  set (a := Qabs x) in *.
  destruct (Qle_bool 1 a) eqn:E.
  - apply Qle_bool_iff in E.
    assert (1 <= Qfloor a)%Z as Hf.
    { change 1%Z with (Qfloor 1). now apply Qfloor_resp_le. }
    destruct (Z.log2_spec (Qfloor a)) as [Hlo _]; [lia|].
    rewrite <- (Zpower_Qpower 2 _ (Z.log2_nonneg (Qfloor a))).
    apply Qle_trans with (inject_Z (Qfloor a)); [now rewrite <- Zle_Qle | apply Qfloor_le].
  - assert (a < 1)%Q as Hlt.
    { apply Qnot_le_lt. intros Hle. apply Qle_bool_iff in Hle. congruence. }
    set (c := Qceiling (/ a)).
    assert (/ a <= inject_Z c)%Q as Hc by apply Qle_ceiling.
    assert (1 < / a)%Q as Hinv.
    { apply Qlt_shift_inv_l; [exact Hpos | lra]. }
    assert (1 < c)%Z as Hc1.
    { rewrite Zlt_Qlt. change (inject_Z 1) with 1%Q. lra. }
    destruct (Z.log2_up_spec c Hc1) as [_ Hup].
    rewrite Qpower_opp.
    pose proof (Z.log2_up_nonneg c) as Hk.
    rewrite <- (Zpower_Qpower 2 _ Hk).
    rewrite Zle_Qle in Hup.
    set (p := inject_Z (2 ^ Z.log2_up c)) in *.
    apply Qle_shift_inv_r; [lra|].
    assert (a * / a == 1)%Q as Hone by (apply Qmult_inv_r; lra).
    assert (a * / a <= a * p)%Q as Hm.
    { rewrite !(Qmult_comm a). apply Qmult_le_compat_r; lra. }
    lra.
Qed.

Lemma Qlog2_bound (x : Q) (M : Z) :
  ~ (x == 0)%Q -> (Qabs x <= 2 ^ M)%Q -> (Qlog2 x <= M)%Z.
Proof.
  intros Hx Hb. apply Qpower_le_compat_l_inv with (q := 2%Q); [|reflexivity].
  apply Qle_trans with (Qabs x); [now apply Qlog2_le | exact Hb].
Qed.

(** Equal rationals have the same nearest float. *)
Lemma fl_proper (x y : Q) : (x == y)%Q -> fl x = fl y.
Proof. intros E. unfold fl. now rewrite (Qred_complete x y E). Qed.

Lemma fl_zero : fl 0 = 0%Q.
Proof. reflexivity. Qed.

(** The rounding error of a float below [2 ^ M] is at most half a unit
    in the last place of that range. *)
Lemma fl_error (M : Z) (x : Q) :
  (-1022 <= M)%Z -> (Qabs x <= 2 ^ M)%Q -> (Qabs (fl x - x) <= 2 ^ (M - 53))%Q.
Proof.
  intros HM Hb. unfold fl.
  pose proof (Qred_correct x) as Hr. set (x' := Qred x) in *.
  pose proof (two_power_pos (M - 53)) as Hpos.
  destruct (Qeq_bool x' 0) eqn:E.
  - apply Qeq_bool_iff in E. apply Qabs_Qle_condition. rewrite <- Hr, E. lra.
  - apply Qeq_bool_neq in E.
    assert (Qlog2 x' <= M)%Z as Hl by (apply Qlog2_bound; [exact E | now rewrite Hr]).
    set (e := Z.max (Qlog2 x' - 52) (-1074)).
    assert (e <= M - 52)%Z as He by lia.
    pose proof (two_power_pos e) as Hs.
    pose proof (Qpower_le_compat_l 2 e (M - 52) He ltac:(discriminate)) as Hmono.
    replace (M - 52)%Z with (M - 53 + 1)%Z in Hmono by lia.
    rewrite two_power_succ in Hmono.
    set (s := (2 ^ e)%Q) in *. set (u := (2 ^ (M - 53))%Q) in *.
    rewrite Qred_correct.
    pose proof (round_half_even_close (x' / s)) as Hc.
    set (m := inject_Z (round_half_even (x' / s))) in *.
    assert (m * s - x == (m - x' / s) * s)%Q as ->.
    { rewrite <- Hr. field. lra. }
    rewrite Qabs_Qmult, (Qabs_pos s) by lra.
    apply Qle_trans with ((1 # 2) * s)%Q; [|lra].
    apply Qmult_le_compat_r; [exact Hc | lra].
Qed.

(** The three ranges the travel times of a request stay in. *)
Lemma fl_error_24 (x : Q) :
  (Qabs x <= 16777216)%Q -> (Qabs (fl x - x) <= 1 # 536870912)%Q.
Proof. intros Hb. apply (fl_error 24 x); [lia | exact Hb]. Qed.

Lemma fl_error_25 (x : Q) :
  (Qabs x <= 33554432)%Q -> (Qabs (fl x - x) <= 1 # 268435456)%Q.
Proof. intros Hb. apply (fl_error 25 x); [lia | exact Hb]. Qed.

Lemma fl_error_29 (x : Q) :
  (Qabs x <= 536870912)%Q -> (Qabs (fl x - x) <= 1 # 16777216)%Q.
Proof. intros Hb. apply (fl_error 29 x); [lia | exact Hb]. Qed.

Ltac bounds H := apply Qabs_Qle_condition in H.
Ltac no_division :=
  unfold Qdiv in *;
  change (/ 10)%Q with (1 # 10)%Q in *;
  change (/ 60)%Q with (1 # 60)%Q in *;
  change (/ 100)%Q with (1 # 100)%Q in *.
Ltac bound_goal := apply Qabs_Qle_condition; no_division; split; lra.

Lemma inject_length_cons {A : Type} (x : A) (l : list A) :
  (inject_Z (Z.of_nat (length (x :: l))) == inject_Z (Z.of_nat (length l)) + 1)%Q.
Proof.
  cbn [length]. rewrite Nat2Z.inj_succ. unfold Z.succ. now rewrite inject_Z_plus.
Qed.

Lemma inject_length_nonneg {A : Type} (l : list A) :
  (0 <= inject_Z (Z.of_nat (length l)))%Q.
Proof. change 0%Q with (inject_Z 0). rewrite <- Zle_Qle. lia. Qed.

(** ** Floats: the builtin [sum] *)

(** Additions from left to right: each one adds at most [2 ^ -24] to the
    error, while the totals stay below [2 ^ 29]. *)
Lemma left_to_right_error (values : list Q) :
  forall acc exact E : Q,
    Forall (fun v => Qabs v <= 16666670)%Q values ->
    (Qabs (acc - exact) <= E)%Q ->
    (Qabs exact + inject_Z (Z.of_nat (length values)) * 16666670 + E
     + inject_Z (Z.of_nat (length values)) * (1 # 16777216) <= 536870912)%Q ->
    (Qabs (fold_left float_add values acc - fold_left Qplus values exact)
     <= E + inject_Z (Z.of_nat (length values)) * (1 # 16777216))%Q.
Proof.
  induction values as [|x rest IH]; intros acc exact E Hv Ha Hcap.
  - cbn [fold_left length]. change (inject_Z (Z.of_nat 0)) with 0%Q.
    bounds Ha. bound_goal.
  - inversion Hv as [|? ? Hx Hrest]; subst.
    rewrite inject_length_cons in Hcap |- *.
    pose proof (inject_length_nonneg rest) as Hn.
    set (N := inject_Z (Z.of_nat (length rest))) in *.
    pose proof (Qabs_bounds exact) as He.
    bounds Ha. bounds Hx.
    assert (Qabs (acc + x) <= 536870912)%Q as Hsum by bound_goal.
    apply fl_error_29 in Hsum. bounds Hsum.
    cbn [fold_left]. fold (float_add acc x) in Hsum.
    assert (Qabs (float_add acc x - (exact + x)) <= E + (1 # 16777216))%Q as Ha' by bound_goal.
    assert (Qabs (exact + x) <= Qabs exact + 16666670)%Q as Hex by bound_goal.
    pose proof (IH (float_add acc x) (exact + x)%Q (E + (1 # 16777216))%Q Hrest Ha') as Hr.
    fold N in Hr.
    apply Qle_trans with (E + (1 # 16777216) + N * (1 # 16777216))%Q; [|lra].
    apply Hr. lra.
Qed.

(** The compensated loop: the same total, and a compensation that grows
    by at most four roundings per item. *)
Lemma compensated_error (values : list Q) :
  forall total c exact E C : Q,
    Forall (fun v => Qabs v <= 16666670)%Q values ->
    (Qabs (total - exact) <= E)%Q ->
    (Qabs c <= C)%Q ->
    (Qabs exact + inject_Z (Z.of_nat (length values)) * 16666670 + E + C
     + inject_Z (Z.of_nat (length values)) * (5 # 16777216) <= 536870912)%Q ->
    (Qabs (fst (compensated total c values) - fold_left Qplus values exact)
     <= E + inject_Z (Z.of_nat (length values)) * (1 # 16777216))%Q
    /\ (Qabs (snd (compensated total c values))
        <= C + inject_Z (Z.of_nat (length values)) * (4 # 16777216))%Q.
Proof.
  induction values as [|x rest IH]; intros total c exact E C Hv Ht Hc Hcap.
  - cbn [compensated fold_left length fst snd]. change (inject_Z (Z.of_nat 0)) with 0%Q.
    bounds Ht. bounds Hc. split; bound_goal.
  - inversion Hv as [|? ? Hx Hrest]; subst.
    rewrite inject_length_cons in Hcap |- *.
    pose proof (inject_length_nonneg rest) as Hn.
    set (N := inject_Z (Z.of_nat (length rest))) in *.
    pose proof (Qabs_bounds exact) as He.
    bounds Ht. bounds Hx. bounds Hc.
    assert (Qabs (total + x) <= 536870912)%Q as Hsum by bound_goal.
    apply fl_error_29 in Hsum. bounds Hsum. fold (float_add total x) in Hsum.
    cbn [compensated fold_left]. set (t := float_add total x) in *.
    assert (Qabs (t - (exact + x)) <= E + (1 # 16777216))%Q as Ht' by bound_goal.
    assert (Qabs (exact + x) <= Qabs exact + 16666670)%Q as Hex by bound_goal.
    assert (Qabs (if Qle_bool (Qabs x) (Qabs total)
                  then float_add (float_sub total t) x
                  else float_add (float_sub x t) total) <= 3 # 16777216)%Q as Hlost.
    { destruct (Qle_bool (Qabs x) (Qabs total)).
      - assert (Qabs (total - t) <= 536870912)%Q as Hu by bound_goal.
        apply fl_error_29 in Hu. bounds Hu. fold (float_sub total t) in Hu.
        set (u := float_sub total t) in *.
        assert (Qabs (u + x) <= 536870912)%Q as Hl by bound_goal.
        apply fl_error_29 in Hl. bounds Hl. fold (float_add u x) in Hl.
        bound_goal.
      - assert (Qabs (x - t) <= 536870912)%Q as Hu by bound_goal.
        apply fl_error_29 in Hu. bounds Hu. fold (float_sub x t) in Hu.
        set (u := float_sub x t) in *.
        assert (Qabs (u + total) <= 536870912)%Q as Hl by bound_goal.
        apply fl_error_29 in Hl. bounds Hl. fold (float_add u total) in Hl.
        bound_goal. }
    set (lost := if Qle_bool (Qabs x) (Qabs total) then _ else _) in *.
    bounds Hlost.
    assert (Qabs (c + lost) <= 536870912)%Q as Hcl by bound_goal.
    apply fl_error_29 in Hcl. bounds Hcl. fold (float_add c lost) in Hcl.
    assert (Qabs (float_add c lost) <= C + (4 # 16777216))%Q as Hc' by bound_goal.
    destruct (IH t (float_add c lost) (exact + x)%Q (E + (1 # 16777216))%Q
                 (C + (4 # 16777216))%Q Hrest Ht' Hc') as [Hr1 Hr2];
      fold N; [lra|].
    fold N in Hr1, Hr2. split.
    + apply Qle_trans with (E + (1 # 16777216) + N * (1 # 16777216))%Q; [exact Hr1 | lra].
    + apply Qle_trans with (C + (4 # 16777216) + N * (4 # 16777216))%Q; [exact Hr2 | lra].
Qed.

Lemma exact_sum_bound (values : list Q) :
  forall acc : Q,
    Forall (fun v => Qabs v <= 16666670)%Q values ->
    (Qabs (fold_left Qplus values acc)
     <= Qabs acc + inject_Z (Z.of_nat (length values)) * 16666670)%Q.
Proof.
  induction values as [|x rest IH]; intros acc Hv.
  - cbn [fold_left length]. change (inject_Z (Z.of_nat 0)) with 0%Q. lra.
  - inversion Hv as [|? ? Hx Hrest]; subst.
    rewrite inject_length_cons. cbn [fold_left].
    pose proof (IH (acc + x)%Q Hrest) as Hr.
    set (N := inject_Z (Z.of_nat (length rest))) in *.
    pose proof (Qabs_bounds acc) as Ha. bounds Hx.
    assert (Qabs (acc + x) <= Qabs acc + 16666670)%Q as Hs by bound_goal.
    lra.
Qed.

(** The builtin [sum] of at most ten floats below [2 ^ 24], under either
    interpreter, is close to their exact sum. *)
Lemma py_sum_error `{Python} (values : list Q) :
  Forall (fun v => Qabs v <= 16666670)%Q values ->
  (length values <= 10)%nat ->
  (Qabs (py_sum values - Qsum values) <= 47 # 16777216)%Q.
Proof.
  intros Hv Hlen. unfold py_sum, Qsum.
  destruct values as [|first rest]; [cbn [fold_left]; bound_goal|].
  inversion Hv as [|? ? Hfirst Hrest]; subst.
  cbn [fold_left]. cbn [length] in Hlen.
  assert (inject_Z (Z.of_nat (length rest)) <= 9)%Q as Hn.
  { change 9%Q with (inject_Z 9). rewrite <- Zle_Qle. lia. }
  pose proof (inject_length_nonneg rest) as Hn0.
  set (N := inject_Z (Z.of_nat (length rest))) in *.
  bounds Hfirst.
  assert (Qabs (0 + first) <= 536870912)%Q as Hs by bound_goal.
  apply fl_error_29 in Hs. fold (float_add 0 first) in Hs.
  set (start := float_add 0 first) in *.
  assert (Qabs (0 + first) <= 16666670)%Q as Hex by bound_goal.
  destruct summation.
  - pose proof (left_to_right_error rest start (0 + first)%Q (1 # 16777216)%Q Hrest Hs) as Hr.
    fold N in Hr. apply Qle_trans with ((1 # 16777216) + N * (1 # 16777216))%Q; [|lra].
    apply Hr. lra.
  - assert (Qabs 0 <= 0)%Q as Hc0 by apply (Qle_refl 0).
    destruct (compensated_error rest start 0%Q (0 + first)%Q (1 # 16777216)%Q 0%Q
                                Hrest Hs Hc0) as [Ht Hc]; fold N; [lra|].
    fold N in Ht, Hc.
    destruct (compensated start 0 rest) as [total c]. cbn [fst snd] in Ht, Hc.
    bounds Ht. bounds Hc.
    pose proof (Qabs_bounds (fold_left Qplus rest (0 + first)%Q)) as Hb.
    pose proof (exact_sum_bound rest (0 + first)%Q Hrest) as Hexact. fold N in Hexact.
    destruct (Qeq_bool c 0); [bound_goal|].
    bounds Hexact.
    assert (Qabs (total + c) <= 536870912)%Q as Htc by bound_goal.
    apply fl_error_29 in Htc. bounds Htc. fold (float_add total c) in Htc.
    bound_goal.
Qed.

(** ** Floats: travel times in minutes and the objective *)

(** [round(d / 60, 1)]: the float nearest to a number of tenths that is
    within one twentieth of the quotient; for a duration of at most
    [10 ** 9] seconds the quotient is within [2 ^ -29] of [d / 60]. *)
Lemma travel_minutes_decimal (d : Q) :
  let k := round_half_even (float_div d 60 * 10) in
  py_round (float_div d 60) 1 = fl (inject_Z k / 10)
  /\ (Qabs (inject_Z k / 10 - float_div d 60) <= 1 # 20)%Q
  /\ ((Qabs d <= 1000000000)%Q ->
      (Qabs (float_div d 60 - d / 60) <= 1 # 536870912)%Q
      /\ (Qabs (inject_Z k / 10) <= 16666669)%Q).
Proof.
  intros k. pose proof (round_half_even_close (float_div d 60 * 10)) as Hk.
  fold k in Hk. bounds Hk.
  split; [reflexivity|]. split; [bound_goal|].
  intros Hd. bounds Hd.
  assert (Qabs (d / 60) <= 16777216)%Q as Hq by bound_goal.
  apply fl_error_24 in Hq. fold (float_div d 60) in Hq.
  split; [exact Hq|]. bounds Hq. bound_goal.
Qed.

Lemma decimal_float_error (k : Z) :
  (Qabs (inject_Z k / 10) <= 16666669)%Q ->
  (Qabs (fl (inject_Z k / 10) - inject_Z k / 10) <= 1 # 268435456)%Q
  /\ (Qabs (fl (inject_Z k / 10)) <= 16666670)%Q.
Proof.
  intros Hk. bounds Hk.
  assert (Qabs (inject_Z k / 10) <= 33554432)%Q as Hb by bound_goal.
  apply fl_error_25 in Hb. split; [exact Hb|]. bounds Hb. bound_goal.
Qed.

(** The exact sum of the floats of numbers of tenths is close to the
    sum of the tenths. *)
Lemma exact_decimal_sum (ks : list Z) :
  forall acc acc0 E : Q,
    Forall (fun k => Qabs (inject_Z k / 10) <= 16666669)%Q ks ->
    (Qabs (acc - acc0) <= E)%Q ->
    (Qabs (fold_left Qplus (List.map (fun k => fl (inject_Z k / 10)) ks) acc
           - (acc0 + inject_Z (fold_right Z.add 0%Z ks) / 10))
     <= E + inject_Z (Z.of_nat (length ks)) * (1 # 268435456))%Q.
Proof.
  induction ks as [|k ks IH]; intros acc acc0 E Hks Ha.
  - cbn [List.map fold_left fold_right length].
    change (inject_Z (Z.of_nat 0)) with 0%Q. change (inject_Z 0) with 0%Q.
    bounds Ha. bound_goal.
  - inversion Hks as [|? ? Hk Hrest]; subst.
    rewrite inject_length_cons. cbn [List.map fold_left fold_right].
    destruct (decimal_float_error k Hk) as [Herr _]. bounds Herr. bounds Ha.
    set (eta := fl (inject_Z k / 10)) in *.
    assert (Qabs (acc + eta - (acc0 + inject_Z k / 10)) <= E + (1 # 268435456))%Q
      as Ha' by bound_goal.
    pose proof (IH (acc + eta)%Q (acc0 + inject_Z k / 10)%Q _ Hrest Ha') as Hr.
    set (N := inject_Z (Z.of_nat (length ks))) in *.
    rewrite inject_Z_plus.
    set (K := inject_Z (fold_right Z.add 0%Z ks)) in *.
    bounds Hr. bound_goal.
Qed.

(** [round(sum(etas), 2)] for at most ten travel times that are floats of
    numbers of tenths: the float of the sum of the tenths, whatever the
    interpreter. *)
Lemma objective_sum_decimal `{Python} (ks : list Z) :
  Forall (fun k => Qabs (inject_Z k / 10) <= 16666669)%Q ks ->
  (length ks <= 10)%nat ->
  py_round (py_sum (List.map (fun k => fl (inject_Z k / 10)) ks)) 2
  = fl (inject_Z (fold_right Z.add 0%Z ks) / 10).
Proof.
  intros Hks Hlen.
  set (etas := List.map (fun k => fl (inject_Z k / 10)) ks).
  assert (Forall (fun v => Qabs v <= 16666670)%Q etas) as Hetas.
  { unfold etas. clear Hlen. induction Hks as [|k ks Hk _ IH]; constructor; [|exact IH].
    now apply decimal_float_error. }
  assert (length etas <= 10)%nat as Hlen' by (unfold etas; now rewrite length_map).
  pose proof (py_sum_error etas Hetas Hlen') as Hsum.
  assert (Qabs (0 - 0) <= 0)%Q as H0 by apply (Qle_refl 0).
  pose proof (exact_decimal_sum ks 0%Q 0%Q 0%Q Hks H0) as Hexact.
  fold etas in Hexact. fold (Qsum etas) in Hexact.
  assert (inject_Z (Z.of_nat (length ks)) <= 10)%Q as Hn.
  { change 10%Q with (inject_Z 10). rewrite <- Zle_Qle. lia. }
  pose proof (inject_length_nonneg ks) as Hn0.
  set (N := inject_Z (Z.of_nat (length ks))) in *.
  set (K := fold_right Z.add 0%Z ks) in *.
  unfold py_round. change (inject_Z (10 ^ Z.of_nat 2)) with 100%Q.
  rewrite (round_half_even_near (py_sum etas * 100) (10 * K)).
  - apply fl_proper. rewrite inject_Z_mult. change (inject_Z 10) with 10%Q. field.
  - rewrite inject_Z_mult. change (inject_Z 10) with 10%Q.
    bounds Hsum. bounds Hexact. apply Qabs_Qlt_condition. no_division. split; lra.
Qed.

(** [round(eta, 2)] of a travel time that is the float of a number of
    tenths is that travel time. *)
Lemma objective_max_decimal (k : Z) :
  (Qabs (inject_Z k / 10) <= 16666669)%Q ->
  py_round (fl (inject_Z k / 10)) 2 = fl (inject_Z k / 10).
Proof.
  intros Hk. destruct (decimal_float_error k Hk) as [Herr _].
  unfold py_round. change (inject_Z (10 ^ Z.of_nat 2)) with 100%Q.
  rewrite (round_half_even_near (fl (inject_Z k / 10) * 100) (10 * k)).
  - apply fl_proper. rewrite inject_Z_mult. change (inject_Z 10) with 10%Q. field.
  - rewrite inject_Z_mult. change (inject_Z 10) with 10%Q.
    bounds Herr. apply Qabs_Qlt_condition. no_division. split; lra.
Qed.

Lemma zip_participants_eta (addresses : list string) (coords : list Coordinate) :
  forall etas : list Q,
    length addresses = length coords ->
    length etas = length coords ->
    List.map Response.eta_minutes (zip_participants addresses coords etas) = etas
    /\ List.map Response.address (zip_participants addresses coords etas)
       = addresses.
Proof.
  revert coords. induction addresses as [|a l IH]; intros [|c cs] [|e es]; simpl;
    try discriminate; try (split; reflexivity).
  intros [= Hl] [= He]. destruct (IH cs es Hl He) as [-> ->]. now split.
Qed.

(** ** Travel times, objective and verdict *)

Section Evaluation.

Context {polygon other : Type} `{Shapely polygon other} `{Python}.
Variable mapbox : Mapbox polygon other.

#[local] Abbreviation geometry := (Geometry polygon other).

Lemma evaluate_resolved (payload : MeetingPointRequest) (token : string)
      (addresses : list string) (coords : list Coordinate) (effective : Z)
      (region : geometry) (body : Response.Body polygon other) :
  snd (evaluate mapbox payload token addresses coords effective region)
  = Ok (Response.Resolved body) ->
  exists secs value,
    travel_times mapbox coords (centroid region) (profile payload) token = Ok secs
    /\ _objective_value (List.map (fun d => py_round (float_div d 60) 1) secs) (objective payload)
       = Ok value
    /\ made_of payload addresses coords effective region secs value body.
Proof.
  unfold evaluate. rewrite <- surjective_pairing, gather_travel.
  destruct (travel_times _ _ _ _ _) as [secs|e]; [|discriminate].
  rewrite bind_ok. unfold lift.
  destruct (_objective_value _ _) as [value|e] eqn:V; [|discriminate].
  rewrite bind_ok. simpl. intros [= <-].
  exists secs, value. repeat split; assumption.
Qed.

Lemma conclude_resolved (payload : MeetingPointRequest) (token : string)
      (addresses : list string) (coords : list Coordinate) (g : geometry)
      (effective : Z) (body : Response.Body polygon other) :
  snd (conclude mapbox payload token addresses coords g effective)
  = Ok (Response.Resolved body) ->
  exists region,
    is_empty g = false /\ _polygonal_region g = Ok region /\ is_empty region = false
    /\ snd (evaluate mapbox payload token addresses coords effective region)
       = Ok (Response.Resolved body).
Proof.
  unfold conclude. destruct (is_empty g); [discriminate|].
  unfold lift. destruct (_polygonal_region g) as [region|e]; [|discriminate].
  rewrite bind_ok. destruct (is_empty region) eqn:E; [discriminate|].
  intros Hb. now exists region.
Qed.

Lemma resolve_resolved (payload : MeetingPointRequest) (token : string)
      (addresses : list string) (coords : list Coordinate)
      (body : Response.Body polygon other) :
  snd (resolve mapbox payload token addresses coords) = Ok (Response.Resolved body) ->
  exists effective region,
    (effective = max_minutes payload \/ effective = bumped_minutes payload)
    /\ is_empty region = false
    /\ snd (evaluate mapbox payload token addresses coords effective region)
       = Ok (Response.Resolved body).
Proof.
  rewrite resolve_run.
  destruct (intersection_at _ _ _ _ (max_minutes payload)) as [g|e]; [|discriminate].
  destruct (is_empty g && _).
  - destruct (intersection_at _ _ _ _ (bumped_minutes payload)) as [g'|e]; [|discriminate].
    simpl. intros Hb. apply conclude_resolved in Hb as (region & _ & _ & E & Hb).
    exists (bumped_minutes payload), region. split; [now right | now split].
  - simpl. intros Hb. apply conclude_resolved in Hb as (region & _ & _ & E & Hb).
    exists (max_minutes payload), region. split; [now left | now split].
Qed.

(** A resolved answer comes from a started request and is made of the
    travel times to the centroid of a non-empty region. *)
Lemma meeting_point_resolved (payload : MeetingPointRequest)
      (body : Response.Body polygon other) :
  snd (meeting_point mapbox payload) = Ok (Response.Resolved body) ->
  exists token coords effective region secs value,
    started mapbox payload token coords
    /\ (effective = max_minutes payload \/ effective = bumped_minutes payload)
    /\ is_empty region = false
    /\ travel_times mapbox coords (centroid region) (profile payload) token = Ok secs
    /\ _objective_value (List.map (fun d => py_round (float_div d 60) 1) secs) (objective payload)
       = Ok value
    /\ made_of payload (_deduplicate_addresses (addresses payload)) coords effective
               region secs value body.
Proof.
  intros Hb.
  destruct (_mapbox_token mapbox) as [token|e] eqn:T;
    [|unfold meeting_point in Hb; now rewrite T in Hb].
  destruct (_deduplicate_addresses (addresses payload)) as [|a l] eqn:D;
    [unfold meeting_point in Hb; now rewrite T, D in Hb|].
  destruct (geocoded mapbox (a :: l) (city_hint payload) token) as [coords|e] eqn:G;
    [|unfold meeting_point in Hb; rewrite T, D in Hb; unfold lift in Hb;
      rewrite bind_ok, gather_geocode, G in Hb; discriminate].
  assert (started mapbox payload token coords) as Hs.
  { unfold started. rewrite D. repeat split; [assumption | discriminate | assumption]. }
  rewrite (meeting_point_started mapbox payload token coords Hs) in Hb. simpl in Hb.
  apply resolve_resolved in Hb as (effective & region & Heff & E & Hb).
  apply evaluate_resolved in Hb as (secs & value & Ht & Hv & Hm).
  rewrite D in Hm. now exists token, coords, effective, region, secs, value.
Qed.

Lemma started_lengths (payload : MeetingPointRequest) (token : string)
      (coords : list Coordinate) :
  started mapbox payload token coords ->
  length (_deduplicate_addresses (addresses payload)) = length coords.
Proof.
  intros (_ & _ & Hg). apply sequence_length in Hg.
  now rewrite Hg, length_map.
Qed.

Lemma travel_times_length (coords : list Coordinate) (destination : Coordinate)
      (profile token : string) (secs : list Q) :
  travel_times mapbox coords destination profile token = Ok secs ->
  length secs = length coords.
Proof.
  intros Ht. apply sequence_length in Ht. now rewrite Ht, length_map.
Qed.

(** C3. In a resolved answer the verdict is true exactly when every
    participant's travel time in minutes is at most the effective
    budget plus one half; a false verdict comes with the reason
    "travel_time_exceeds_budget", a true one with none; that reason
    differs from "no_common_reachable_region"; and the objective value
    is computed and returned whatever the verdict. *)
Theorem verdict_iff_within_budget (payload : MeetingPointRequest)
        (body : Response.Body polygon other) :
  snd (meeting_point mapbox payload) = Ok (Response.Resolved body) ->
  (Response.reachable body = true
   <-> forall p, In p (Response.participants body) ->
                 (Response.eta_minutes p
                  <= inject_Z (Response.max_minutes body) + (1 # 2))%Q)
  /\ (Response.reachable body = false ->
      Response.reason body = Some "travel_time_exceeds_budget")
  /\ (Response.reachable body = true -> Response.reason body = None)
  /\ "travel_time_exceeds_budget" <> "no_common_reachable_region"
  /\ exists value,
      _objective_value (List.map Response.eta_minutes (Response.participants body))
                       (objective payload) = Ok value
      /\ Response.objective_value body = py_round value 2.
Proof.
  intros Hb.
  apply meeting_point_resolved in Hb
    as (token & coords & effective & region & secs & value & Hs & _ & _ & Ht & Hv & Hm).
  destruct Hm as (_ & Hp & _ & Ho & He & Hr & _ & Hreason).
  set (etas := List.map (fun d => py_round (float_div d 60) 1) secs) in *.
  assert (List.map Response.eta_minutes (Response.participants body) = etas) as Hetas.
  { rewrite Hp. apply zip_participants_eta.
    - now apply started_lengths with token.
    - unfold etas. rewrite length_map. now apply travel_times_length in Ht. }
  split; [|split; [|split; [|split]]].
  - rewrite Hr, He, forallb_forall, <- Hetas. split.
    + intros Hall p Hin. apply Qle_bool_iff, Hall, in_map_iff. now exists p.
    + intros Hall d Hd. apply in_map_iff in Hd as (p & <- & Hin).
      now apply Qle_bool_iff, Hall.
  - intros Hf. now rewrite Hreason, Hf.
  - intros Hf. now rewrite Hreason, Hf.
  - discriminate.
  - exists value. rewrite Hetas. now split.
Qed.

(** C8. In a resolved answer each participant's travel time is the
    duration in seconds returned for that participant, divided by 60
    and rounded to one decimal place: the float nearest to a number of
    tenths that is within one twentieth of the quotient.  The objective
    value is a float nearest to a number of hundredths.  For durations
    of at most [10 ** 9] seconds the quotient is the exact one up to
    [2 ^ -29]; for "min_sum" and at most ten participants the objective
    value is then the float nearest to the sum of the tenths of all
    travel times, under either interpreter, and for any other objective
    it is the largest travel time: rounding to two decimal places
    changes neither. *)
Theorem durations_and_objective (payload : MeetingPointRequest)
        (body : Response.Body polygon other) :
  snd (meeting_point mapbox payload) = Ok (Response.Resolved body) ->
  let etas := List.map Response.eta_minutes (Response.participants body) in
  let candidate :=
    (Response.lng (Response.meeting_point body), Response.lat (Response.meeting_point body)) in
  exists (token : string) (coords : list Coordinate) (secs : list Q) (tenths : list Z),
    started mapbox payload token coords
    /\ travel_times mapbox coords candidate (profile payload) token = Ok secs
    /\ etas = List.map (fun k => fl (inject_Z k / 10)) tenths
    /\ Forall2 (fun k d => Qabs (inject_Z k / 10 - float_div d 60) <= 1 # 20)%Q tenths secs
    /\ (exists k : Z, Response.objective_value body = fl (inject_Z k / 100))
    /\ (Forall (fun d => Qabs d <= 1000000000)%Q secs ->
        Forall2 (fun k d => Qabs (inject_Z k / 10 - d / 60) <= (1 # 20) + (1 # 536870912))%Q
                tenths secs
        /\ ((length secs <= 10)%nat ->
            objective payload = "min_sum" ->
            Response.objective_value body
            = fl (inject_Z (fold_right Z.add 0%Z tenths) / 10))
        /\ (objective payload <> "min_sum" ->
            exists longest,
              In longest etas
              /\ (forall eta, In eta etas -> (eta <= longest)%Q)
              /\ Response.objective_value body = longest)).
Proof.
  intros Hb etas candidate.
  apply meeting_point_resolved in Hb
    as (token & coords & effective & region & secs & value & Hs & _ & _ & Ht & Hv & Hm).
  destruct Hm as (Hmp & Hp & _ & Ho & _).
  set (tenths := List.map (fun d => round_half_even (float_div d 60 * 10)) secs).
  assert (etas = List.map (fun k => fl (inject_Z k / 10)) tenths) as Hetas.
  { unfold etas, tenths. rewrite Hp, List.map_map.
    apply zip_participants_eta.
    - now apply started_lengths with token.
    - rewrite length_map. now apply travel_times_length in Ht. }
  assert (candidate = centroid region) as Hc.
  { unfold candidate. rewrite Hmp. simpl. now destruct (centroid region). }
  rewrite Hetas in *. clear Hetas etas.
  exists token, coords, secs, tenths. rewrite Hc.
  split; [assumption|]. split; [assumption|]. split; [reflexivity|].
  split; [|split].
  - unfold tenths. clear. induction secs as [|d secs IH]; cbn [List.map]; constructor; [|exact IH].
    apply (travel_minutes_decimal d).
  - exists (round_half_even (value * 100)). rewrite Ho. reflexivity.
  - intros Hsecs.
    assert (Forall (fun k => Qabs (inject_Z k / 10) <= 16666669)%Q tenths) as Hks.
    { unfold tenths. clear - Hsecs.
      induction Hsecs as [|d secs Hd _ IH]; cbn [List.map]; constructor; [|exact IH].
      now apply (travel_minutes_decimal d). }
    split; [|split].
    + unfold tenths. clear - Hsecs.
      induction Hsecs as [|d secs Hd _ IH]; cbn [List.map]; constructor; [|exact IH].
      destruct (travel_minutes_decimal d) as (_ & Hk & Hq).
      destruct (Hq Hd) as [Hq' _]. bounds Hk. bounds Hq'. bound_goal.
    + intros Hlen Hobj. rewrite Ho. unfold _objective_value in Hv.
      rewrite Hobj in Hv. simpl in Hv. injection Hv as <-.
      replace (List.map (fun d => py_round (float_div d 60) 1) secs)
        with (List.map (fun k => fl (inject_Z k / 10)) tenths)
        by (unfold tenths; now rewrite List.map_map).
      apply objective_sum_decimal; [exact Hks|].
      unfold tenths. now rewrite length_map.
    + intros Hobj. unfold _objective_value in Hv.
      apply String.eqb_neq in Hobj. rewrite Hobj in Hv.
      replace (List.map (fun d => py_round (float_div d 60) 1) secs)
        with (List.map (fun k => fl (inject_Z k / 10)) tenths) in Hv
        by (unfold tenths; now rewrite List.map_map).
      apply py_max_spec in Hv as [Hin Hmax]. exists value.
      split; [exact Hin|]. split; [exact Hmax|]. rewrite Ho.
      apply in_map_iff in Hin as (k & <- & Hk).
      apply objective_max_decimal.
      rewrite List.Forall_forall in Hks. now apply Hks.
Qed.

End Evaluation.

(** ** Participants of a request *)

Lemma validate_ok_addresses (raw : RawRequest) (payload : MeetingPointRequest) :
  validate raw = Ok payload ->
  field_addresses (raw_addresses raw) = Ok (addresses payload)
  /\ city_hint payload = raw_city_hint raw.
Proof.
  unfold validate.
  destruct (field_addresses _), (with_default "walking" _ _), (field_max_minutes _),
    (with_default "min_sum" _ _), (field_grid_resolution_m _); try discriminate.
  intros [= <-]. now split.
Qed.

Lemma NoDup_map_injective {A B : Type} (f : A -> B) (l : list A) (x y : A) :
  NoDup (List.map f l) -> In x l -> In y l -> f x = f y -> x = y.
Proof.
  induction l as [|a l IH]; simpl; [tauto|].
  rewrite NoDup_cons, list_elem_of_In, in_map_iff. intros [Hfresh Hnd] [<-|Hx] [<-|Hy] E.
  - reflexivity.
  - exfalso. apply Hfresh. now exists y.
  - exfalso. apply Hfresh. now exists x.
  - now apply IH.
Qed.

Lemma strip_kept (value : list string) (a : string) :
  In a value ->
  Str.strip a <> "" ->
  In (Str.strip a)
     (List.map Str.strip (List.filter (fun addr => Str.truthy (Str.strip addr)) value)).
Proof.
  intros Hin Hne. apply in_map_iff. exists a. split; [reflexivity|].
  apply filter_In. split; [assumption|]. now destruct (Str.strip a).
Qed.

Section Participants.

Context {polygon other : Type} `{Shapely polygon other} `{Python}.
Variable mapbox : Mapbox polygon other.

Lemma isochrone_not_geocode (coords : list Coordinate) (minutes : Z) (profile : string) :
  Forall (fun c => is_geocode_call c = false) (isochrone_calls coords minutes profile).
Proof.
  apply List.Forall_forall. intros c Hc. now apply in_map_iff in Hc as (x & <- & _).
Qed.

Lemma conclude_not_geocode (payload : MeetingPointRequest) (token : string)
      (addresses : list string) (coords : list Coordinate)
      (g : Geometry polygon other) (effective : Z) :
  Forall (fun c => is_geocode_call c = false)
         (fst (conclude mapbox payload token addresses coords g effective)).
Proof.
  eapply List.Forall_impl; [|apply (conclude_log mapbox)]. now intros c [_ Hc].
Qed.

(** No geocoding call is made once the coordinates are known. *)
Lemma resolve_not_geocode (payload : MeetingPointRequest) (token : string)
      (addresses : list string) (coords : list Coordinate) :
  Forall (fun c => is_geocode_call c = false)
         (fst (resolve mapbox payload token addresses coords)).
Proof.
  rewrite resolve_run.
  destruct (intersection_at _ _ _ _ (max_minutes payload)) as [g|e];
    [|apply isochrone_not_geocode].
  destruct (is_empty g && _).
  - destruct (intersection_at _ _ _ _ (bumped_minutes payload)) as [g'|e]; simpl;
      repeat apply Forall_app_2;
      auto using isochrone_not_geocode, conclude_not_geocode.
  - simpl. apply Forall_app_2; auto using isochrone_not_geocode, conclude_not_geocode.
Qed.

(** The geocoding batch of a request with a token: one call per
    deduplicated address, and no other geocoding call. *)
Lemma meeting_point_geocodes_deduped (payload : MeetingPointRequest) (token : string) :
  _mapbox_token mapbox = Ok token ->
  _deduplicate_addresses (addresses payload) <> [] ->
  exists rest,
    fst (meeting_point mapbox payload)
    = geocode_calls (_deduplicate_addresses (addresses payload)) (city_hint payload) ++ rest
    /\ Forall (fun c => is_geocode_call c = false) rest.
Proof.
  intros Ht Hne.
  destruct (geocoded mapbox (_deduplicate_addresses (addresses payload))
                     (city_hint payload) token) as [coords|e] eqn:G.
  - rewrite (meeting_point_started mapbox payload token coords) by now repeat split.
    simpl. eexists. split; [reflexivity | apply resolve_not_geocode].
  - exists []. split; [|constructor]. unfold meeting_point. rewrite Ht.
    unfold lift. rewrite bind_ok.
    destruct (_deduplicate_addresses (addresses payload)) as [|a l]; [congruence|].
    rewrite gather_geocode, G. simpl. now rewrite !app_nil_r.
Qed.

(** C9, as the validator and the deduplication have it.  The
    addresses are stripped of leading and trailing white space, blank
    ones dropped, and those equal up to the case of their letters are
    collapsed: the first occurrence is kept, in input order, so every
    non-blank input address has exactly one participant with its
    stripped, lower-cased form; there are between 1 and 10
    participants; and the geocoding calls, the first calls of the
    handler, are made for the participants only. *)
Theorem addresses_deduplicated_before_calls
        (raw : RawRequest) (payload : MeetingPointRequest) :
  validate raw = Ok payload ->
  let cleaned :=
    List.map Str.strip
             (List.filter (fun addr => Str.truthy (Str.strip addr)) (raw_addresses raw)) in
  let deduped := _deduplicate_addresses (addresses payload) in
  participants_of (raw_addresses raw) = Ok deduped
  /\ deduped = first_occurrences [] cleaned
  /\ sublist deduped cleaned
  /\ NoDup (List.map Str.lower deduped)
  /\ (forall a, In a (raw_addresses raw) -> Str.strip a <> "" ->
                exists d, In d deduped
                          /\ Str.lower d = Str.lower (Str.strip a)
                          /\ forall d', In d' deduped ->
                                        Str.lower d' = Str.lower (Str.strip a) -> d' = d)
  /\ (1 <= length deduped <= 10)%nat
  /\ (forall token,
         _mapbox_token mapbox = Ok token ->
         exists rest,
           fst (post_meeting_point mapbox raw)
           = geocode_calls deduped (city_hint payload) ++ rest
           /\ Forall (fun c => is_geocode_call c = false) rest).
Proof.
  intros Hv cleaned deduped.
  destruct (validate_ok_addresses raw payload Hv) as [Hf _].
  destruct (validate_addresses_cleaned _ _ Hf) as [Hc Hlen]. fold cleaned in Hc.
  assert (deduped = first_occurrences [] cleaned) as Hd
      by (unfold deduped; now rewrite deduplicate_first_occurrences, Hc).
  destruct (first_occurrences_keys cleaned []) as [Hnd _]. rewrite <- Hd in Hnd.
  assert (sublist deduped cleaned) as Hsub
      by (rewrite Hd; apply first_occurrences_sublist).
  assert (deduped <> []) as Hne.
  { rewrite Hd. destruct cleaned as [|a l]; [rewrite Hc in Hlen; simpl in Hlen; lia|].
    destruct (first_occurrences_head a l) as [tail ->]. discriminate. }
  split; [unfold participants_of; now rewrite Hf|].
  split; [exact Hd|]. split; [exact Hsub|]. split; [exact Hnd|].
  split; [|split].
  - intros a Hin Hnb.
    destruct (first_occurrences_cover cleaned [] (Str.strip a)) as [[]|(d & Hdin & E)];
      [now apply strip_kept|].
    rewrite <- Hd in Hdin. exists d. split; [assumption|]. split; [assumption|].
    intros d' Hd' E'. apply (NoDup_map_injective Str.lower deduped); try assumption.
    congruence.
  - split.
    + destruct deduped; [congruence | simpl; lia].
    + apply sublist_length in Hsub. rewrite <- Hc in Hsub. lia.
  - intros token Ht. unfold post_meeting_point. rewrite Hv.
    now apply meeting_point_geocodes_deduped with token.
Qed.

End Participants.

(** ** The geometry of boxes satisfies the facts assumed of the library *)

Module BoxFacts.

Import Boxes.

Lemma Geometry_nested_ind {polygon other : Type} (P : Geometry polygon other -> Prop) :
  (forall p, P (Polygon p)) ->
  (forall ps, P (MultiPolygon ps)) ->
  (forall gs, Forall P gs -> P (GeometryCollection gs)) ->
  (forall o, P (Other o)) ->
  forall g, P g.
Proof.
  intros Hp Hm Hc Ho.
  refine (fix IH (g : Geometry polygon other) : P g :=
            match g with
            | Polygon p => Hp p
            | MultiPolygon ps => Hm ps
            | GeometryCollection gs =>
                Hc gs ((fix all (l : list (Geometry polygon other)) : Forall P l :=
                          match l with
                          | [] => @List.Forall_nil _ P
                          | x :: l' => @List.Forall_cons _ P x l' (IH x) (all l')
                          end) gs)
            | Other o => Ho o
            end).
Qed.

Lemma norm_normal (b : Box) : normal (norm b).
Proof. unfold norm. destruct (proper b) eqn:E; simpl; auto. Qed.

Lemma hull_normal (a b : option Box) : normal a -> normal b -> normal (hull a b).
Proof.
  destruct a as [a|], b as [b|]; simpl; auto.
  unfold proper. simpl. rewrite !andb_true_iff, !Z.leb_le. lia.
Qed.

Lemma hulls_normal (l : list (option Box)) : Forall normal l -> normal (hulls l).
Proof.
  induction 1 as [|e l He _ IH]; simpl; [exact I | now apply hull_normal].
Qed.

Lemma envelope_normal (g : Geometry Box Box) : normal (envelope g).
Proof.
  induction g as [p|ps|gs IH|o] using Geometry_nested_ind; simpl.
  - apply norm_normal.
  - apply hulls_normal, List.Forall_forall. intros e He.
    apply in_map_iff in He as (b & <- & _). apply norm_normal.
  - apply hulls_normal, List.Forall_forall. intros e He.
    apply in_map_iff in He as (g & <- & Hg).
    rewrite List.Forall_forall in IH. now apply IH.
  - apply norm_normal.
Qed.

Lemma meet_normal (a b : option Box) : normal (meet a b).
Proof. destruct a, b; simpl; auto using norm_normal. Qed.

Lemma envelope_of_envelope (e : option Box) : normal e -> envelope (of_envelope e) = e.
Proof.
  destruct e as [b|]; simpl; [|reflexivity].
  intros Hb. destruct (areal b); simpl; unfold norm; now rewrite Hb.
Qed.

Lemma meet_comm (a b : option Box) : meet a b = meet b a.
Proof.
  destruct a as [a|], b as [b|]; simpl; try reflexivity.
  unfold inf.
  now rewrite (Z.max_comm (x0 a)), (Z.max_comm (y0 a)),
    (Z.min_comm (x1 a)), (Z.min_comm (y1 a)).
Qed.

Lemma improper_inf (u c : Box) :
  proper u = false -> proper (inf u c) = false /\ proper (inf c u) = false.
Proof.
  unfold proper. simpl. rewrite !andb_false_iff, !Z.leb_gt. lia.
Qed.

Lemma meet_norm_l (u c : Box) : meet (norm u) (Some c) = norm (inf u c).
Proof.
  unfold norm at 1. destruct (proper u) eqn:E; simpl; [reflexivity|].
  unfold norm. now rewrite (proj1 (improper_inf u c E)).
Qed.

Lemma meet_norm_r (a u : Box) : meet (Some a) (norm u) = norm (inf a u).
Proof.
  unfold norm at 1. destruct (proper u) eqn:E; simpl; [reflexivity|].
  unfold norm. now rewrite (proj2 (improper_inf u a E)).
Qed.

Lemma inf_assoc (a b c : Box) : inf (inf a b) c = inf a (inf b c).
Proof.
  unfold inf. simpl. now rewrite !Z.max_assoc, !Z.min_assoc.
Qed.

Lemma meet_assoc (a b c : option Box) : meet (meet a b) c = meet a (meet b c).
Proof.
  destruct a as [a|], b as [b|], c as [c|]; try reflexivity.
  - change (meet (Some a) (Some b)) with (norm (inf a b)).
    change (meet (Some b) (Some c)) with (norm (inf b c)).
    now rewrite meet_norm_l, meet_norm_r, inf_assoc.
  - simpl. now destruct (norm _).
Qed.

Lemma intersection_comm (a b : Geometry Box Box) : intersection a b = intersection b a.
Proof. simpl. now rewrite meet_comm. Qed.

Lemma intersection_assoc (a b c : Geometry Box Box) :
  intersection (intersection a b) c = intersection a (intersection b c).
Proof.
  simpl. rewrite !envelope_of_envelope by apply meet_normal.
  now rewrite meet_assoc.
Qed.

Lemma union_polygonal (a b : Geometry Box Box) :
  is_polygonal a = true -> is_polygonal b = true -> is_polygonal (union a b) = true.
Proof. intros _ _. simpl. now destruct (hull _ _). Qed.

Lemma hull_none (a b : option Box) : hull a b = None <-> a = None /\ b = None.
Proof. destruct a, b; simpl; split; try tauto; try discriminate; now intros []. Qed.

Lemma hulls_none (l : list (option Box)) : hulls l = None <-> Forall (fun e => e = None) l.
Proof.
  induction l as [|e l IH]; simpl.
  - split; [constructor | reflexivity].
  - rewrite hull_none, IH. split.
    + intros [He Hl]. now constructor.
    + intros Hl. inversion Hl; now subst.
Qed.

Lemma norm_none (b : Box) : norm b = None <-> negb (proper b) = true.
Proof. unfold norm. destruct (proper b); simpl; split; congruence. Qed.

Lemma is_empty_envelope (g : Geometry Box Box) : is_empty g = true <-> envelope g = None.
Proof.
  induction g as [p|ps|gs IH|o] using Geometry_nested_ind; simpl.
  - symmetry. apply norm_none.
  - rewrite hulls_none, forallb_forall, List.Forall_forall. split.
    + intros Hall e He. apply in_map_iff in He as (b & <- & Hb).
      now apply norm_none, Hall.
    + intros Hall b Hb. apply norm_none, Hall, in_map_iff. now exists b.
  - rewrite hulls_none, forallb_forall, List.Forall_forall.
    rewrite List.Forall_forall in IH. split.
    + intros Hall e He. apply in_map_iff in He as (g & <- & Hg).
      now apply IH, Hall.
    + intros Hall g Hg. apply IH; [assumption|]. apply Hall, in_map_iff. now exists g.
  - symmetry. apply norm_none.
Qed.

Lemma contains_intersection (a b : Geometry Box Box) (pt : Z * Z) :
  contains (intersection a b) pt <-> contains a pt /\ contains b pt.
Proof.
  unfold contains. simpl. rewrite envelope_of_envelope by apply meet_normal.
  destruct (envelope a) as [[ax0 ay0 ax1 ay1]|], (envelope b) as [[bx0 by0 bx1 by1]|];
    simpl; try tauto.
  unfold norm, proper. simpl.
  destruct (Z.leb_spec (Z.max ax0 bx0) (Z.min ax1 bx1)),
    (Z.leb_spec (Z.max ay0 by0) (Z.min ay1 by1)); simpl; lia.
Qed.

Lemma is_empty_contains (g : Geometry Box Box) :
  is_empty g = true <-> forall pt, ~ contains g pt.
Proof.
  rewrite is_empty_envelope. unfold contains.
  pose proof (envelope_normal g) as Hn.
  destruct (envelope g) as [b|]; simpl in *.
  - split; [discriminate|]. intros Hno. exfalso. apply (Hno (x0 b, y0 b)).
    unfold proper in Hn. apply andb_true_iff in Hn as [Hx Hy].
    apply Z.leb_le in Hx, Hy. simpl. lia.
  - split; [tauto | reflexivity].
Qed.

End BoxFacts.

(** ** The geometry of tiles is order-free *)

Module TileFacts.

Import Tiles.













End TileFacts.

(** ** The properties on concrete inputs *)

(** Idempotence on a mixed collection: a segment and two squares that
    share an edge. *)
Lemma polygonal_region_idempotent_witness :
  let g := GeometryCollection
             [Other (Boxes.box 0 0 1 0); Boxes.mkbox 0 0 1 1; Boxes.mkbox 1 0 2 1] in
  obind (_polygonal_region g) _polygonal_region = _polygonal_region g
  /\ _polygonal_region g = Ok (Boxes.mkbox 0 0 2 1).
Proof.
  intros g. split.
  - exact (proj1 (polygonal_region_idempotent BoxFacts.union_polygonal) g).
  - reflexivity.
Defined.



(** Two squares that share an edge have no common area, and the reducer
    returns their common edge, which is not empty. *)
Lemma touching_regions_not_empty :
  ~ Boxes.empty_iff_no_common_area [Boxes.mkbox 0 0 1 1; Boxes.mkbox 1 0 2 1].
Proof.
  intros Hc. specialize (Hc (Other (Boxes.box 1 0 1 1)) eq_refl).
  destruct Hc as [_ Hback].
  assert (is_empty (Other (Boxes.box 1 0 1 1) : Geometry Boxes.Box Boxes.Box) = true)
    as E; [|discriminate E].
  apply Hback. intros [[x y] Hcell].
  destruct (Hcell (Boxes.mkbox 0 0 1 1) (or_introl eq_refl)) as [_ Hupper].
  destruct (Hcell (Boxes.mkbox 1 0 2 1) (or_intror (or_introl eq_refl))) as [Hlower _].
  unfold Boxes.contains in Hupper, Hlower. simpl in Hupper, Hlower. lia.
Qed.

(** Two overlapping squares, and the integer points they share. *)
Lemma feasible_region_subset_and_empty_iff_disjoint_witness :
  let l := [Boxes.mkbox 0 0 2 2; Boxes.mkbox 1 1 3 3] in
  exists r,
    _intersection l = Ok r
    /\ (forall g, In g l -> forall x, Boxes.contains r x -> Boxes.contains g x)
    /\ (is_empty r = true <-> ~ exists x, forall g, In g l -> Boxes.contains g x).
Proof.
  intros l.
  assert (l <> []) as Hne by discriminate.
  exact (feasible_region_subset_and_empty_iff_disjoint
           (Z * Z) Boxes.contains
           BoxFacts.contains_intersection BoxFacts.is_empty_contains l Hne).
Defined.

Module Runs.

Import Boxes Scenarios.

Lemma started_fake (isochrone : Coordinate -> Z -> Geometry Box Box) (seconds : Q)
      (minutes : Z) (objective : string) :
  started (fake isochrone seconds) (request minutes objective) "test-token" coords.
Proof.
  split; [reflexivity | split].
  - vm_compute. discriminate.
  - vm_compute. reflexivity.
Qed.

End Runs.

(** The touching squares at 15 minutes: the intersection is the common
    edge, which is not empty, so no second fetch takes place; its
    normalized region is empty and the answer is infeasible at 15. *)
Lemma escalation_decided_on_raw_intersection_witness :
  let mapbox := Scenarios.fake Scenarios.touching 600 in
  let payload := Scenarios.request 15 "min_sum" in
  meeting_point mapbox payload
  = (geocode_calls (_deduplicate_addresses (addresses payload)) (city_hint payload)
     ++ isochrone_calls Scenarios.coords 15 "walking",
     Ok (Response.Infeasible false "no_common_reachable_region" 15)).
Proof.
  intros mapbox payload.
  assert (intersection_at mapbox payload "test-token" Scenarios.coords (max_minutes payload)
          = Ok (Other (Boxes.box 1 0 1 1))) as Hg by reflexivity.
  assert (max_minutes payload < MAX_MAX_MINUTES)%Z as Hlt by reflexivity.
  assert (is_empty (Other (Boxes.box 1 0 1 1) : Geometry Boxes.Box Boxes.Box) = false)
    as Hfull by reflexivity.
  assert (_polygonal_region (Other (Boxes.box 1 0 1 1) : Geometry Boxes.Box Boxes.Box)
          = Ok (Polygon Boxes.empty_box)) as Hr by reflexivity.
  assert (is_empty (Polygon Boxes.empty_box : Geometry Boxes.Box Boxes.Box) = true)
    as Hempty by reflexivity.
  exact (proj2 (proj2 (escalation_decided_on_raw_intersection
                         mapbox payload "test-token" Scenarios.coords _
                         (Runs.started_fake Scenarios.touching 600 15 "min_sum") Hlt Hg)
                      Hfull)
               (Polygon Boxes.empty_box) Hr Hempty).
Defined.

(** The touching squares refute the escalation on the normalized region:
    that region is empty at 15 minutes, below the ceiling, and the answer
    "no_common_reachable_region" is given without any fetch at 20
    minutes. *)
Lemma touching_regions_not_escalated :
  ~ escalates_on_normalized_region (Scenarios.fake Scenarios.touching 600)
                                   (Scenarios.request 15 "min_sum").
Proof.
  intros Hc.
  specialize (Hc "test-token" Scenarios.coords (Polygon Boxes.empty_box) 15%Z
                 (Runs.started_fake Scenarios.touching 600 15 "min_sum")).
  assert (In (IsochroneCall (0, 0)%Q 20 "walking")
             (fst (meeting_point (Scenarios.fake Scenarios.touching 600)
                                 (Scenarios.request 15 "min_sum")))) as Hin.
  { apply Hc; [reflexivity | reflexivity | reflexivity | vm_compute; reflexivity |].
    now left. }
  vm_compute in Hin.
  repeat (destruct Hin as [Hin|Hin]; [discriminate Hin|]). exact Hin.
Qed.

(** Squares that stay apart: one step from 15 to 20, a second fetch, and
    the infeasible answer at 20.  Squares that overlap from 20 minutes
    on: the same step, and the answer is about the overlap found at
    20. *)
Lemma escalation_single_step_witness :
  let payload := Scenarios.request 15 "min_sum" in
  meeting_point (Scenarios.fake Scenarios.apart 600) payload
  = (geocode_calls (_deduplicate_addresses (addresses payload)) (city_hint payload)
     ++ isochrone_calls Scenarios.coords 15 "walking"
     ++ isochrone_calls Scenarios.coords (bumped_minutes payload) "walking",
     Ok (Response.Infeasible false "no_common_reachable_region" (bumped_minutes payload)))
  /\ bumped_minutes payload = 20%Z
  /\ exists body,
      snd (meeting_point (Scenarios.fake Scenarios.widening 600) payload)
      = Ok (Response.Resolved body)
      /\ Response.intersection_polygons_geojson body = Boxes.mkbox 1 0 2 1
      /\ Response.max_minutes body = 20%Z.
Proof.
  intros payload.
  assert (is_empty (Polygon Boxes.empty_box : Geometry Boxes.Box Boxes.Box) = true)
    as Hempty by reflexivity.
  assert (max_minutes payload < MAX_MAX_MINUTES)%Z as Hlt by reflexivity.
  split; [|split].
  - assert (intersection_at (Scenarios.fake Scenarios.apart 600) payload "test-token"
                            Scenarios.coords (max_minutes payload)
            = Ok (Polygon Boxes.empty_box)) as Hg by reflexivity.
    assert (intersection_at (Scenarios.fake Scenarios.apart 600) payload "test-token"
                            Scenarios.coords (bumped_minutes payload)
            = Ok (Polygon Boxes.empty_box)) as Hg' by reflexivity.
    destruct (proj2 (escalation_single_step
                       (Scenarios.fake Scenarios.apart 600) payload "test-token"
                       Scenarios.coords _
                       (Runs.started_fake Scenarios.apart 600 15 "min_sum") Hg Hempty) Hlt)
      as (_ & _ & _ & _ & Hretry & _).
    exact (Hretry (Polygon Boxes.empty_box) Hg' Hempty).
  - reflexivity.
  - assert (intersection_at (Scenarios.fake Scenarios.widening 600) payload "test-token"
                            Scenarios.coords (max_minutes payload)
            = Ok (Polygon Boxes.empty_box)) as Hg by reflexivity.
    assert (intersection_at (Scenarios.fake Scenarios.widening 600) payload "test-token"
                            Scenarios.coords (bumped_minutes payload)
            = Ok (Boxes.mkbox 1 0 2 1)) as Hg' by reflexivity.
    assert (is_empty (Boxes.mkbox 1 0 2 1) = false) as Hfull by reflexivity.
    assert (_polygonal_region (Boxes.mkbox 1 0 2 1) = Ok (Boxes.mkbox 1 0 2 1))
      as Hregion by reflexivity.
    destruct (proj2 (escalation_single_step
                       (Scenarios.fake Scenarios.widening 600) payload "test-token"
                       Scenarios.coords _
                       (Runs.started_fake Scenarios.widening 600 15 "min_sum") Hg Hempty)
                    Hlt)
      as (_ & _ & _ & _ & _ & _ & _ & _ & Hfeasible).
    destruct (Hfeasible _ _ Hg' Hfull Hregion Hfull) as [_ Hanswer].
    destruct (snd (meeting_point (Scenarios.fake Scenarios.widening 600) payload))
      as [r|e] eqn:E; [|vm_compute in E; discriminate E].
    destruct (Hanswer r eq_refl) as (body & -> & Hreg & Hmin & _).
    exists body. split; [reflexivity|]. split; [exact Hreg | exact Hmin].
Defined.

(** A shared square and twenty minutes of travel for a budget of
    fifteen: a candidate exists, the verdict is false with its own
    reason, and the objective value is there. *)
Lemma verdict_iff_within_budget_witness :
  exists body,
    snd (meeting_point (Scenarios.fake Scenarios.shared 1200) (Scenarios.request 15 "min_sum"))
    = Ok (Response.Resolved body)
    /\ Response.reachable body = false
    /\ Response.reason body = Some "travel_time_exceeds_budget"
    /\ (Response.objective_value body == 40)%Q
    /\ ~ forall p, In p (Response.participants body) ->
                   (Response.eta_minutes p
                    <= inject_Z (Response.max_minutes body) + (1 # 2))%Q.
Proof.
  eexists. split; [vm_compute; reflexivity|].
  match goal with
  | |- Response.reachable ?b = _ /\ _ =>
      assert (snd (meeting_point (Scenarios.fake Scenarios.shared 1200)
                                 (Scenarios.request 15 "min_sum"))
              = Ok (Response.Resolved b)) as Hb by (vm_compute; reflexivity);
      destruct (verdict_iff_within_budget
                  (Scenarios.fake Scenarios.shared 1200) (Scenarios.request 15 "min_sum") b
                  Hb) as (Hiff & Hfalse & _ & _ & _)
  end.
  split; [reflexivity|]. split; [exact (Hfalse eq_refl)|]. split; [reflexivity|].
  intros Hall. apply Hiff in Hall. discriminate Hall.
Defined.

(** The only number of tenths within one twentieth of [63 / 60], the
    float just above [1.05], is 11. *)
Lemma tenths_of_63 (k : Z) :
  (Qabs (inject_Z k / 10 - float_div 63 60) <= 1 # 20)%Q -> k = 11%Z.
Proof.
  intros Hk. bounds Hk.
  assert (float_div 63 60 = (4728779608739021 # 4503599627370496)%Q) as E
      by (vm_compute; reflexivity).
  rewrite E in Hk. clear E.
  assert (inject_Z 10 < inject_Z k < inject_Z 12)%Q as [Hlo Hhi].
  { change (inject_Z 10) with 10%Q. change (inject_Z 12) with 12%Q.
    no_division. split; lra. }
  rewrite <- Zlt_Qlt in Hlo, Hhi. lia.
Qed.

(** The scenario of the test suite with 63 seconds of travel for each
    of the two participants: both travel times are [1.1] minutes, the
    objective value is [2.2] for "min_sum", with additions from left to
    right and with the compensated summation, and [1.1] for
    "min_max". *)
Lemma durations_and_objective_witness :
  let mapbox := Scenarios.fake Scenarios.shared 63 in
  (exists body,
      snd (@meeting_point _ _ _ LeftToRight mapbox (Scenarios.request 15 "min_sum"))
      = Ok (Response.Resolved body)
      /\ List.map Response.eta_minutes (Response.participants body)
         = [fl (11 # 10); fl (11 # 10)]
      /\ Response.objective_value body = fl (inject_Z 22 / 10))
  /\ (exists body,
         snd (@meeting_point _ _ _ Compensated mapbox (Scenarios.request 15 "min_sum"))
         = Ok (Response.Resolved body)
         /\ Response.objective_value body = fl (inject_Z 22 / 10))
  /\ (exists body longest,
         snd (@meeting_point _ _ _ Compensated mapbox (Scenarios.request 15 "min_max"))
         = Ok (Response.Resolved body)
         /\ In longest (List.map Response.eta_minutes (Response.participants body))
         /\ longest = fl (11 # 10)
         /\ Response.objective_value body = longest).
Proof.
  intros mapbox.
  assert (Forall (fun d => Qabs d <= 1000000000)%Q [63%Q; 63%Q]) as Hbound
      by (repeat constructor; apply Qabs_Qle_condition; split; lra).
  assert (length [63%Q; 63%Q] <= 10)%nat as Hlen by (simpl; lia).
  assert ("min_max" <> "min_sum") as Hmax by discriminate.
  split; [|split].
  - eexists. split; [vm_compute; reflexivity|]. split; [vm_compute; reflexivity|].
    match goal with
    | |- Response.objective_value ?b = _ =>
        assert (snd (@meeting_point _ _ _ LeftToRight mapbox
                                    (Scenarios.request 15 "min_sum"))
                = Ok (Response.Resolved b)) as Hb by (vm_compute; reflexivity);
        destruct (@durations_and_objective _ _ _ LeftToRight mapbox _ b Hb)
          as (token & coords & secs & tenths & Hs & Ht & _ & Hk & _ & Hrange)
    end.
    destruct Hs as (Htoken & _ & Hgeo).
    vm_compute in Htoken. injection Htoken as <-.
    vm_compute in Hgeo. injection Hgeo as <-.
    vm_compute in Ht. injection Ht as <-.
    inversion Hk as [|k1 d1 ks1 ds1 Hk1 Hrest]; subst.
    inversion Hrest as [|k2 d2 ks2 ds2 Hk2 Hnil]; subst.
    inversion Hnil; subst.
    apply tenths_of_63 in Hk1 as ->. apply tenths_of_63 in Hk2 as ->.
    exact (proj1 (proj2 (Hrange Hbound)) Hlen eq_refl).
  - eexists. split; [vm_compute; reflexivity|].
    match goal with
    | |- Response.objective_value ?b = _ =>
        assert (snd (@meeting_point _ _ _ Compensated mapbox
                                    (Scenarios.request 15 "min_sum"))
                = Ok (Response.Resolved b)) as Hb by (vm_compute; reflexivity);
        destruct (@durations_and_objective _ _ _ Compensated mapbox _ b Hb)
          as (token & coords & secs & tenths & Hs & Ht & _ & Hk & _ & Hrange)
    end.
    destruct Hs as (Htoken & _ & Hgeo).
    vm_compute in Htoken. injection Htoken as <-.
    vm_compute in Hgeo. injection Hgeo as <-.
    vm_compute in Ht. injection Ht as <-.
    inversion Hk as [|k1 d1 ks1 ds1 Hk1 Hrest]; subst.
    inversion Hrest as [|k2 d2 ks2 ds2 Hk2 Hnil]; subst.
    inversion Hnil; subst.
    apply tenths_of_63 in Hk1 as ->. apply tenths_of_63 in Hk2 as ->.
    exact (proj1 (proj2 (Hrange Hbound)) Hlen eq_refl).
  - eexists. eexists. split; [vm_compute; reflexivity|].
    match goal with
    | |- In _ (List.map _ (Response.participants ?b)) /\ _ =>
        assert (snd (@meeting_point _ _ _ Compensated mapbox
                                    (Scenarios.request 15 "min_max"))
                = Ok (Response.Resolved b)) as Hb by (vm_compute; reflexivity);
        destruct (@durations_and_objective _ _ _ Compensated mapbox _ b Hb)
          as (token & coords & secs & tenths & Hs & Ht & _ & _ & _ & Hrange)
    end.
    destruct Hs as (Htoken & _ & Hgeo).
    vm_compute in Htoken. injection Htoken as <-.
    vm_compute in Hgeo. injection Hgeo as <-.
    vm_compute in Ht. injection Ht as <-.
    destruct (proj2 (proj2 (Hrange Hbound)) Hmax) as (longest & Hin & _ & Hvalue).
    assert (longest = fl (11 # 10)) as ->.
    { cbn [List.map Response.participants Response.eta_minutes] in Hin.
      destruct Hin as [<-|[<-|[]]]; vm_compute; reflexivity. }
    split; [exact Hin|]. split; [reflexivity | exact Hvalue].
Defined.

(** Four addresses, two of them the first one again in another case and
    with outer blanks, and a blank one: two participants, two geocoding
    calls. *)
Lemma addresses_deduplicated_before_calls_witness :
  let raw := Scenarios.raw_request [" A st "; "b St"; "a ST"; "   "] 15 "min_sum" in
  participants_of (raw_addresses raw) = Ok ["A st"; "b St"]
  /\ exists rest,
      fst (post_meeting_point (Scenarios.fake Scenarios.shared 600) raw)
      = [GeocodeCall "A st" (Some "Nowhere"); GeocodeCall "b St" (Some "Nowhere")] ++ rest
      /\ Forall (fun c => is_geocode_call c = false) rest.
Proof.
  intros raw.
  assert (validate raw
          = Ok {| addresses := ["A st"; "b St"; "a ST"];
                  profile := "walking";
                  max_minutes := 15;
                  objective := "min_sum";
                  grid_resolution_m := None;
                  city_hint := Some "Nowhere" |}) as Hv by (vm_compute; reflexivity).
  destruct (addresses_deduplicated_before_calls
              (Scenarios.fake Scenarios.shared 600) raw _ Hv)
    as (Hp & _ & _ & _ & _ & _ & Hcalls).
  split.
  - rewrite Hp. vm_compute. reflexivity.
  - destruct (Hcalls "test-token" eq_refl) as (rest & Hlog & Hrest).
    exists rest. split; [|exact Hrest]. rewrite Hlog. vm_compute. reflexivity.
Defined.

(** Two addresses that differ by case and by a doubled blank inside stay
    two participants. *)
Lemma inner_whitespace_not_collapsed :
  ~ collapses_case_and_whitespace ["12 Main St"; "12  main st"].
Proof.
  intros Hc.
  specialize (Hc ["12 Main St"; "12  main st"] "12 Main St" "12 Main St" "12  main st").
  assert ("12 Main St" = "12  main st") as E; [|discriminate E].
  apply Hc.
  - vm_compute. reflexivity.
  - now left.
  - now left.
  - right. now left.
  - reflexivity.
  - reflexivity.
Qed.

(** A budget of 3 minutes is refused and nothing is called. *)
Lemma max_minutes_below_five_rejected_witness :
  let raw := Scenarios.raw_request ["A st"; "B st"] 3 "min_sum" in
  exists fields,
    In "max_minutes" fields
    /\ post_meeting_point (Scenarios.fake Scenarios.shared 600) raw
       = ([], Err (RequestValidationError fields)).
Proof.
  intros raw.
  destruct (proj2 (max_minutes_below_five_rejected
                     (Scenarios.fake Scenarios.shared 600) raw 3 eq_refl))
    as (fields & Hin & _ & Hrun); [reflexivity|].
  exists fields. now split.
Defined.

(** * Properties of the rest of the module *)

(** ** What the handler calls, raises and reports *)

Lemma sequence_error {A B : Type} (f : A -> Outcome B) (l : list A) (e : Exception) :
  sequence (List.map f l) = Err e -> exists x, In x l /\ f x = Err e.
Proof.
  induction l as [|a l IH]; simpl; [discriminate|].
  destruct (f a) as [b|e'] eqn:E.
  - destruct (sequence (List.map f l)) as [r|e'']; simpl; [discriminate|].
    intros [= ->]. destruct (IH eq_refl) as (x & Hx & Hf). exists x. split; [now right | exact Hf].
  - intros [= ->]. exists a. split; [now left | exact E].
Qed.

Lemma polygonal_region_error {polygon other : Type} `{Shapely polygon other}
      (g : Geometry polygon other) (e : Exception) :
  _polygonal_region g = Err e -> e = ValueError "max() arg is an empty sequence".
Proof.
  assert (forall m : Geometry polygon other,
             _largest_component m = Err e ->
             e = ValueError "max() arg is an empty sequence") as Hl.
  { intros [p|ps|gs|o]; simpl; try discriminate.
    destruct ps as [|p ps]; simpl; [now intros [= <-] | discriminate]. }
  unfold _polygonal_region. destruct (is_empty g); [discriminate|].
  destruct g as [p|ps|gs|o]; try discriminate.
  - apply Hl.
  - destruct (List.filter is_polygonal gs); [discriminate | apply Hl].
Qed.

Lemma zip_participants_coords (addresses : list string) (coords : list Coordinate) :
  forall etas : list Q,
    length addresses = length coords ->
    length etas = length coords ->
    List.map participant_coordinate (zip_participants addresses coords etas) = coords.
Proof.
  revert coords. induction addresses as [|a l IH]; intros [|c cs] [|e es]; simpl;
    try discriminate; try reflexivity.
  intros [= Hl] [= He]. rewrite (IH cs es Hl He).
  unfold participant_coordinate. simpl. now destruct c.
Qed.

Section HandlerExtras.

Context {polygon other : Type} `{Shapely polygon other} `{Python}.
Variable mapbox : Mapbox polygon other.

#[local] Abbreviation geometry := (Geometry polygon other).

(** The four ways the handler can go before [resolve]. *)
Lemma meeting_point_cases (payload : MeetingPointRequest) :
  let deduped := _deduplicate_addresses (addresses payload) in
  (exists e, _mapbox_token mapbox = Err e /\ meeting_point mapbox payload = ([], Err e))
  \/ (deduped = []
      /\ meeting_point mapbox payload
         = ([], Err (HTTPException 400 "No addresses supplied after deduplication")))
  \/ (exists token e,
         _mapbox_token mapbox = Ok token /\ deduped <> []
         /\ geocoded mapbox deduped (city_hint payload) token = Err e
         /\ meeting_point mapbox payload = (geocode_calls deduped (city_hint payload), Err e))
  \/ (exists token coords, started mapbox payload token coords).
Proof.
  intros deduped. unfold meeting_point. fold deduped.
  destruct (_mapbox_token mapbox) as [token|e] eqn:T; [|left; now exists e].
  right. unfold lift. rewrite bind_ok.
  destruct deduped as [|a l] eqn:D; [left; now split|]. right.
  destruct (geocoded mapbox (a :: l) (city_hint payload) token) as [coords|e] eqn:G.
  - right. exists token, coords. unfold started. fold deduped. rewrite D.
    repeat split; [assumption | discriminate | assumption].
  - left. exists token, e. rewrite gather_geocode, G. simpl.
    repeat split; try assumption; try discriminate.
Qed.

Lemma started_coords_nonempty (payload : MeetingPointRequest) (token : string)
      (coords : list Coordinate) :
  started mapbox payload token coords -> coords <> [].
Proof.
  intros Hs. pose proof (started_lengths mapbox payload token coords Hs) as Hl.
  destruct Hs as (_ & Hne & _). destruct coords; [|discriminate].
  destruct (_deduplicate_addresses (addresses payload)); [congruence | discriminate].
Qed.

(** *** Errors *)

Lemma objective_value_error (values : list Q) (objective : string) (e : Exception) :
  _objective_value values objective = Err e -> values = [].
Proof.
  unfold _objective_value. destruct (String.eqb objective "min_sum"); [discriminate|].
  destruct values; [reflexivity | discriminate].
Qed.

Lemma evaluate_error (payload : MeetingPointRequest) (token : string)
      (addresses : list string) (coords : list Coordinate) (effective : Z)
      (region : geometry) (e : Exception) :
  coords <> [] ->
  snd (evaluate mapbox payload token addresses coords effective region) = Err e ->
  travel_times mapbox coords (centroid region) (profile payload) token = Err e.
Proof.
  intros Hne. unfold evaluate. rewrite <- surjective_pairing, gather_travel.
  destruct (travel_times _ _ _ _ _) as [secs|e'] eqn:Ht; [|now intros [= ->]].
  rewrite bind_ok. unfold lift.
  destruct (_objective_value _ _) as [value|e'] eqn:V; [rewrite bind_ok; discriminate|].
  apply objective_value_error in V. apply travel_times_length in Ht.
  apply (f_equal (@length Q)) in V. rewrite length_map in V. simpl in V.
  destruct coords; [congruence | simpl in Ht; lia].
Qed.

Lemma conclude_error (payload : MeetingPointRequest) (token : string)
      (addresses : list string) (coords : list Coordinate) (g : geometry)
      (effective : Z) (e : Exception) :
  coords <> [] ->
  snd (conclude mapbox payload token addresses coords g effective) = Err e ->
  e = ValueError "max() arg is an empty sequence"
  \/ exists region,
      travel_times mapbox coords (centroid region) (profile payload) token = Err e
      /\ fst (conclude mapbox payload token addresses coords g effective)
         = directions_calls coords (centroid region) (profile payload).
Proof.
  intros Hne. unfold conclude. destruct (is_empty g); [discriminate|].
  unfold lift. destruct (_polygonal_region g) as [region|e'] eqn:R.
  - rewrite bind_ok. destruct (is_empty region); [discriminate|].
    intros He. right. exists region. split; [now apply evaluate_error in He|].
    simpl. apply evaluate_log.
  - intros [= ->]. left. now apply polygonal_region_error in R.
Qed.

Lemma intersection_at_error (payload : MeetingPointRequest) (token : string)
      (coords : list Coordinate) (minutes : Z) (e : Exception) :
  coords <> [] ->
  intersection_at mapbox payload token coords minutes = Err e ->
  isochrones mapbox coords minutes (profile payload) token = Err e.
Proof.
  intros Hne. unfold intersection_at.
  destruct (isochrones _ _ _ _ _) as [shapes|e'] eqn:I; [|now intros [= ->]].
  simpl. apply sequence_length in I. rewrite length_map in I.
  destruct shapes; [|discriminate]. destruct coords; [congruence | discriminate].
Qed.

Lemma raised_by_helper_incl (payload : MeetingPointRequest) (log log' : list Call)
      (e : Exception) :
  incl log log' ->
  raised_by_helper mapbox payload log e -> raised_by_helper mapbox payload log' e.
Proof.
  intros Hi [(a & t & Hin & He)|[(c & m & t & Hin & Hm & He)|(o & d & t & Hin & He)]].
  - left. exists a, t. split; [now apply Hi | exact He].
  - right. left. exists c, m, t. repeat split; [now apply Hi | exact Hm | exact He].
  - right. right. exists o, d, t. split; [now apply Hi | exact He].
Qed.

Lemma isochrones_raised (payload : MeetingPointRequest) (token : string)
      (coords : list Coordinate) (minutes : Z) (e : Exception) :
  minutes = max_minutes payload \/ minutes = bumped_minutes payload ->
  isochrones mapbox coords minutes (profile payload) token = Err e ->
  raised_by_helper mapbox payload (isochrone_calls coords minutes (profile payload)) e.
Proof.
  intros Hm Hi. apply sequence_error in Hi as (c & Hc & He).
  right. left. exists c, minutes, token. repeat split; try assumption.
  unfold isochrone_calls. apply in_map_iff. now exists c.
Qed.

Lemma travel_times_raised (payload : MeetingPointRequest) (token : string)
      (coords : list Coordinate) (destination : Coordinate) (e : Exception) :
  travel_times mapbox coords destination (profile payload) token = Err e ->
  raised_by_helper mapbox payload (directions_calls coords destination (profile payload)) e.
Proof.
  intros Ht. apply sequence_error in Ht as (c & Hc & He).
  right. right. exists c, destination, token. split; [|exact He].
  unfold directions_calls. apply in_map_iff. now exists c.
Qed.

Lemma resolve_error (payload : MeetingPointRequest) (token : string)
      (addresses : list string) (coords : list Coordinate) (e : Exception) :
  coords <> [] ->
  snd (resolve mapbox payload token addresses coords) = Err e ->
  raised_by_helper mapbox payload (fst (resolve mapbox payload token addresses coords)) e
  \/ e = ValueError "max() arg is an empty sequence".
Proof.
  intros Hne. rewrite resolve_run.
  destruct (intersection_at _ _ _ _ (max_minutes payload)) as [g|e'] eqn:I.
  - destruct (is_empty g && _).
    + destruct (intersection_at _ _ _ _ (bumped_minutes payload)) as [g'|e'] eqn:I'.
      * cbv zeta. simpl fst. simpl snd. intros Hc.
        apply conclude_error in Hc as [->|(region & Ht & Hlog)]; [now right | | assumption].
        left. rewrite Hlog.
        eapply raised_by_helper_incl; [|exact (travel_times_raised payload token coords _ e Ht)].
        intros c Hc. rewrite !in_app_iff. now right; right.
      * simpl. intros [= ->]. left. apply intersection_at_error in I'; [|assumption].
        eapply raised_by_helper_incl; [|apply (isochrones_raised payload token coords
                                                 (bumped_minutes payload)); [now right | exact I']].
        intros c Hc. rewrite in_app_iff. now right.
    + cbv zeta. simpl fst. simpl snd. intros Hc.
      apply conclude_error in Hc as [->|(region & Ht & Hlog)]; [now right | | assumption].
      left. rewrite Hlog.
      eapply raised_by_helper_incl; [|exact (travel_times_raised payload token coords _ e Ht)].
      intros c Hc. rewrite in_app_iff. now right.
  - simpl. intros [= ->]. left. apply intersection_at_error in I; [|assumption].
    apply (isochrones_raised payload token); [now left | exact I].
Qed.

Lemma mapbox_token_error (e : Exception) :
  _mapbox_token mapbox = Err e ->
  e = HTTPException 500 "MAPBOX_TOKEN environment variable is required".
Proof.
  unfold _mapbox_token. destruct (MAPBOX_TOKEN mapbox) as [t|]; [|now intros [= <-]].
  destruct (Str.truthy t); [discriminate | now intros [= <-]].
Qed.

Lemma deduplicate_nil (l : list string) : _deduplicate_addresses l = [] -> l = [].
Proof.
  rewrite deduplicate_first_occurrences. destruct l as [|a l]; [reflexivity|].
  destruct (first_occurrences_head a l) as [tail ->]. discriminate.
Qed.

(** X1. An exception of the handler is the missing-token error, the
    error for an empty address list, an exception that a Mapbox helper
    raised in one of the logged calls, or the [ValueError] of [max] over
    a multi-polygon without parts; in particular the handler never
    reaches the "No polygons to intersect" error of [_intersection] and
    never drops a failing participant. *)
Theorem handler_raises_what_helpers_raise (payload : MeetingPointRequest) (e : Exception) :
  snd (meeting_point mapbox payload) = Err e ->
  e = HTTPException 500 "MAPBOX_TOKEN environment variable is required"
  \/ (addresses payload = []
      /\ e = HTTPException 400 "No addresses supplied after deduplication")
  \/ raised_by_helper mapbox payload (fst (meeting_point mapbox payload)) e
  \/ e = ValueError "max() arg is an empty sequence".
Proof.
  destruct (meeting_point_cases payload)
    as [(e' & Ht & ->)|[(Hd & ->)|[(token & e' & Ht & Hne & Hg & ->)|(token & coords & Hs)]]].
  - intros [= ->]. left. now apply mapbox_token_error.
  - intros [= <-]. right. left. split; [now apply deduplicate_nil | reflexivity].
  - intros [= ->]. right. right. left. apply sequence_error in Hg as (a & Ha & He).
    left. exists a, token. split; [|exact He].
    unfold geocode_calls. cbn [fst]. apply in_map_iff. now exists a.
  - rewrite (meeting_point_started mapbox payload token coords Hs). cbn [fst snd].
    intros He.
    apply resolve_error in He as [Hr| ->];
      [| now right; right; right | now apply (started_coords_nonempty payload token)].
    right. right. left. eapply raised_by_helper_incl; [|exact Hr].
    intros c Hc. rewrite in_app_iff. now right.
Qed.

(** *** Calls *)

Lemma conclude_log_shape (payload : MeetingPointRequest) (token : string)
      (addresses : list string) (coords : list Coordinate) (g : geometry) (effective : Z) :
  fst (conclude mapbox payload token addresses coords g effective) = []
  \/ exists region,
      fst (conclude mapbox payload token addresses coords g effective)
      = directions_calls coords (centroid region) (profile payload).
Proof.
  unfold conclude. destruct (is_empty g); [now left|].
  unfold lift. destruct (_polygonal_region g) as [region|e]; [|now left].
  rewrite bind_ok. destruct (is_empty region); [now left|].
  right. exists region. simpl. apply evaluate_log.
Qed.

(** X2. The calls of a request come in stages: one geocoding call per
    deduplicated address, then the isochrone calls of the requested
    budget and at most one more batch at the escalated budget, then at
    most one batch of directions calls, each batch with one call per
    participant; a request with [n] participants makes at most [4 n]
    calls. *)
Theorem handler_call_stages (payload : MeetingPointRequest) :
  let log := fst (meeting_point mapbox payload) in
  let deduped := _deduplicate_addresses (addresses payload) in
  exists (coords : list Coordinate) (budgets : list Z) (destinations : list Coordinate),
    (log = []
     \/ log = geocode_calls deduped (city_hint payload)
              ++ concat (List.map (fun minutes =>
                                     isochrone_calls coords minutes (profile payload))
                                  budgets)
              ++ concat (List.map (fun destination =>
                                     directions_calls coords destination (profile payload))
                                  destinations))
    /\ (budgets = [] \/ budgets = [max_minutes payload]
        \/ budgets = [max_minutes payload; bumped_minutes payload])
    /\ (length destinations <= 1)%nat
    /\ (budgets = [] -> destinations = [])
    /\ length coords = length deduped
    /\ (length log <= 4 * length deduped)%nat.
Proof.
  intros log deduped. subst log.
  destruct (meeting_point_cases payload)
    as [(e' & Ht & ->)|[(Hd & ->)|[(token & e' & Ht & Hne & Hg & ->)|(token & coords & Hs)]]].
  - exists (List.map (fun _ => (0, 0)%Q) deduped), [], []. cbn [fst].
    rewrite length_map. repeat split; auto using Nat.le_0_l; try (simpl; lia).
  - exists (List.map (fun _ => (0, 0)%Q) deduped), [], []. cbn [fst].
    rewrite length_map. repeat split; auto using Nat.le_0_l; try (simpl; lia).
  - exists (List.map (fun _ => (0, 0)%Q) deduped), [], []. cbn [fst].
    rewrite length_map. split; [right; simpl; now rewrite app_nil_r|].
    repeat split; auto; try (unfold geocode_calls; rewrite length_map; fold deduped; lia).
  - pose proof (started_lengths mapbox payload token coords Hs) as Hl. fold deduped in Hl.
    rewrite (meeting_point_started mapbox payload token coords Hs). cbn [fst].
    fold deduped. rewrite resolve_run.
    assert (forall g eff,
               exists destinations,
                 fst (conclude mapbox payload token deduped coords g eff)
                 = concat (List.map (fun destination =>
                                       directions_calls coords destination (profile payload))
                                    destinations)
                 /\ (length destinations <= 1)%nat) as Hconc.
    { intros g eff. destruct (conclude_log_shape payload token deduped coords g eff)
        as [->|(region & ->)].
      - exists []. split; [reflexivity | simpl; lia].
      - exists [centroid region]. simpl. rewrite app_nil_r. split; [reflexivity | lia]. }
    assert (forall destinations : list Coordinate,
               (length destinations <= 1)%nat ->
               (length (concat (List.map (fun destination =>
                                            directions_calls coords destination (profile payload))
                                         destinations))
                <= length coords)%nat) as Hdl.
    { intros [|d [|d' ds]]; simpl; intros Hd; try lia.
      unfold directions_calls. rewrite app_nil_r, length_map. lia. }
    destruct (intersection_at _ _ _ _ (max_minutes payload)) as [g|e].
    + destruct (is_empty g && _).
      * destruct (intersection_at _ _ _ _ (bumped_minutes payload)) as [g'|e].
        -- destruct (Hconc g' (bumped_minutes payload)) as (ds & Hds & Hlen).
           exists coords, [max_minutes payload; bumped_minutes payload], ds.
           cbv zeta. cbn [fst]. rewrite Hds. split.
           { right. simpl. now rewrite app_nil_r, <- !app_assoc. }
           repeat split; auto using Hl; try discriminate.
           rewrite !length_app. specialize (Hdl ds Hlen).
           unfold geocode_calls, isochrone_calls. rewrite !length_map. lia.
        -- exists coords, [max_minutes payload; bumped_minutes payload], [].
           cbn [fst]. split.
           { right. simpl. now rewrite !app_nil_r. }
           repeat split; auto using Hl; try discriminate.
           rewrite !length_app. unfold geocode_calls, isochrone_calls.
           rewrite !length_map. lia.
      * destruct (Hconc g (max_minutes payload)) as (ds & Hds & Hlen).
        exists coords, [max_minutes payload], ds.
        cbv zeta. cbn [fst]. rewrite Hds. split.
        { right. simpl. now rewrite app_nil_r. }
        repeat split; auto using Hl; try discriminate.
        rewrite !length_app. specialize (Hdl ds Hlen).
        unfold geocode_calls, isochrone_calls. rewrite !length_map. lia.
    + exists coords, [max_minutes payload], []. cbn [fst]. split.
      { right. simpl. now rewrite !app_nil_r. }
      repeat split; auto using Hl; try discriminate.
      rewrite !length_app. unfold geocode_calls, isochrone_calls.
      rewrite !length_map. lia.
Qed.

Lemma conclude_infeasible_evaluate (payload : MeetingPointRequest) (token : string)
      (addresses : list string) (coords : list Coordinate) (effective : Z)
      (region : geometry) (reachable : bool) (reason : string) (m : Z) :
  snd (evaluate mapbox payload token addresses coords effective region)
  = Ok (Response.Infeasible reachable reason m) -> False.
Proof.
  unfold evaluate. rewrite <- surjective_pairing, gather_travel.
  destruct (travel_times _ _ _ _ _) as [secs|e]; [|discriminate].
  rewrite bind_ok. unfold lift.
  destruct (_objective_value _ _) as [value|e]; [|discriminate].
  rewrite bind_ok. discriminate.
Qed.

(** *** Answers *)

Lemma conclude_budget (payload : MeetingPointRequest) (token : string)
      (addresses : list string) (coords : list Coordinate) (g : geometry)
      (effective : Z) (r : Response.t polygon other) :
  snd (conclude mapbox payload token addresses coords g effective) = Ok r ->
  reported_budget r = effective.
Proof.
  destruct r as [reachable reason m|body]; intros Hc; simpl.
  - now apply conclude_infeasible in Hc.
  - apply conclude_resolved in Hc as (region & _ & _ & _ & He).
    apply evaluate_resolved in He as (secs & value & _ & _ & Hm).
    now destruct Hm as (_ & _ & _ & _ & Hb & _).
Qed.

(** An answer of the handler is an answer of [conclude] on the last
    intersection, at the budget of that intersection. *)
Lemma meeting_point_answer (payload : MeetingPointRequest) (r : Response.t polygon other) :
  snd (meeting_point mapbox payload) = Ok r ->
  exists token coords g0 g effective,
    started mapbox payload token coords
    /\ intersection_at mapbox payload token coords (max_minutes payload) = Ok g0
    /\ intersection_at mapbox payload token coords effective = Ok g
    /\ effective
       = (if is_empty g0 && (max_minutes payload <? MAX_MAX_MINUTES)%Z
          then bumped_minutes payload else max_minutes payload)
    /\ snd (conclude mapbox payload token (_deduplicate_addresses (addresses payload))
                     coords g effective) = Ok r.
Proof.
  destruct (meeting_point_cases payload)
    as [(e' & Ht & ->)|[(Hd & ->)|[(token & e' & Ht & Hne & Hg & ->)|(token & coords & Hs)]]];
    try discriminate.
  rewrite (meeting_point_started mapbox payload token coords Hs). cbn [snd].
  rewrite resolve_run.
  destruct (intersection_at _ _ _ _ (max_minutes payload)) as [g0|e] eqn:I0; [|discriminate].
  destruct (is_empty g0 && _) eqn:B.
  - destruct (intersection_at _ _ _ _ (bumped_minutes payload)) as [g|e] eqn:I;
      [|discriminate].
    cbv zeta. cbn [snd]. intros Hc.
    exists token, coords, g0, g, (bumped_minutes payload). now rewrite B.
  - cbv zeta. cbn [snd]. intros Hc.
    exists token, coords, g0, g0, (max_minutes payload). now rewrite B.
Qed.

(** X3. The budget an answer reports, feasible or not, is the requested
    budget, or the escalated one exactly when the first intersection was
    empty below the ceiling; for a requested budget from 5 to 60 it lies
    between the requested budget and 60 and exceeds the request by at
    most 5. *)
Theorem reported_budget_is_requested_or_bumped
        (payload : MeetingPointRequest) (r : Response.t polygon other) :
  snd (meeting_point mapbox payload) = Ok r ->
  (exists token coords g0,
      started mapbox payload token coords
      /\ intersection_at mapbox payload token coords (max_minutes payload) = Ok g0
      /\ reported_budget r
         = (if is_empty g0 && (max_minutes payload <? MAX_MAX_MINUTES)%Z
            then Z.min 60 (max_minutes payload + 5) else max_minutes payload))
  /\ ((5 <= max_minutes payload <= 60)%Z ->
      (max_minutes payload <= reported_budget r <= 60)%Z
      /\ (reported_budget r <= max_minutes payload + 5)%Z).
Proof.
  intros Hr.
  apply meeting_point_answer in Hr as (token & coords & g0 & g & eff & Hs & I0 & _ & He & Hc).
  apply conclude_budget in Hc. rewrite Hc, He. split.
  - now exists token, coords, g0.
  - intros Hm. unfold bumped_minutes, MAX_MAX_MINUTES.
    destruct (is_empty g0 && _); lia.
Qed.

(** X4. The participants of a resolved answer are the deduplicated
    addresses, in their order, each with the coordinate the geocoding
    returned for it. *)
Theorem participants_follow_addresses
        (payload : MeetingPointRequest) (body : Response.Body polygon other) :
  snd (meeting_point mapbox payload) = Ok (Response.Resolved body) ->
  exists token coords,
    geocoded mapbox (_deduplicate_addresses (addresses payload)) (city_hint payload) token
    = Ok coords
    /\ List.map Response.address (Response.participants body)
       = _deduplicate_addresses (addresses payload)
    /\ List.map participant_coordinate (Response.participants body) = coords
    /\ Forall2 (fun p address =>
                  _geocode_address mapbox address (city_hint payload) token
                  = Ok (participant_coordinate p))
               (Response.participants body) (_deduplicate_addresses (addresses payload)).
Proof.
  intros Hb.
  apply meeting_point_resolved in Hb
    as (token & coords & effective & region & secs & value & Hs & _ & _ & Ht & _ & Hm).
  destruct Hm as (_ & Hp & _).
  pose proof (started_lengths mapbox payload token coords Hs) as Hl.
  apply travel_times_length in Ht.
  assert (length (List.map (fun d => py_round (float_div d 60) 1) secs) = length coords) as He
      by now rewrite length_map.
  destruct Hs as (_ & _ & Hg).
  exists token, coords. split; [exact Hg|]. rewrite Hp.
  split; [now apply zip_participants_eta|].
  split; [now apply zip_participants_coords|].
  clear Hp Ht. revert Hg Hl He. unfold geocoded.
  generalize (List.map (fun d : Q => py_round (float_div d 60) 1) secs) as etas.
  generalize (_deduplicate_addresses (addresses payload)) as l.
  clear. intros l. revert coords.
  induction l as [|a l IH]; intros [|c cs] [|eta etas]; simpl; try discriminate;
    try constructor.
  - destruct (_geocode_address mapbox a (city_hint payload) token) as [c'|e];
      [|discriminate].
    destruct (sequence _) as [cs'|e]; simpl in *; [|discriminate].
    injection Hg as <- <-. unfold participant_coordinate. simpl. now destruct c'.
  - destruct (_geocode_address mapbox a (city_hint payload) token) as [c'|e];
      [|discriminate].
    destruct (sequence _) as [cs'|e] eqn:S; simpl in *; [|discriminate].
    injection Hg as <- <-. apply IH; [reflexivity | lia | lia].
Qed.

Lemma filter_directions_geocode (addresses : list string) (city_hint : option string) :
  List.filter is_directions_call (geocode_calls addresses city_hint) = [].
Proof. induction addresses as [|a l IH]; simpl; [reflexivity | exact IH]. Qed.

Lemma filter_directions_fetch (coords : list Coordinate) (minutes : Z) (profile : string) :
  List.filter is_directions_call (isochrone_calls coords minutes profile) = [].
Proof. induction coords as [|c l IH]; simpl; [reflexivity | exact IH]. Qed.

Lemma filter_directions_directions (coords : list Coordinate) (destination : Coordinate)
      (profile : string) :
  List.filter is_directions_call (directions_calls coords destination profile)
  = directions_calls coords destination profile.
Proof. induction coords as [|c l IH]; simpl; [reflexivity | now rewrite IH]. Qed.

(** The isochrone calls and the directions calls of a started request,
    by the budget and the last intersection of its answer. *)
Lemma answer_log (payload : MeetingPointRequest) (r : Response.t polygon other)
      (token : string) (coords : list Coordinate) (g0 : geometry) :
  started mapbox payload token coords ->
  intersection_at mapbox payload token coords (max_minutes payload) = Ok g0 ->
  snd (meeting_point mapbox payload) = Ok r ->
  exists g,
    intersection_at mapbox payload token coords (reported_budget r) = Ok g
    /\ snd (conclude mapbox payload token (_deduplicate_addresses (addresses payload))
                     coords g (reported_budget r)) = Ok r
    /\ List.filter is_directions_call (fst (meeting_point mapbox payload))
       = fst (conclude mapbox payload token (_deduplicate_addresses (addresses payload))
                       coords g (reported_budget r)).
Proof.
  intros Hs I0. rewrite (meeting_point_started mapbox payload token coords Hs).
  cbn [fst snd]. rewrite resolve_run, I0.
  assert (forall g eff,
             List.filter is_directions_call
                         (fst (conclude mapbox payload token
                                        (_deduplicate_addresses (addresses payload))
                                        coords g eff))
             = fst (conclude mapbox payload token
                             (_deduplicate_addresses (addresses payload)) coords g eff))
    as Hf.
  { intros g eff. destruct (conclude_log_shape payload token
                              (_deduplicate_addresses (addresses payload)) coords g eff)
      as [->|(region & ->)]; [reflexivity | apply filter_directions_directions]. }
  destruct (is_empty g0 && _).
  - destruct (intersection_at _ _ _ _ (bumped_minutes payload)) as [g|e] eqn:I;
      [|discriminate].
    cbv zeta. cbn [fst snd]. intros Hc.
    rewrite (conclude_budget _ _ _ _ _ _ _ Hc).
    exists g. split; [exact I|]. split; [exact Hc|].
    now rewrite !List.filter_app, filter_directions_geocode, !filter_directions_fetch, Hf.
  - cbv zeta. cbn [fst snd]. intros Hc.
    rewrite (conclude_budget _ _ _ _ _ _ _ Hc).
    exists g0. split; [exact I0|]. split; [exact Hc|].
    now rewrite !List.filter_app, filter_directions_geocode, !filter_directions_fetch, Hf.
Qed.

(** X5. Travel times are asked for only once a candidate exists: an
    infeasible answer has the verdict false and the reason
    "no_common_reachable_region" and costs no directions call; a
    resolved answer costs one directions call per participant, from the
    participant's coordinate to the meeting point the answer reports. *)
Theorem directions_calls_of_an_answer
        (payload : MeetingPointRequest) (r : Response.t polygon other) :
  snd (meeting_point mapbox payload) = Ok r ->
  let directions := List.filter is_directions_call (fst (meeting_point mapbox payload)) in
  match r with
  | Response.Infeasible reachable reason _ =>
      reachable = false /\ reason = "no_common_reachable_region" /\ directions = []
  | Response.Resolved body =>
      directions
      = List.map (fun p =>
                    DirectionsCall (participant_coordinate p)
                                   (Response.lng (Response.meeting_point body),
                                    Response.lat (Response.meeting_point body))
                                   (profile payload))
                 (Response.participants body)
  end.
Proof.
  intros Hr directions. subst directions.
  pose proof Hr as Ha.
  apply meeting_point_answer in Ha as (token & coords & g0 & _ & _ & Hs & I0 & _).
  destruct (answer_log payload r token coords g0 Hs I0 Hr) as (g & _ & Hc & ->).
  destruct r as [reachable reason m|body].
  - pose proof Hc as Hi. apply conclude_infeasible in Hi as (-> & -> & _).
    repeat split. revert Hc. unfold conclude.
    destruct (is_empty g); [reflexivity|].
    unfold lift. destruct (_polygonal_region g) as [region|e]; [|discriminate].
    rewrite bind_ok. destruct (is_empty region); [reflexivity|].
    intros Hc. cbn [snd] in Hc. apply conclude_infeasible_evaluate in Hc. contradiction.
  - pose proof Hc as Hc'.
    apply conclude_resolved in Hc' as (region & Eg & Rg & Er & He).
    assert (fst (conclude mapbox payload token (_deduplicate_addresses (addresses payload))
                          coords g (reported_budget (Response.Resolved body)))
            = directions_calls coords (centroid region) (profile payload)) as ->.
    { unfold conclude. rewrite Eg, Rg. unfold lift. rewrite bind_ok, Er.
      simpl. apply evaluate_log. }
    apply evaluate_resolved in He as (secs & value & Ht & _ & Hm).
    destruct Hm as (Hmp & Hp & _).
    rewrite Hmp. cbn [Response.lng Response.lat].
    rewrite <- surjective_pairing.
    rewrite <- (zip_participants_coords (_deduplicate_addresses (addresses payload)) coords
                  (List.map (fun d => py_round (float_div d 60) 1) secs)) at 1.
    + rewrite <- Hp. unfold directions_calls. now rewrite List.map_map.
    + now apply (started_lengths mapbox payload token).
    + rewrite length_map. now apply travel_times_length in Ht.
Qed.

(** X6. When the isochrone helper returns no empty geometry (the helper
    of the module raises instead), a request with a single participant
    is never escalated: its isochrone calls are at most the one call at
    the requested budget, and every answer reports the requested
    budget. *)
Theorem single_participant_never_escalated (payload : MeetingPointRequest) :
  (forall coord minutes profile token g,
      _fetch_isochrone mapbox coord minutes profile token = Ok g -> is_empty g = false) ->
  length (_deduplicate_addresses (addresses payload)) = 1%nat ->
  (exists coord,
      List.filter is_isochrone_call (fst (meeting_point mapbox payload)) = []
      \/ List.filter is_isochrone_call (fst (meeting_point mapbox payload))
         = [IsochroneCall coord (max_minutes payload) (profile payload)])
  /\ forall r, snd (meeting_point mapbox payload) = Ok r ->
               reported_budget r = max_minutes payload.
Proof.
  intros Hfull Hone.
  destruct (meeting_point_cases payload)
    as [(e' & Ht & ->)|[(Hd & ->)|[(token & e' & Ht & Hne & Hg & ->)|(token & coords & Hs)]]].
  - split; [exists (0, 0)%Q; now left | discriminate].
  - split; [exists (0, 0)%Q; now left | discriminate].
  - split; [|discriminate]. exists (0, 0)%Q. left. cbn [fst].
    apply filter_isochrone_geocode.
  - pose proof (started_lengths mapbox payload token coords Hs) as Hl. rewrite Hone in Hl.
    destruct coords as [|c [|c' cs]]; try discriminate.
    rewrite (meeting_point_started mapbox payload token [c] Hs). cbn [fst snd].
    rewrite resolve_run.
    destruct (_fetch_isochrone mapbox c (max_minutes payload) (profile payload) token)
      as [g|e] eqn:F.
    + assert (intersection_at mapbox payload token [c] (max_minutes payload) = Ok g) as ->
          by (unfold intersection_at, isochrones; simpl; now rewrite F).
      rewrite (Hfull _ _ _ _ _ F). cbn [andb]. cbv beta iota zeta. cbn [fst snd]. split.
      * exists c. right.
        rewrite !List.filter_app, filter_isochrone_geocode, filter_isochrone_fetch.
        rewrite (filter_isochrone_none _ (conclude_log mapbox payload token _ [c] g _)).
        now rewrite app_nil_r.
      * intros r Hc. now apply conclude_budget in Hc.
    + assert (intersection_at mapbox payload token [c] (max_minutes payload) = Err e) as ->
          by (unfold intersection_at, isochrones; simpl; now rewrite F).
      cbn [fst snd]. split; [|discriminate]. exists c. right.
      now rewrite List.filter_app, filter_isochrone_geocode, filter_isochrone_fetch.
Qed.

(** X7. With a union that keeps polygonal geometries polygonal, the
    region a resolved answer carries is a single polygon that is not
    empty; it is the normalized intersection, at the reported budget, of
    the regions fetched for the coordinates of the request's
    participants; and the meeting point is its centroid. *)
Theorem resolved_region_is_a_polygon
        (payload : MeetingPointRequest) (body : Response.Body polygon other) :
  (forall a b : geometry,
      is_polygonal a = true -> is_polygonal b = true -> is_polygonal (union a b) = true) ->
  snd (meeting_point mapbox payload) = Ok (Response.Resolved body) ->
  let region := Response.intersection_polygons_geojson body in
  (exists p, region = Polygon p /\ polygon_is_empty p = false)
  /\ (exists token coords,
         started mapbox payload token coords
         /\ feasible_region_at mapbox payload token coords (Response.max_minutes body)
            = Ok region)
  /\ Response.meeting_point body
     = {| Response.lat := snd (centroid region); Response.lng := fst (centroid region) |}.
Proof.
  intros closed Hr region.
  pose proof Hr as Ha.
  apply meeting_point_answer in Ha as (token & coords & g0 & _ & _ & Hs & I0 & _).
  destruct (answer_log payload _ token coords g0 Hs I0 Hr) as (g & Ig & Hc & _).
  apply conclude_resolved in Hc as (r & Eg & Rg & Er & He).
  apply evaluate_resolved in He as (secs & value & _ & _ & Hm).
  destruct Hm as (Hmp & _ & _ & _ & _ & _ & Hgeo & _).
  fold region in Hgeo. subst r. split; [|split].
  - destruct (polygonal_region_shape closed g region Rg) as [E|(p & Hp)]; [congruence|].
    exists p. split; [exact Hp|]. rewrite Hp in Er. exact Er.
  - exists token, coords. split; [exact Hs|]. unfold feasible_region_at.
    cbn [reported_budget] in Ig. now rewrite Ig.
  - exact Hmp.
Qed.

End HandlerExtras.

(** ** Validation *)

Lemma lower_char_idempotent (c : ascii) : Str.lower_char (Str.lower_char c) = Str.lower_char c.
Proof. destruct c as [[] [] [] [] [] [] [] []]; reflexivity. Qed.

Lemma lower_idempotent (s : string) : Str.lower (Str.lower s) = Str.lower s.
Proof.
  induction s as [|c s IH]; simpl; [reflexivity|].
  now rewrite lower_char_idempotent, IH.
Qed.

Lemma startswith_append (p s : string) :
  Str.startswith s p = true -> exists rest, s = String.append p rest.
Proof.
  revert s. induction p as [|a p IH]; intros s; simpl.
  - intros _. now exists s.
  - destruct s as [|b s]; simpl; [discriminate|].
    destruct (Ascii.eqb a b) eqn:E; [|intros Hf; discriminate Hf].
    apply Ascii.eqb_eq in E as ->. intros Hs. destruct (IH s Hs) as (rest & ->). now exists rest.
Qed.

Lemma normalize_profile_ok (value p : string) :
  normalize_profile value = Ok p
  <-> p = "walking"
      /\ (Str.lower value = "walking" \/ Str.lower value = "mapbox/walking").
Proof.
  unfold normalize_profile. split.
  - destruct (Str.startswith (Str.lower value) "mapbox/") eqn:S.
    + apply startswith_append in S as (rest & ->).
      change (Str.after_first_slash (String.append "mapbox/" rest)) with rest.
      destruct (member rest SUPPORTED_PROFILES) eqn:M; [|discriminate].
      apply member_In in M. destruct M as [<-|[]]. intros [= <-]. split; [reflexivity | now right].
    + destruct (member (Str.lower value) SUPPORTED_PROFILES) eqn:M; [|discriminate].
      apply member_In in M. destruct M as [<-|[]]. intros [= <-]. split; [reflexivity | now left].
  - intros [-> [-> | ->]]; reflexivity.
Qed.

Lemma normalize_objective_ok (value o : string) :
  normalize_objective value = Ok o
  <-> o = Str.lower value /\ (o = "min_sum" \/ o = "min_max").
Proof.
  unfold normalize_objective. split.
  - destruct (member (Str.lower value) SUPPORTED_OBJECTIVES) eqn:M; [|discriminate].
    apply member_In in M. intros [= <-]. split; [reflexivity|].
    destruct M as [<-|[<-|[]]]; [now left | now right].
  - intros [-> [E|E]]; rewrite E; reflexivity.
Qed.

(** X8. The profile validator accepts exactly the spellings of
    "walking" and "mapbox/walking" in any case and always yields
    "walking"; the objective validator accepts exactly the spellings of
    "min_sum" and "min_max" in any case and yields the lower-cased
    form; both leave their own results unchanged. *)
Theorem profile_and_objective_normalized (value : string) :
  (forall p, normalize_profile value = Ok p
             <-> p = "walking"
                 /\ (Str.lower value = "walking" \/ Str.lower value = "mapbox/walking"))
  /\ (forall o, normalize_objective value = Ok o
                <-> o = Str.lower value /\ (o = "min_sum" \/ o = "min_max"))
  /\ (forall p, normalize_profile value = Ok p -> normalize_profile p = Ok p)
  /\ (forall o, normalize_objective value = Ok o -> normalize_objective o = Ok o).
Proof.
  split; [intros p; apply normalize_profile_ok|].
  split; [intros o; apply normalize_objective_ok|]. split.
  - intros p Hp. apply normalize_profile_ok in Hp as [-> _]. reflexivity.
  - intros o Ho. apply normalize_objective_ok in Ho as [_ [-> | ->]]; reflexivity.
Qed.

Lemma lstrip_head (s : string) (c : ascii) (t : string) :
  Str.lstrip s = String c t -> Str.is_space c = false.
Proof.
  induction s as [|a s IH]; simpl; [discriminate|].
  destruct (Str.is_space a) eqn:E; [exact IH | now intros [= <- _]].
Qed.

Lemma rstrip_head (c : ascii) (t : string) :
  Str.is_space c = false -> exists r, Str.rstrip (String c t) = String c r.
Proof.
  intros Hc. simpl. destruct (Str.rstrip t) as [|a r]; rewrite ?Hc; now eexists.
Qed.

Lemma rstrip_idempotent (s : string) : Str.rstrip (Str.rstrip s) = Str.rstrip s.
Proof.
  induction s as [|c s IH]; simpl; [reflexivity|].
  destruct (Str.rstrip s) as [|a r] eqn:R.
  - destruct (Str.is_space c) eqn:E; simpl; [reflexivity | now rewrite E].
  - simpl in *. now rewrite IH.
Qed.

(** A stripped string is empty or starts with a character that is not
    white space. *)
Lemma strip_head (s : string) :
  Str.strip s = "" \/ exists c r, Str.strip s = String c r /\ Str.is_space c = false.
Proof.
  unfold Str.strip. destruct (Str.lstrip s) as [|c t] eqn:L; [now left|].
  right. pose proof (lstrip_head s c t L) as Hc.
  destruct (rstrip_head c t Hc) as (r & ->). now exists c, r.
Qed.

Lemma strip_idempotent (s : string) : Str.strip (Str.strip s) = Str.strip s.
Proof.
  destruct (strip_head s) as [->|(c & r & E & Hc)]; [reflexivity|].
  unfold Str.strip at 1. rewrite E. simpl Str.lstrip. rewrite Hc.
  rewrite <- E. unfold Str.strip. apply rstrip_idempotent.
Qed.

Lemma validate_addresses_fixed (cleaned : list string) :
  Forall (fun a => Str.strip a = a /\ a <> "") cleaned ->
  List.map Str.strip (List.filter (fun addr => Str.truthy (Str.strip addr)) cleaned) = cleaned.
Proof.
  induction 1 as [|a l [Hs Hne] _ IH]; simpl; [reflexivity|].
  rewrite Hs. destruct a; [congruence|]. simpl. now rewrite Hs, IH.
Qed.

Lemma cleaned_stripped (value : list string) :
  Forall (fun a => Str.strip a = a /\ a <> "")
         (List.map Str.strip (List.filter (fun addr => Str.truthy (Str.strip addr)) value)).
Proof.
  apply List.Forall_forall. intros a Ha. apply in_map_iff in Ha as (x & <- & Hx).
  apply filter_In in Hx as [_ Ht]. split; [apply strip_idempotent|].
  now destruct (Str.strip x).
Qed.

(** X9. The addresses that pass validation are between 1 and 10, none
    is empty and none starts or ends with white space; validating them
    again accepts them and returns them unchanged. *)
Theorem validated_addresses_are_clean (value cleaned : list string) :
  field_addresses value = Ok cleaned ->
  (1 <= length cleaned <= 10)%nat
  /\ Forall (fun a => a <> "" /\ Str.strip a = a
                      /\ Str.lstrip a = a /\ Str.rstrip a = a) cleaned
  /\ field_addresses cleaned = Ok cleaned.
Proof.
  intros Hv. destruct (validate_addresses_cleaned value cleaned Hv) as [Hc Hlen].
  pose proof (cleaned_stripped value) as Hs. rewrite <- Hc in Hs.
  split; [exact Hlen|]. split.
  - eapply List.Forall_impl; [|exact Hs]. intros a [Ha Hne]. split; [exact Hne|].
    split; [exact Ha|].
    destruct (strip_head a) as [E|(c & r & E & Hsp)]; rewrite Ha in E; [congruence|].
    assert (Str.lstrip a = a) as Hl by (rewrite E; simpl; now rewrite Hsp).
    split; [exact Hl|]. unfold Str.strip in Ha. now rewrite Hl in Ha.
  - unfold field_addresses, validate_addresses.
    rewrite (validate_addresses_fixed cleaned Hs).
    destruct (Z.ltb_spec (Z.of_nat (length cleaned)) 1); [lia|].
    destruct cleaned as [|a l]; [simpl in Hlen; lia|].
    unfold MAX_PARTICIPANTS.
    destruct (Z.ltb_spec 10 (Z.of_nat (length (a :: l)))); [lia | reflexivity].
Qed.

Lemma with_default_ok (d : string) (f : string -> Outcome string) (value : option string)
      (r : string) :
  with_default d f value = Ok r ->
  (value = None /\ r = d) \/ exists v, value = Some v /\ f v = Ok r.
Proof.
  destruct value as [v|]; simpl.
  - intros Hf. right. now exists v.
  - intros [= <-]. now left.
Qed.

(** X10. Every request that passes validation has the profile
    "walking", the objective "min_sum" or "min_max" (the first by
    default), a budget from 5 to 60 (15 by default), between 1 and 10
    clean addresses, a positive grid resolution when one is given, and
    the city hint of the body. *)
Theorem validated_request_invariants (raw : RawRequest) (payload : MeetingPointRequest) :
  validate raw = Ok payload ->
  profile payload = "walking"
  /\ (objective payload = "min_sum" \/ objective payload = "min_max")
  /\ (raw_objective raw = None -> objective payload = "min_sum")
  /\ (5 <= max_minutes payload <= 60)%Z
  /\ (raw_max_minutes raw = None -> max_minutes payload = 15%Z)
  /\ (forall m, raw_max_minutes raw = Some m -> max_minutes payload = m)
  /\ field_addresses (raw_addresses raw) = Ok (addresses payload)
  /\ (1 <= length (addresses payload) <= 10)%nat
  /\ (forall r, grid_resolution_m payload = Some r -> (0 < r)%Q)
  /\ city_hint payload = raw_city_hint raw.
Proof.
  unfold validate.
  destruct (field_addresses (raw_addresses raw)) as [a|] eqn:A; try discriminate.
  destruct (with_default "walking" _ _) as [p|] eqn:P; try discriminate.
  destruct (field_max_minutes _) as [m|] eqn:M; try discriminate.
  destruct (with_default "min_sum" _ _) as [o|] eqn:O; try discriminate.
  destruct (field_grid_resolution_m _) as [g|] eqn:G; try discriminate.
  intros [= <-]. simpl.
  split.
  { apply with_default_ok in P as [[_ ->]|(v & _ & Hv)]; [reflexivity|].
    now apply normalize_profile_ok in Hv as [-> _]. }
  split.
  { apply with_default_ok in O as [[_ ->]|(v & _ & Hv)]; [now left|].
    now apply normalize_objective_ok in Hv as [_ Ho]. }
  split.
  { intros Hn. rewrite Hn in O. simpl in O. now injection O as <-. }
  assert ((5 <= m <= 60)%Z
          /\ (raw_max_minutes raw = None -> m = 15%Z)
          /\ (forall m', raw_max_minutes raw = Some m' -> m = m')) as (Hm & Hd & Hm').
  { unfold field_max_minutes, MAX_MAX_MINUTES, DEFAULT_MAX_MINUTES in M.
    destruct (raw_max_minutes raw) as [m'|].
    - destruct (Z.ltb_spec m' 5); [discriminate|].
      destruct (Z.ltb_spec 60 m'); [discriminate|]. injection M as <-.
      repeat split; try lia; [discriminate | now intros ? [= <-]].
    - injection M as <-. repeat split; try lia. discriminate. }
  split; [exact Hm|]. split; [exact Hd|]. split; [exact Hm'|].
  split; [reflexivity|].
  split; [now destruct (validate_addresses_cleaned _ _ A)|].
  split; [|reflexivity].
  intros r ->. unfold field_grid_resolution_m in G.
  destruct (raw_grid_resolution_m raw) as [r'|]; [|discriminate].
  destruct (Qle_bool r' 0) eqn:Q; [discriminate|]. injection G as <-.
  apply Qnot_le_lt. intros Hle. apply Qle_bool_iff in Hle. congruence.
Qed.

(** ** Deduplication and the largest component *)

Lemma first_occurrences_distinct (l : list string) :
  forall before : list string,
    NoDup (List.map Str.lower l) ->
    (forall a, In a l -> ~ In (Str.lower a) (List.map Str.lower before)) ->
    first_occurrences before l = l.
Proof.
  induction l as [|a l IH]; intros before Hnd Hfresh; simpl; [reflexivity|].
  simpl in Hnd. apply NoDup_cons in Hnd as [Ha Hnd].
  assert (member (Str.lower a) (List.map Str.lower before) = false) as ->.
  { apply not_true_is_false. intros Hm. apply member_In in Hm.
    apply (Hfresh a); [now left | exact Hm]. }
  f_equal. apply IH; [exact Hnd|].
  intros b Hb. rewrite List.map_app, in_app_iff. simpl. intros [Hin|[E|[]]].
  - apply (Hfresh b); [now right | exact Hin].
  - apply Ha. rewrite list_elem_of_In, E. apply in_map_iff. now exists b.
Qed.

(** X11. Deduplication returns a list whose lower-cased forms are
    pairwise distinct as it is, so deduplicating twice changes nothing;
    it never makes the list longer, and its result is empty only for
    the empty list. *)
Theorem deduplicate_idempotent (l : list string) :
  (NoDup (List.map Str.lower l) -> _deduplicate_addresses l = l)
  /\ _deduplicate_addresses (_deduplicate_addresses l) = _deduplicate_addresses l
  /\ (length (_deduplicate_addresses l) <= length l)%nat
  /\ (_deduplicate_addresses l = [] <-> l = []).
Proof.
  assert (forall l', NoDup (List.map Str.lower l') -> _deduplicate_addresses l' = l') as Hid.
  { intros l' Hnd. rewrite deduplicate_first_occurrences.
    apply first_occurrences_distinct; [exact Hnd | now intros a _ []]. }
  split; [apply Hid|]. split; [|split].
  - apply Hid. rewrite deduplicate_first_occurrences.
    apply (first_occurrences_keys l []).
  - rewrite deduplicate_first_occurrences.
    apply sublist_length, first_occurrences_sublist.
  - split; [apply deduplicate_nil | now intros ->].
Qed.

Lemma max_loop_first {A : Type} (key : A -> Q) (l : list A) :
  forall best : A,
    (max_loop key best l = best /\ forall x, In x l -> (key x <= key best)%Q)
    \/ exists pre post,
        l = pre ++ max_loop key best l :: post
        /\ (key best < key (max_loop key best l))%Q
        /\ (forall x, In x pre -> (key x < key (max_loop key best l))%Q)
        /\ (forall x, In x post -> (key x <= key (max_loop key best l))%Q).
Proof.
  induction l as [|y l IH]; intros best; simpl.
  - left. split; [reflexivity | tauto].
  - destruct (Qlt_bool (key best) (key y)) eqn:C.
    + apply Qlt_bool_true in C. right.
      destruct (IH y) as [[E Hall]|(pre & post & Hl & Hlt & Hpre & Hpost)].
      * exists [], l. rewrite E. repeat split; [exact C | now intros x [] | exact Hall].
      * exists (y :: pre), post. split; [simpl; now rewrite <- Hl|].
        split; [now apply Qlt_trans with (key y)|]. split; [|exact Hpost].
        intros x [<-|Hx]; [exact Hlt | now apply Hpre].
    + apply Qlt_bool_false in C.
      destruct (IH best) as [[E Hall]|(pre & post & Hl & Hlt & Hpre & Hpost)].
      * left. split; [exact E|]. intros x [<-|Hx]; [exact C | now apply Hall].
      * right. exists (y :: pre), post. split; [simpl; now rewrite <- Hl|].
        split; [exact Hlt|]. split; [|exact Hpost].
        intros x [<-|Hx]; [now apply Qle_lt_trans with (key best) | now apply Hpre].
Qed.

(** X12. Of a multi-polygon, [_largest_component] returns the first
    part of largest area: the parts before it are strictly smaller, the
    parts after it are not larger; a multi-polygon without parts makes
    [max] raise; any other geometry is returned as it is. *)
Theorem largest_component_is_first_maximum
        {polygon other : Type} `{Shapely polygon other} (g : Geometry polygon other) :
  match g with
  | MultiPolygon [] =>
      _largest_component g = Err (ValueError "max() arg is an empty sequence")
  | MultiPolygon geoms =>
      exists pre p post,
        geoms = pre ++ p :: post
        /\ _largest_component g = Ok (Polygon p)
        /\ (forall x, In x pre -> (area x < area p)%Q)
        /\ (forall x, In x post -> (area x <= area p)%Q)
  | _ => _largest_component g = Ok g
  end.
Proof.
  destruct g as [p|[|first rest]|gs|o]; try reflexivity.
  simpl. destruct (max_loop_first area rest first)
    as [[E Hall]|(pre & post & Hl & Hlt & Hpre & Hpost)].
  - exists [], first, rest. rewrite E. repeat split; [now intros x [] | exact Hall].
  - exists (first :: pre), (max_loop area first rest), post.
    split; [simpl; now rewrite <- Hl|]. split; [reflexivity|]. split; [|exact Hpost].
    intros x [<-|Hx]; [exact Hlt | now apply Hpre].
Qed.

(** ** The Mapbox helpers *)

Lemma append_inj_l (s a b : string) : s +:+ a = s +:+ b -> a = b.
Proof.
  induction s as [|c s IH]; simpl; [trivial|]. intros [= E]. now apply IH.
Qed.

Section HelperFacts.

Context {polygon other : Type} `{Shapely polygon other}.
Variable client_get : Request -> Reply.
Variable quote : string -> string.
Variable str_float : Q -> string.
Variable float_of_str : string -> option Q.
Variable shape : JSON -> Result (Geometry polygon other).

#[local] Abbreviation geocode :=
  (Helpers._geocode_address client_get quote float_of_str).

(** The three ways a call of the geocoding helper can go. *)
Lemma geocode_cases (cache : gmap string Coordinate) (address : string)
      (city_hint : option string) (token : string) :
  let key := Helpers.cache_key address city_hint in
  let request := Helpers.geocode_request quote address city_hint token in
  (exists c, cache !! key = Some c /\ geocode cache address city_hint token = (Returns c, cache, []))
  \/ (exists c, cache !! key = None
                /\ geocode cache address city_hint token
                   = (Returns c, <[key := c]> cache, [request]))
  \/ (exists e, cache !! key = None
                /\ geocode cache address city_hint token = (Raises e, cache, [request])).
Proof.
  intros key request. unfold Helpers._geocode_address. fold key request.
  destruct (cache !! key) as [c|] eqn:K; [left; now exists c|].
  right. destruct (client_get request) as [exc|status body]; [right; now eexists|].
  destruct (status =? 401)%Z; [right; now eexists|].
  destruct (status =? 429)%Z; [right; now eexists|].
  destruct (500 <=? status)%Z; [right; now eexists|].
  destruct (400 <=? status)%Z; [right; now eexists|].
  destruct (Helpers.geocode_coordinates float_of_str address body) as [c|e].
  - left. now exists c.
  - right. now exists e.
Qed.

(** X13. A coordinate the geocoding helper returns is in the cache
    afterwards under the key of the address and the hint, no entry that
    was there is changed or dropped, and asking again for the same
    address and hint returns the same coordinate from the cache without
    a request, whatever the service or the token then is.  A call that
    raises leaves the cache as it was, so a failure is asked again the
    next time. *)
Theorem geocode_cache_round_trip
        (cache cache' : gmap string Coordinate) (address : string)
        (city_hint : option string) (token : string)
        (r : Result Coordinate) (log : list Request) :
  geocode cache address city_hint token = (r, cache', log) ->
  (forall k v, cache !! k = Some v -> cache' !! k = Some v)
  /\ (forall k, k <> Helpers.cache_key address city_hint -> cache' !! k = cache !! k)
  /\ (length log <= 1)%nat
  /\ match r with
     | Returns c =>
         cache' !! Helpers.cache_key address city_hint = Some c
         /\ (log = [] <-> cache !! Helpers.cache_key address city_hint = Some c)
         /\ forall client_get' quote' float_of_str' token',
             Helpers._geocode_address client_get' quote' float_of_str'
                                      cache' address city_hint token'
             = (Returns c, cache', [])
     | Raises _ =>
         cache' = cache /\ cache !! Helpers.cache_key address city_hint = None
         /\ log = [Helpers.geocode_request quote address city_hint token]
     end.
Proof.
  intros Hg.
  destruct (geocode_cases cache address city_hint token)
    as [(c & K & E)|[(c & K & E)|(e & K & E)]];
    rewrite E in Hg; injection Hg as <- <- <-.
  - repeat split; auto.
    intros client_get' quote' float_of_str' token'.
    unfold Helpers._geocode_address. now rewrite K.
  - split; [|split; [|split; [|split; [|split]]]].
    + intros k v Hk. destruct (decide (k = Helpers.cache_key address city_hint)) as [->|Hne].
      * congruence.
      * now rewrite lookup_insert_ne.
    + intros k Hne. now rewrite lookup_insert_ne.
    + simpl. lia.
    + apply lookup_insert_eq.
    + split; [discriminate | congruence].
    + intros client_get' quote' float_of_str' token'.
      unfold Helpers._geocode_address. now rewrite lookup_insert_eq.
  - repeat split; auto.
Qed.

(** X14. The cache does not tell apart what its key does not: an empty
    hint is no hint, and the address [a|h] without hint has the key of
    the address [a] with the hint [h], so that once one of the two is
    cached the other is answered with its coordinate, without a request,
    although the two are different queries. *)
Theorem geocode_cache_key_collisions
        (cache : gmap string Coordinate) (address hint token : string) :
  geocode cache address (Some "") token = geocode cache address None token
  /\ (hint <> "" ->
      Helpers.cache_key (address +:+ "|" +:+ hint) None
      = Helpers.cache_key address (Some hint)
      /\ Helpers.query (address +:+ "|" +:+ hint) None
         <> Helpers.query address (Some hint)
      /\ forall c,
          cache !! Helpers.cache_key address (Some hint) = Some c ->
          geocode cache (address +:+ "|" +:+ hint) None token = (Returns c, cache, []))
  /\ (forall hint', Helpers.cache_key address (Some hint) = Helpers.cache_key address (Some hint')
                    -> Str.truthy hint = true -> Str.truthy hint' = true -> hint = hint').
Proof.
  split; [reflexivity|]. split.
  - intros Hne.
    assert (Str.truthy hint = true) as Ht by (destruct hint; [congruence | reflexivity]).
    assert (Helpers.cache_key (address +:+ "|" +:+ hint) None
            = Helpers.cache_key address (Some hint)) as Hk
        by (unfold Helpers.cache_key; now rewrite Ht).
    split; [exact Hk|]. split.
    + unfold Helpers.query. rewrite Ht. intros E.
      apply append_inj_l in E. discriminate E.
    + intros c Hc. unfold Helpers._geocode_address. now rewrite Hk, Hc.
  - intros hint' E Ht Ht'. unfold Helpers.cache_key in E. rewrite Ht, Ht' in E.
    apply append_inj_l in E. now injection E.
Qed.

#[local] Abbreviation fetch_isochrone :=
  (Helpers._fetch_isochrone client_get str_float shape).
#[local] Abbreviation travel_time_seconds :=
  (Helpers._travel_time_seconds client_get str_float float_of_str).

Lemma status_passes (status : Z) :
  (status < 400)%Z ->
  (status =? 401)%Z = false /\ (status =? 429)%Z = false
  /\ (500 <=? status)%Z = false /\ (400 <=? status)%Z = false.
Proof. intros Hs. repeat split; lia. Qed.

(** X15. The three helpers treat a reply alike: a request that fails is
    reported with status 502; a reply with status 401 or 429 is reported
    with that status, one with a status from 500 on with 502 and any
    other status from 400 on with 400, in each case without looking at
    the body, and for the geocoding without touching the cache. *)
Theorem helpers_report_status_alike
        (cache : gmap string Coordinate) (address : string) (city_hint : option string)
        (coordinate origin destination : Coordinate) (minutes : Z) (profile token : string) :
  cache !! Helpers.cache_key address city_hint = None ->
  let reported_for reply :=
    match reply with
    | RequestError _ => Some 502%Z
    | Response status _ =>
        if (status =? 401)%Z then Some 401%Z
        else if (status =? 429)%Z then Some 429%Z
        else if (500 <=? status)%Z then Some 502%Z
        else if (400 <=? status)%Z then Some 400%Z
        else None
    end in
  let geocoding := client_get (Helpers.geocode_request quote address city_hint token) in
  let isochrone :=
    client_get (Helpers.isochrone_request str_float coordinate minutes profile token) in
  let directions :=
    client_get (Helpers.directions_request str_float origin destination profile token) in
  (forall status, reported_for geocoding = Some status ->
                  raised_status (fst (fst (geocode cache address city_hint token)))
                  = Some status
                  /\ snd (fst (geocode cache address city_hint token)) = cache)
  /\ (forall status, reported_for isochrone = Some status ->
                     raised_status (fst (fetch_isochrone coordinate minutes profile token))
                     = Some status)
  /\ (forall status, reported_for directions = Some status ->
                     raised_status
                       (fst (travel_time_seconds origin destination profile token))
                     = Some status).
Proof.
  intros K reported_for geocoding isochrone directions. split; [|split]; intros status.
  - unfold Helpers._geocode_address. rewrite K. fold geocoding.
    destruct geocoding as [exc|s body]; simpl.
    + intros [= <-]. now split.
    + destruct (s =? 401)%Z; [intros [= <-]; now split|].
      destruct (s =? 429)%Z; [intros [= <-]; now split|].
      destruct (500 <=? s)%Z; [intros [= <-]; now split|].
      destruct (400 <=? s)%Z; [intros [= <-]; now split | discriminate].
  - unfold Helpers._fetch_isochrone. fold isochrone.
    destruct isochrone as [exc|s body]; simpl.
    + now intros [= <-].
    + destruct (s =? 401)%Z; [now intros [= <-]|].
      destruct (s =? 429)%Z; [now intros [= <-]|].
      destruct (500 <=? s)%Z; [now intros [= <-]|].
      destruct (400 <=? s)%Z; [now intros [= <-] | discriminate].
  - unfold Helpers._travel_time_seconds. fold directions.
    destruct directions as [exc|s body]; simpl.
    + now intros [= <-].
    + destruct (s =? 401)%Z; [now intros [= <-]|].
      destruct (s =? 429)%Z; [now intros [= <-]|].
      destruct (500 <=? s)%Z; [now intros [= <-]|].
      destruct (400 <=? s)%Z; [now intros [= <-] | discriminate].
Qed.

Lemma isochrone_polygon_nonempty (body : option JSON) (g : Geometry polygon other) :
  Helpers.isochrone_polygon shape body = Returns g -> is_empty g = false.
Proof.
  unfold Helpers.isochrone_polygon.
  destruct body as [data|]; simpl; [|discriminate].
  destruct (Py.get data "features") as [found|e]; simpl; [|discriminate].
  destruct (negb _); [discriminate|].
  destruct (Py.index _ 0) as [first|e]; simpl; [|discriminate].
  destruct (Py.get first "geometry") as [geom|e]; simpl; [|discriminate].
  destruct (shape geom) as [polygon'|e]; simpl; [|discriminate].
  destruct (is_empty polygon') eqn:E; [discriminate|]. now intros [= <-].
Qed.

(** X16. The isochrone helper makes exactly one request, whatever comes
    of it, and a geometry it returns is never empty: it comes from a
    reply with a status below 400 whose first feature has a geometry
    that is not empty. *)
Theorem fetch_isochrone_returns_no_empty_geometry
        (coordinate : Coordinate) (minutes : Z) (profile token : string) :
  let request := Helpers.isochrone_request str_float coordinate minutes profile token in
  snd (fetch_isochrone coordinate minutes profile token) = [request]
  /\ forall g,
      fst (fetch_isochrone coordinate minutes profile token) = Returns g ->
      is_empty g = false
      /\ exists status data features first geom,
          client_get request = Response status (Some data)
          /\ (status < 400)%Z
          /\ Py.get data "features" = Returns features
          /\ Py.index features 0 = Returns first
          /\ Py.get first "geometry" = Returns geom
          /\ shape geom = Returns g.
Proof.
  intros request. unfold Helpers._fetch_isochrone. fold request.
  destruct (client_get request) as [exc|status body]; [split; [reflexivity | intros g Hg; discriminate Hg]|].
  destruct (Z.eqb_spec status 401); [split; [reflexivity | intros g Hg; discriminate Hg]|].
  destruct (Z.eqb_spec status 429); [split; [reflexivity | intros g Hg; discriminate Hg]|].
  destruct (Z.leb_spec 500 status); [split; [reflexivity | intros g Hg; discriminate Hg]|].
  destruct (Z.leb_spec 400 status); [split; [reflexivity | intros g Hg; discriminate Hg]|].
  split; [reflexivity|]. cbn [fst]. intros g Hg.
  split; [now apply isochrone_polygon_nonempty in Hg|].
  revert Hg. unfold Helpers.isochrone_polygon.
  destruct body as [data|]; cbn [rbind json]; [|discriminate].
  destruct (Py.get data "features") as [found|e] eqn:F; cbn [rbind]; [|discriminate].
  unfold Py.or_empty_list. destruct (Py.truthy found) eqn:T;
    [rewrite T | discriminate]. cbn [negb].
  destruct (Py.index found 0) as [first|e] eqn:I; cbn [rbind]; [|discriminate].
  destruct (Py.get first "geometry") as [geom|e] eqn:G; cbn [rbind]; [|discriminate].
  destruct (shape geom) as [polygon'|e] eqn:S; cbn [rbind]; [|discriminate].
  destruct (is_empty polygon'); [discriminate|]. intros [= <-].
  now exists status, data, found, first, geom.
Qed.

(** X17. Of a directions reply with a status below 400 only the first
    route counts: its duration is returned, a duration of zero
    included; a reply without routes, and a first route without a
    duration or with the duration [null], is reported with status 502.
    The helper makes exactly one request. *)
Theorem travel_time_is_first_route_duration
        (origin destination : Coordinate) (profile token : string)
        (status : Z) (members : list (string * JSON)) :
  let request := Helpers.directions_request str_float origin destination profile token in
  let result := fst (travel_time_seconds origin destination profile token) in
  let missing : Result Q := http_error 502 "Directions response missing duration" in
  client_get request = Response status (Some (JObject members)) ->
  (status < 400)%Z ->
  snd (travel_time_seconds origin destination profile token) = [request]
  /\ match Py.assoc "routes" members with
     | None | Some JNull | Some (JArray []) => result = missing
     | Some (JArray (JObject route :: _)) =>
         match Py.assoc "duration" route with
         | None | Some JNull => result = missing
         | Some (JNumber seconds) => result = Returns seconds
         | Some other_value => result = Py.float float_of_str other_value
         end
     | Some _ => True
     end.
Proof.
  intros request result missing Hreply Hs. subst result.
  unfold Helpers._travel_time_seconds. fold request. rewrite Hreply.
  destruct (status_passes status Hs) as (-> & -> & -> & ->).
  split; [reflexivity|]. cbn [fst]. unfold Helpers.directions_duration.
  cbn [rbind json Py.get].
  destruct (Py.assoc "routes" members) as [[| | | |[|[| | | | |route] more]|]|];
    try exact I; try reflexivity.
  cbn [rbind Py.or_empty_list Py.truthy negb Py.index nth_error Py.get Py.item].
  destruct (Py.assoc "duration" route) as [[| | | | |]|]; reflexivity.
Qed.

(** X18. Of a geocoding reply with a status below 400 for an address
    that is not cached: without features the address is reported as not
    found with status 400 and nothing is cached; otherwise the first
    two coordinates of the first feature are returned as
    [(lng, lat)] and cached under the key of the address. *)
Theorem geocode_is_first_feature_coordinates
        (cache : gmap string Coordinate) (address : string) (city_hint : option string)
        (token : string) (status : Z) (members : list (string * JSON)) :
  let key := Helpers.cache_key address city_hint in
  let request := Helpers.geocode_request quote address city_hint token in
  let result := geocode cache address city_hint token in
  cache !! key = None ->
  client_get request = Response status (Some (JObject members)) ->
  (status < 400)%Z ->
  match Py.assoc "features" members with
  | None | Some JNull | Some (JArray []) =>
      result = (http_error 400 ("Address not found: '" +:+ address +:+ "'"), cache, [request])
  | Some (JArray (JObject feature :: _)) =>
      forall geometry lng lat more,
        Py.assoc "geometry" feature = Some (JObject geometry) ->
        Py.assoc "coordinates" geometry = Some (JArray (JNumber lng :: JNumber lat :: more)) ->
        result = (Returns (lng, lat), <[key := (lng, lat)]> cache, [request])
  | Some _ => True
  end.
Proof.
  intros key request result K Hreply Hs. subst result.
  unfold Helpers._geocode_address. fold key request. rewrite K, Hreply.
  destruct (status_passes status Hs) as (-> & -> & -> & ->).
  unfold Helpers.geocode_coordinates. cbn [rbind json Py.get].
  destruct (Py.assoc "features" members) as [[| | | |[|[| | | | |feature] more]|]|];
    try exact I; try reflexivity.
  intros geometry lng lat rest Hgeo Hc.
  cbn [rbind Py.or_empty_list Py.truthy negb Py.index nth_error Py.item].
  rewrite Hgeo. cbn [rbind Py.item]. rewrite Hc. reflexivity.
Qed.

Lemma rbind_status {A B : Type} (m : Result A) (f : A -> Result B) (s : Z) :
  raised_status (rbind m f) = Some s ->
  raised_status m = Some s \/ exists a, m = Returns a /\ raised_status (f a) = Some s.
Proof.
  destruct m as [a|e]; simpl; [right; now exists a | now left].
Qed.

Lemma py_get_status (x : JSON) (key : string) : raised_status (Py.get x key) = None.
Proof. destruct x; simpl; try reflexivity. now destruct (Py.assoc key members). Qed.

Lemma py_item_status (x : JSON) (key : string) : raised_status (Py.item x key) = None.
Proof. destruct x; simpl; try reflexivity. now destruct (Py.assoc key members). Qed.

Lemma py_index_status (x : JSON) (i : nat) : raised_status (Py.index x i) = None.
Proof.
  destruct x; simpl; try reflexivity.
  - now destruct (Py.char_at s i).
  - now destruct (nth_error items i).
Qed.

Lemma py_float_status (x : JSON) : raised_status (Py.float float_of_str x) = None.
Proof. destruct x; simpl; try reflexivity. now destruct (float_of_str s). Qed.

Ltac status_step H :=
  apply rbind_status in H as [H|(? & _ & H)];
  [first [ now rewrite py_get_status in H | now rewrite py_item_status in H
         | now rewrite py_index_status in H | now rewrite py_float_status in H
         | discriminate H ]|].

(** X19. An [HTTPException] that a helper raises has one of the status
    codes 400, 401, 429 and 502, whatever the reply is ([shape] itself
    raising no [HTTPException]). *)
Theorem helpers_raise_four_statuses
        (cache : gmap string Coordinate) (address : string) (city_hint : option string)
        (coordinate origin destination : Coordinate) (minutes : Z) (profile token : string)
        (status : Z) :
  (forall geom, raised_status (shape geom) = None) ->
  raised_status (fst (fst (geocode cache address city_hint token))) = Some status
  \/ raised_status (fst (fetch_isochrone coordinate minutes profile token)) = Some status
  \/ raised_status (fst (travel_time_seconds origin destination profile token)) = Some status ->
  status = 400%Z \/ status = 401%Z \/ status = 429%Z \/ status = 502%Z.
Proof.
  intros Hshape [Hg|[Hi|Ht]].
  - revert Hg. unfold Helpers._geocode_address.
    destruct (cache !! _); [discriminate|].
    destruct (client_get _) as [exc|s body]; [intros [= <-]; tauto|].
    destruct (s =? 401)%Z; [intros [= <-]; tauto|].
    destruct (s =? 429)%Z; [intros [= <-]; tauto|].
    destruct (500 <=? s)%Z; [intros [= <-]; tauto|].
    destruct (400 <=? s)%Z; [intros [= <-]; tauto|].
    destruct (Helpers.geocode_coordinates float_of_str address body) as [c|e] eqn:E;
      [discriminate|].
    cbn [fst]. intros Hg. rewrite <- E in Hg. clear E.
    unfold Helpers.geocode_coordinates in Hg.
    apply rbind_status in Hg as [Hg|(data & _ & Hg)];
      [destruct body; discriminate Hg|].
    status_step Hg.
    destruct (negb _); [injection Hg as <-; tauto|].
    do 7 status_step Hg. discriminate Hg.
  - revert Hi. unfold Helpers._fetch_isochrone.
    destruct (client_get _) as [exc|s body]; [intros [= <-]; tauto|].
    destruct (s =? 401)%Z; [intros [= <-]; tauto|].
    destruct (s =? 429)%Z; [intros [= <-]; tauto|].
    destruct (500 <=? s)%Z; [intros [= <-]; tauto|].
    destruct (400 <=? s)%Z; [intros [= <-]; tauto|].
    cbn [fst]. unfold Helpers.isochrone_polygon. intros Hi.
    apply rbind_status in Hi as [Hi|(data & _ & Hi)];
      [destruct body; discriminate Hi|].
    status_step Hi.
    destruct (negb _); [injection Hi as <-; tauto|].
    do 2 status_step Hi.
    apply rbind_status in Hi as [Hi|(g & _ & Hi)]; [now rewrite Hshape in Hi|].
    destruct (is_empty g); [injection Hi as <-; tauto | discriminate Hi].
  - revert Ht. unfold Helpers._travel_time_seconds.
    destruct (client_get _) as [exc|s body]; [intros [= <-]; tauto|].
    destruct (s =? 401)%Z; [intros [= <-]; tauto|].
    destruct (s =? 429)%Z; [intros [= <-]; tauto|].
    destruct (500 <=? s)%Z; [intros [= <-]; tauto|].
    destruct (400 <=? s)%Z; [intros [= <-]; tauto|].
    cbn [fst]. unfold Helpers.directions_duration. intros Ht.
    apply rbind_status in Ht as [Ht|(data & _ & Ht)];
      [destruct body; discriminate Ht|].
    status_step Ht.
    destruct (negb _); [injection Ht as <-; tauto|].
    do 2 status_step Ht.
    match type of Ht with
    | raised_status (match ?d with _ => _ end) = _ => destruct d
    end; try (injection Ht as <-; tauto);
      do 2 status_step Ht; now rewrite py_float_status in Ht.
Qed.

End HelperFacts.

(** ** The token of the page and the token of the API *)

(** X20. Whenever the API finds its token, [/config.js] hands a token
    to the browser: the public token when one is set and not empty, the
    token of the API itself otherwise; the page gets [null] only when
    the API has no token either. *)
Theorem config_js_follows_the_api_token
        {polygon other : Type} (mapbox : Mapbox polygon other)
        (MAPBOX_PUBLIC_TOKEN : option string) :
  let page := config_js MAPBOX_PUBLIC_TOKEN (MAPBOX_TOKEN mapbox) in
  let line token :=
    "window.MAPBOX_TOKEN = " +:+ double_quote +:+ token +:+ double_quote +:+ ";" +:+ newline in
  let null := "window.MAPBOX_TOKEN = " +:+ "null;" +:+ newline in
  (forall token, _mapbox_token mapbox = Ok token ->
                 page <> null
                 /\ match MAPBOX_PUBLIC_TOKEN with
                    | Some (String c public) => page = line (String c public)
                    | _ => page = line token
                    end)
  /\ (page = null ->
      _mapbox_token mapbox
      = Err (HTTPException 500 "MAPBOX_TOKEN environment variable is required")).
Proof.
  intros page line null.
  assert (forall token, line token <> null) as Hline.
  { intros token E. unfold line, null in E. apply append_inj_l in E. discriminate E. }
  subst page. unfold config_js, getenv_or, _mapbox_token.
  destruct MAPBOX_PUBLIC_TOKEN as [[|c public]|], (MAPBOX_TOKEN mapbox) as [[|d api]|];
    cbn [Str.truthy]; split;
    try (intros token [= <-]; split; [apply Hline | reflexivity]);
    try (intros token Ht; discriminate Ht);
    try reflexivity;
    try (intros E; exfalso; exact (Hline _ E)).
Qed.

(** ** The further properties on concrete inputs *)

(** The second participant's isochrone is refused with status 429: the
    handler raises that exception, made in a logged isochrone call. *)
Lemma handler_raises_what_helpers_raise_witness :
  let payload := Scenarios.request 15 "min_sum" in
  let e := HTTPException 429 "Mapbox rate limit exceeded" in
  raised_by_helper MoreScenarios.rate_limited payload
                   (fst (meeting_point MoreScenarios.rate_limited payload)) e.
Proof.
  intros payload e.
  assert (snd (meeting_point MoreScenarios.rate_limited payload) = Err e) as He
      by (vm_compute; reflexivity).
  destruct (handler_raises_what_helpers_raise MoreScenarios.rate_limited payload e He)
    as [E|[[_ E]|[Hr|E]]]; try discriminate E.
  exact Hr.
Defined.

(** Squares that stay apart, requested budget 15: the answer reports 20. *)
Lemma reported_budget_is_requested_or_bumped_witness :
  let r : Response.t Boxes.Box Boxes.Box :=
    Response.Infeasible false "no_common_reachable_region" 20 in
  (15 <= reported_budget r <= 60)%Z /\ (reported_budget r <= 15 + 5)%Z.
Proof.
  intros r.
  assert (snd (meeting_point (Scenarios.fake Scenarios.apart 600)
                             (Scenarios.request 15 "min_sum")) = Ok r) as Hr
      by (vm_compute; reflexivity).
  apply (proj2 (reported_budget_is_requested_or_bumped
                  (Scenarios.fake Scenarios.apart 600) (Scenarios.request 15 "min_sum") r Hr)).
  simpl. lia.
Defined.

(** The two participants of the shared square, in the order of the
    request. *)
Lemma participants_follow_addresses_witness :
  exists body,
    snd (meeting_point (Scenarios.fake Scenarios.shared 600) (Scenarios.request 15 "min_sum"))
    = Ok (Response.Resolved body)
    /\ List.map Response.address (Response.participants body) = ["A st"; "B st"].
Proof.
  eexists. split; [vm_compute; reflexivity|].
  match goal with
  | |- context [Response.participants ?b] =>
      assert (snd (meeting_point (Scenarios.fake Scenarios.shared 600)
                                 (Scenarios.request 15 "min_sum"))
              = Ok (Response.Resolved b)) as Hb by (vm_compute; reflexivity);
      destruct (participants_follow_addresses
                  (Scenarios.fake Scenarios.shared 600) (Scenarios.request 15 "min_sum") b Hb)
        as (token & coords & _ & Ha & _)
  end.
  rewrite Ha. vm_compute. reflexivity.
Defined.

(** Squares that stay apart: no directions call at all. *)
Lemma directions_calls_of_an_answer_witness :
  List.filter is_directions_call
              (fst (meeting_point (Scenarios.fake Scenarios.apart 600)
                                  (Scenarios.request 15 "min_sum"))) = [].
Proof.
  assert (snd (meeting_point (Scenarios.fake Scenarios.apart 600)
                             (Scenarios.request 15 "min_sum"))
          = Ok (Response.Infeasible false "no_common_reachable_region" 20)) as Hr
      by (vm_compute; reflexivity).
  exact (proj2 (proj2 (directions_calls_of_an_answer
                         (Scenarios.fake Scenarios.apart 600)
                         (Scenarios.request 15 "min_sum") _ Hr))).
Defined.

(** One address given twice in different case: one participant, one
    isochrone call, the requested budget. *)
Lemma single_participant_never_escalated_witness :
  exists r,
    snd (meeting_point (Scenarios.fake Scenarios.shared 600) MoreScenarios.single_request)
    = Ok r
    /\ reported_budget r = 15%Z.
Proof.
  assert (forall coord minutes profile token g,
             _fetch_isochrone (Scenarios.fake Scenarios.shared 600)
                              coord minutes profile token = Ok g ->
             is_empty g = false) as Hfull
      by (intros coord minutes profile token g [= <-]; reflexivity).
  assert (length (_deduplicate_addresses (addresses MoreScenarios.single_request)) = 1%nat)
    as Hone by (vm_compute; reflexivity).
  eexists. split; [vm_compute; reflexivity|].
  match goal with
  | |- reported_budget ?r = _ =>
      assert (snd (meeting_point (Scenarios.fake Scenarios.shared 600)
                                 MoreScenarios.single_request) = Ok r) as Hr
          by (vm_compute; reflexivity);
      exact (proj2 (single_participant_never_escalated
                      (Scenarios.fake Scenarios.shared 600) MoreScenarios.single_request
                      Hfull Hone) r Hr)
  end.
Defined.

(** The shared square: the answer carries that square and its centre. *)
Lemma resolved_region_is_a_polygon_witness :
  exists body,
    snd (meeting_point (Scenarios.fake Scenarios.shared 600) (Scenarios.request 15 "min_sum"))
    = Ok (Response.Resolved body)
    /\ exists p, Response.intersection_polygons_geojson body = Polygon p
                 /\ polygon_is_empty p = false.
Proof.
  eexists. split; [vm_compute; reflexivity|].
  match goal with
  | |- context [Response.intersection_polygons_geojson ?b] =>
      assert (snd (meeting_point (Scenarios.fake Scenarios.shared 600)
                                 (Scenarios.request 15 "min_sum"))
              = Ok (Response.Resolved b)) as Hb by (vm_compute; reflexivity);
      exact (proj1 (resolved_region_is_a_polygon
                      (Scenarios.fake Scenarios.shared 600) (Scenarios.request 15 "min_sum")
                      b BoxFacts.union_polygonal Hb))
  end.
Defined.

Lemma profile_and_objective_normalized_witness :
  normalize_profile "Mapbox/Walking" = Ok "walking"
  /\ normalize_profile "walking" = Ok "walking".
Proof.
  assert (normalize_profile "Mapbox/Walking" = Ok "walking") as Hp
      by (apply (proj1 (profile_and_objective_normalized "Mapbox/Walking"));
          split; [reflexivity | right; vm_compute; reflexivity]).
  split; [exact Hp|].
  exact (proj1 (proj2 (proj2 (profile_and_objective_normalized "Mapbox/Walking")))
               "walking" Hp).
Defined.

Lemma validated_addresses_are_clean_witness :
  field_addresses ["A st"; "b St"] = Ok ["A st"; "b St"].
Proof.
  assert (field_addresses ["  A st "; ""; "b St  "] = Ok ["A st"; "b St"]) as Hv
      by (vm_compute; reflexivity).
  exact (proj2 (proj2 (validated_addresses_are_clean _ _ Hv))).
Defined.

Lemma validated_request_invariants_witness :
  let raw := {| raw_addresses := [" A st "];
                raw_profile := Some "MAPBOX/walking";
                raw_max_minutes := None;
                raw_objective := Some "Min_Max";
                raw_grid_resolution_m := None;
                raw_city_hint := None |} in
  exists payload,
    validate raw = Ok payload
    /\ profile payload = "walking" /\ max_minutes payload = 15%Z
    /\ addresses payload = ["A st"] /\ objective payload = "min_max".
Proof.
  intros raw. eexists. split; [vm_compute; reflexivity|].
  match goal with
  | |- profile ?payload = _ /\ _ =>
      assert (validate raw = Ok payload) as Hv by (vm_compute; reflexivity);
      destruct (validated_request_invariants raw payload Hv) as (Hp & _ & _ & _ & Hd & _);
      split; [exact Hp | split; [exact (Hd eq_refl) | split; vm_compute; reflexivity]]
  end.
Defined.

Lemma deduplicate_idempotent_witness :
  _deduplicate_addresses ["A st"; "B st"] = ["A st"; "B st"].
Proof.
  apply (proj1 (deduplicate_idempotent ["A st"; "B st"])).
  vm_compute.
  repeat (constructor; [rewrite ?elem_of_cons, elem_of_nil; intuition discriminate|]).
  constructor.
Defined.

(** A first lookup asks the service and stores [(2, 3)]; the second one,
    with the cache the first left, asks nobody, whatever the service would
    say. *)
Lemma geocode_cache_round_trip_witness :
  let first :=
    Helpers._geocode_address
      (MoreScenarios.replies 200 (Some MoreScenarios.geocoding_body))
      MoreScenarios.quote MoreScenarios.float_of_str ∅ "A st" None "token" in
  Helpers._geocode_address (MoreScenarios.replies 500 None)
                           MoreScenarios.quote MoreScenarios.float_of_str
                           (snd (fst first)) "A st" None "other"
  = (Returns (2%Q, 3%Q), snd (fst first), []).
Proof.
  intros first.
  assert (first = (Returns (2%Q, 3%Q), snd (fst first), snd first)) as E
      by (vm_compute; reflexivity).
  destruct (geocode_cache_round_trip _ _ _ _ _ _ _ _ _ _ E) as (_ & _ & _ & _ & _ & Hrerun).
  apply Hrerun.
Defined.

Lemma geocode_cache_key_collisions_witness :
  Helpers.cache_key "A st|Paris" None = Helpers.cache_key "A st" (Some "Paris").
Proof.
  assert ("Paris" <> "") as Hhint by discriminate.
  exact (proj1 (proj1 (proj2 (geocode_cache_key_collisions
                                (MoreScenarios.replies 200 None) MoreScenarios.quote
                                MoreScenarios.float_of_str ∅ "A st" "Paris" "token"))
                      Hhint)).
Defined.

(** Status 503 from the service: each helper raises status 502. *)
Lemma helpers_report_status_alike_witness :
  raised_status
    (fst (Helpers._fetch_isochrone (MoreScenarios.replies 503 None)
                                   MoreScenarios.str_float MoreScenarios.shape
                                   (0%Q, 0%Q) 15 "walking" "token"))
  = Some 502%Z.
Proof.
  assert ((∅ : gmap string Coordinate) !! Helpers.cache_key "A st" None = None) as Hmiss
      by apply lookup_empty.
  pose proof (helpers_report_status_alike
                (MoreScenarios.replies 503 None) MoreScenarios.quote
                MoreScenarios.str_float MoreScenarios.float_of_str MoreScenarios.shape
                ∅ "A st" None (0%Q, 0%Q) (0%Q, 0%Q) (1%Q, 1%Q) 15 "walking" "token"
                Hmiss) as P.
  cbv zeta in P. destruct P as (_ & Hiso & _).
  apply Hiso. reflexivity.
Defined.

Lemma fetch_isochrone_returns_no_empty_geometry_witness :
  exists g,
    fst (Helpers._fetch_isochrone
           (MoreScenarios.replies 200 (Some MoreScenarios.isochrone_body))
           MoreScenarios.str_float MoreScenarios.shape (0%Q, 0%Q) 15 "walking" "token")
    = Returns g
    /\ is_empty g = false.
Proof.
  eexists. split; [vm_compute; reflexivity|].
  match goal with
  | |- is_empty ?g = false =>
      assert (fst (Helpers._fetch_isochrone
                     (MoreScenarios.replies 200 (Some MoreScenarios.isochrone_body))
                     MoreScenarios.str_float MoreScenarios.shape
                     (0%Q, 0%Q) 15 "walking" "token") = Returns g) as Hg
          by (vm_compute; reflexivity);
      exact (proj1 (proj2 (fetch_isochrone_returns_no_empty_geometry
                             (MoreScenarios.replies 200 (Some MoreScenarios.isochrone_body))
                             MoreScenarios.str_float MoreScenarios.shape
                             (0%Q, 0%Q) 15 "walking" "token") g Hg))
  end.
Defined.

(** Two routes, the first of duration 0: the travel time is 0, not a
    missing duration. *)
Lemma travel_time_is_first_route_duration_witness :
  fst (Helpers._travel_time_seconds
         (MoreScenarios.replies 200 (Some MoreScenarios.directions_body))
         MoreScenarios.str_float MoreScenarios.float_of_str
         (0%Q, 0%Q) (1%Q, 1%Q) "walking" "token")
  = Returns 0%Q.
Proof.
  assert (200 < 400)%Z as Hstatus by lia.
  pose proof (travel_time_is_first_route_duration
                (MoreScenarios.replies 200 (Some MoreScenarios.directions_body))
                MoreScenarios.str_float MoreScenarios.float_of_str
                (0%Q, 0%Q) (1%Q, 1%Q) "walking" "token" 200
                [("routes", JArray [MoreScenarios.member1 "duration" (JNumber 0);
                                    MoreScenarios.member1 "duration" (JNumber 60)])]
                eq_refl Hstatus) as P.
  cbv zeta in P. destruct P as [_ P]. exact P.
Defined.

Lemma geocode_is_first_feature_coordinates_witness :
  let client_get := MoreScenarios.replies 200 (Some MoreScenarios.geocoding_body) in
  Helpers._geocode_address client_get MoreScenarios.quote MoreScenarios.float_of_str
                           ∅ "A st" (Some "Paris") "token"
  = (Returns (2%Q, 3%Q),
     <[Helpers.cache_key "A st" (Some "Paris") := (2%Q, 3%Q)]> ∅,
     [Helpers.geocode_request MoreScenarios.quote "A st" (Some "Paris") "token"]).
Proof.
  intros client_get.
  assert ((∅ : gmap string Coordinate) !! Helpers.cache_key "A st" (Some "Paris") = None)
    as Hmiss by apply lookup_empty.
  assert (200 < 400)%Z as Hstatus by lia.
  pose proof (geocode_is_first_feature_coordinates
                client_get MoreScenarios.quote MoreScenarios.float_of_str
                ∅ "A st" (Some "Paris") "token" 200
                [("features",
                  JArray [MoreScenarios.member1
                            "geometry"
                            (MoreScenarios.member1 "coordinates"
                                                   (JArray [JNumber 2; JNumber 3]))])]
                Hmiss eq_refl Hstatus) as P.
  cbv zeta in P.
  exact (P [("coordinates", JArray [JNumber 2; JNumber 3])] 2%Q 3%Q [] eq_refl eq_refl).
Defined.

(** Status 404 from the isochrone service is raised as status 400. *)
Lemma helpers_raise_four_statuses_witness :
  raised_status
    (fst (Helpers._fetch_isochrone (MoreScenarios.replies 404 None)
                                   MoreScenarios.str_float MoreScenarios.shape
                                   (0%Q, 0%Q) 15 "walking" "token"))
  = Some 400%Z
  /\ (400 = 400 \/ 400 = 401 \/ 400 = 429 \/ 400 = 502)%Z.
Proof.
  assert (forall geom, raised_status (MoreScenarios.shape geom) = None) as Hshape
      by (intros geom; destruct geom; reflexivity).
  assert (raised_status
            (fst (Helpers._fetch_isochrone (MoreScenarios.replies 404 None)
                                           MoreScenarios.str_float MoreScenarios.shape
                                           (0%Q, 0%Q) 15 "walking" "token"))
          = Some 400%Z) as Hraised by reflexivity.
  split; [exact Hraised|].
  exact (helpers_raise_four_statuses
           (MoreScenarios.replies 404 None) MoreScenarios.quote MoreScenarios.str_float
           MoreScenarios.float_of_str MoreScenarios.shape
           ∅ "A st" None (0%Q, 0%Q) (0%Q, 0%Q) (1%Q, 1%Q) 15 "walking" "token" 400
           Hshape (or_intror (or_introl Hraised))).
Defined.

(** No public token, the API token set: the page carries the API token. *)
Lemma config_js_follows_the_api_token_witness :
  config_js None (Some "test-token")
  = "window.MAPBOX_TOKEN = " +:+ double_quote +:+ "test-token" +:+ double_quote
                             +:+ ";" +:+ newline.
Proof.
  pose proof (config_js_follows_the_api_token
                (Scenarios.fake Scenarios.shared 600) None) as P.
  cbv zeta in P. destruct P as [P _].
  destruct (P "test-token" eq_refl) as [_ E]. exact E.
Defined.
